(** * stream6.py: the CoinGlass client and its summary, embedded in Rocq

    The development follows [src/stream6.py]:
    - Python values coming out of [response.json()] are the type [json];
    - the methods of [CoinGlassAPI] are computations in a small monad [M]
      that threads the client object, the lines printed, the requests sent
      and the widgets drawn, and that ends in a returned value or in a
      raised exception;
    - the calls into pandas (frame construction from a list of dicts,
      [to_datetime], [.dt.date], [sort_values], [iloc]) are written out in
      [Module pd]; what pandas decides by its own rules, and not alike in
      every version (the dtype of a column, the reading of a time that is
      no int64 epoch, the resolution of the times), is a parameter
      [pd.library] over which the statements range. *)

From Stdlib Require Import ZArith List String Ascii Bool Lia.
From Stdlib Require Import Sorting.Sorted Sorting.Permutation.
Import ListNotations.
Open Scope string_scope.
Open Scope list_scope.
Open Scope Z_scope.

Set Implicit Arguments.

(** ** Python values *)

(** The image of a JSON document under [json.loads]: [None], [bool], [int],
    [float], [str], [list] and [dict].  A float is kept as the decimal
    [m * 10^e] it was read from; no arithmetic is done on it.  A dict is
    its items in insertion order. *)
#[warnings="-register-all"]
Inductive json : Type :=
| JNull
| JBool (b : bool)
| JInt (z : Z)
| JFloat (m e : Z)
| JStr (s : string)
| JArr (items : list json)
| JObj (fields : list (string * json)).

(** [d.get(k)] on the items of a dict. *)
Fixpoint lookup {A : Type} (k : string) (kv : list (string * A)) : option A :=
  match kv with
  | [] => None
  | (k', v) :: rest => if String.eqb k k' then Some v else lookup k rest
  end.

(** ** The HTTP exchange *)

Record request : Type := {
  url : string;
  req_headers : list (string * string);
  req_params : list (string * json)
}.

(** Why [response.json()] raises on a body:
    - [Malformed]: the body is no JSON text and requests decodes with the
      [json] of the standard library; it raises its [JSONDecodeError], a
      subclass of [json.JSONDecodeError];
    - [MalformedSimplejson]: the same body when requests decodes with
      simplejson; its [JSONDecodeError] is then no [json.JSONDecodeError];
    - [DigitLimit]: an integer literal longer than the interpreter converts
      (4300 digits by default), a [ValueError];
    - [TooDeep]: nesting beyond the recursion limit, a [RecursionError]. *)
Inductive undecodable : Type :=
| Malformed
| MalformedSimplejson
| DigitLimit
| TooDeep.

Inductive decoded : Type :=
| Decoded (j : json)
| Undecodable (why : undecodable).

(** What the client reads of a [requests.Response]: the status line and
    what [response.json()] does. *)
Record response : Type := {
  status_code : Z;
  reason : string;
  json_body : decoded
}.

(** [requests.get] either hands back a response or fails below HTTP. *)
Inductive reply : Type :=
| Answer (r : response)
| NetworkError.

(** ** Exceptions and printed lines *)

(** [JSONDecodeError] stands for the instances of [json.JSONDecodeError],
    [SimplejsonDecodeError] for the error of the same name that requests
    raises over simplejson. *)
Inductive exn : Type :=
| HTTPError (r : response)
| ConnectionError
| JSONDecodeError
| SimplejsonDecodeError
| KeyError (k : string)
| TypeError
| AttributeError
| IndexError
| ValueError
| RecursionError
| OverflowError
| OutOfBoundsDatetime.

Definition is_HTTPError (e : exn) : bool :=
  match e with HTTPError _ => true | _ => false end.

Definition is_JSONDecodeError (e : exn) : bool :=
  match e with JSONDecodeError => true | _ => false end.

(** The exception [response.json()] raises. *)
Definition raised_by (why : undecodable) : exn :=
  match why with
  | Malformed => JSONDecodeError
  | MalformedSimplejson => SimplejsonDecodeError
  | DigitLimit => ValueError
  | TooDeep => RecursionError
  end.

(** An f-string is kept as its template and the values interpolated. *)
Inductive arg : Type :=
| AInt (z : Z)
| AStr (s : string)
| AJson (j : json)
| AExn (e : exn).

Record line : Type := Line { template : string; args : list arg }.

(** ** The client object *)

Record CoinGlassAPI : Type := {
  api_key : string;
  base_url : string;
  headers : list (string * string)
}.

(** ** The monad of the methods *)

(** A run ends in a value, in an exception, or leaves the fragment of
    Python and pandas written out here ([Unmodelled]: nothing is claimed
    about such a run, and no [except] clause catches it). *)
Inductive outcome (A : Type) : Type :=
| Return (a : A)
| Raise (e : exn)
| Unmodelled.
Arguments Raise {A} e.
Arguments Unmodelled {A}.

(** ** The calls into pandas *)

Module pd.

(** A cell holds a Python value, [NaN] for a missing one, a [Timestamp]
    (the instant, in nanoseconds since the epoch), a [datetime.date] (days
    since 1970-01-01) or [NaT], the missing time. *)
Inductive cell : Type :=
| Obj (j : json)
| NaN
| Timestamp (ns : Z)
| Date (days : Z)
| NaT.

(** A row carries its index label and one cell per column. *)
Record row : Type := { label : nat; cells : list cell }.

Record DataFrame : Type := { columns : list string; rows : list row }.

Definition int64_max : Z := 9223372036854775807.

(** An int64 other than its minimum, which numpy reads as [NaT]. *)
Definition in_int64 (z : Z) : bool :=
  (- int64_max <=? z) && (z <=? int64_max).

(** *** What is left to pandas *)

(** The errors of [to_datetime]: [OutOfBoundsDatetime], [ValueError],
    [TypeError], [OverflowError]. *)
Inductive refusal : Type :=
| OutOfBounds
| BadValue
| BadType
| Overflow.

Definition error_of (why : refusal) : exn :=
  match why with
  | OutOfBounds => OutOfBoundsDatetime
  | BadValue => ValueError
  | BadType => TypeError
  | Overflow => OverflowError
  end.

(** What [to_datetime] makes of one value that is no integer epoch: an
    instant, [NaT], or an error ([Unread] where a stand-in for pandas does
    not say). *)
Inductive reading : Type :=
| At (ns : Z)
| Null
| Refused (why : refusal)
| Unread.

(** The resolution of the times [to_datetime] builds from integer epochs:
    nanoseconds (pandas before 3, where an epoch beyond the int64 count of
    nanoseconds raises), the unit of the call (pandas 3, where such an
    epoch is held), or left open. *)
Inductive span : Type :=
| Nanoseconds
| OfTheUnit
| Unsettled.

(** The decisions of pandas that the client does not take and that differ
    between versions:
    - [coerce vs j]: the cell the frame constructor makes of the value [j]
      in a column whose values are [vs] ([None] for a record without the
      key), when the column is not one of int64 integers, by the dtype it
      infers for the column;
    - [resolution];
    - [read u col c]: what [to_datetime], with [u] nanoseconds per unit,
      makes of the cell [c] of the column [col], when [c] is neither an
      integer nor missing. *)
Record library : Type := {
  coerce : list (option json) -> json -> cell;
  resolution : span;
  read : Z -> list cell -> cell -> reading
}.

(** *** Frames from records *)

(** The images of a list under [f], when [f] accepts every element. *)
Fixpoint all_some {A B : Type} (f : A -> option B) (l : list A)
    : option (list B) :=
  match l with
  | [] => Some []
  | a :: rest =>
      match f a, all_some f rest with
      | Some b, Some bs => Some (b :: bs)
      | _, _ => None
      end
  end.

(** The images of a list under [f], up to the first element on which [f]
    does not return. *)
Fixpoint each {A B : Type} (f : A -> outcome B) (l : list A)
    : outcome (list B) :=
  match l with
  | [] => Return []
  | a :: rest =>
      match f a with
      | Return b =>
          match each f rest with
          | Return bs => Return (b :: bs)
          | Raise e => Raise e
          | Unmodelled => Unmodelled
          end
      | Raise e => Raise e
      | Unmodelled => Unmodelled
      end
  end.

(** The records of a list of dicts. *)
Definition as_record (j : json) : option (list (string * json)) :=
  match j with
  | JObj kv => Some kv
  | _ => None
  end.

Definition as_records (l : list json) : option (list (list (string * json))) :=
  all_some as_record l.

(** The records [pd.DataFrame(data)] builds its rows from: the dicts of a
    list, none for [None].  A list with an element that is no dict, and
    every other value, is outside the fragment. *)
Definition records_of (data : json) : option (list (list (string * json))) :=
  match data with
  | JArr l => as_records l
  | JNull => Some []
  | _ => None
  end.

Definition mem (k : string) (ks : list string) : bool :=
  existsb (String.eqb k) ks.

(** The keys of the records, each once, in order of first appearance. *)
Definition add_keys (seen : list string) (kv : list (string * json))
    : list string :=
  fold_left (fun acc p => if mem (fst p) acc then acc else acc ++ [fst p])
            kv seen.

Definition union_keys (recs : list (list (string * json))) : list string :=
  fold_left add_keys recs [].

(** A column of int64 integers: every record has the key, with an int
    that fits.  Such a column is held as it came. *)
Definition int64_column (vs : list (option json)) : bool :=
  forallb (fun v => match v with
                    | Some (JInt z) => in_int64 z
                    | _ => false
                    end) vs.

(** The cell for the value [v] of a record in a column of values [vs]: a
    record without the key has [NaN]; a value of an int64 column is kept;
    every other value is what pandas makes of it in its column. *)
Definition cell_of (lib : library) (vs : list (option json))
    (v : option json) : cell :=
  match v with
  | None => NaN
  | Some j => if int64_column vs then Obj j else coerce lib vs j
  end.

(** The cell of the record [kv] under the column [c] of a frame built from
    [recs]. *)
Definition built (lib : library) (recs : list (list (string * json)))
    (kv : list (string * json)) (c : string) : cell :=
  cell_of lib (map (lookup c) recs) (lookup c kv).

(** The rows of the frame: the records from [rest] on, labelled from [i],
    each with its cells under [cols]; [recs] are all the records of the
    frame. *)
Fixpoint label_from (lib : library) (recs : list (list (string * json)))
    (cols : list string) (i : nat) (rest : list (list (string * json)))
    : list row :=
  match rest with
  | [] => []
  | kv :: rest' =>
      {| label := i; cells := map (built lib recs kv) cols |}
        :: label_from lib recs cols (S i) rest'
  end.

(** [pd.DataFrame(data)] and [pd.DataFrame(data, columns=cols)]: with
    [columns] the frame has exactly those columns, in that order, a key a
    record lacks giving [NaN] and a key outside [columns] being dropped;
    without, the columns are the keys met. *)
Definition DataFrame_of (lib : library) (data : json)
    (cols : option (list string)) : outcome DataFrame :=
  match records_of data with
  | Some recs =>
      let cs := match cols with Some c => c | None => union_keys recs end in
      Return {| columns := cs; rows := label_from lib recs cs 0 recs |}
  | None => Unmodelled
  end.

(** The position of a column. *)
Fixpoint position (c : string) (cols : list string) : option nat :=
  match cols with
  | [] => None
  | c' :: rest =>
      if String.eqb c c' then Some O
      else match position c rest with
           | Some n => Some (S n)
           | None => None
           end
  end.

Definition cell_at (n : nat) (r : row) : cell := nth n (cells r) NaN.

(** [df[c]]: the cells of a column, [KeyError] when there is none. *)
Definition column (df : DataFrame) (c : string) : outcome (list cell) :=
  match position c (columns df) with
  | Some n => Return (map (cell_at n) (rows df))
  | None => Raise (KeyError c)
  end.

Fixpoint replace_nth (n : nat) (x : cell) (l : list cell) : list cell :=
  match n, l with
  | _, [] => []
  | O, _ :: rest => x :: rest
  | S n', y :: rest => y :: replace_nth n' x rest
  end.

(** [df[c] = values], the values being as many as the rows: an existing
    column is overwritten in place, a new one is appended. *)
Definition set_column (df : DataFrame) (c : string) (values : list cell)
    : DataFrame :=
  match position c (columns df) with
  | Some n =>
      {| columns := columns df;
         rows := map (fun rv => {| label := label (fst rv);
                                   cells := replace_nth n (snd rv) (cells (fst rv)) |})
                     (combine (rows df) values) |}
  | None =>
      {| columns := columns df ++ [c];
         rows := map (fun rv => {| label := label (fst rv);
                                   cells := cells (fst rv) ++ [snd rv] |})
                     (combine (rows df) values) |}
  end.

(** *** Times *)

Definition ns_per_s : Z := 1000000000.
Definition ns_per_ms : Z := 1000000.
Definition ns_per_day : Z := 86400000000000.

(** [Timestamp.date()]: the calendar day, the time of day dropped. *)
Definition date_of (ns : Z) : Z := ns / ns_per_day.

(** The days [datetime.date] holds: 0001-01-01 to 9999-12-31. *)
Definition date_min : Z := -719162.
Definition date_max : Z := 2932896.

Definition has_date (ns : Z) : bool :=
  (date_min <=? date_of ns) && (date_of ns <=? date_max).

(** [to_datetime] on one cell of the column [col], [u] being the
    nanoseconds in one unit.  An integer epoch is read exactly: always
    when its nanosecond count fits int64, and beyond that only where the
    times are held at the resolution of the unit ([OutOfBoundsDatetime]
    where they are held in nanoseconds).  A missing value ([NaN], [None])
    is [NaT].  The reading of every other value is the library's.  An
    instant after the year 9999 is outside the fragment. *)
Definition instant (lib : library) (u : Z) (col : list cell) (c : cell)
    : outcome cell :=
  match c with
  | Obj (JInt z) =>
      if in_int64 (z * u) then Return (Timestamp (z * u))
      else if in_int64 z then
        match resolution lib with
        | Nanoseconds => Raise OutOfBoundsDatetime
        | OfTheUnit =>
            if has_date (z * u) then Return (Timestamp (z * u)) else Unmodelled
        | Unsettled => Unmodelled
        end
      else Unmodelled
  | NaN | Obj JNull | NaT => Return NaT
  | _ =>
      match read lib u col c with
      | At ns => if has_date ns then Return (Timestamp ns) else Unmodelled
      | Null => Return NaT
      | Refused why => Raise (error_of why)
      | Unread => Unmodelled
      end
  end.

(** [pd.to_datetime(col, unit=...)], [per_unit] being the nanoseconds in
    one unit. *)
Definition to_datetime (lib : library) (col : list cell) (per_unit : Z)
    : outcome (list cell) :=
  each (instant lib per_unit col) col.

Definition stamp (c : cell) : option Z :=
  match c with
  | Timestamp ns => Some ns
  | _ => None
  end.

Definition day (c : cell) : option Z :=
  match c with
  | Date d => Some d
  | _ => None
  end.

(** [col.dt.date] on a column of times: the day of a timestamp, [NaT] for
    [NaT]. *)
Definition date_cell (c : cell) : outcome cell :=
  match c with
  | Timestamp ns =>
      if has_date ns then Return (Date (date_of ns)) else Unmodelled
  | NaT => Return NaT
  | _ => Unmodelled
  end.

Definition dt_date (col : list cell) : outcome (list cell) :=
  each date_cell col.

Definition stamp_or_NaT (c : cell) : bool :=
  match c with
  | Timestamp _ | NaT => true
  | _ => false
  end.

Definition day_or_NaT (c : cell) : bool :=
  match c with
  | Date _ | NaT => true
  | _ => false
  end.

(** How the times of a column are read for sorting: as timestamps when it
    holds timestamps and [NaT] only, as days when it holds dates and [NaT]
    only. *)
Definition reader (col : list cell) : option (cell -> option Z) :=
  if forallb stamp_or_NaT col then Some stamp
  else if forallb day_or_NaT col then Some day
  else None.

(** The sort keys of a time column, [None] for [NaT]. *)
Definition time_keys (col : list cell) : option (list (option Z)) :=
  match reader col with
  | Some key => Some (map key col)
  | None => None
  end.

(** Stable insertion sort of keyed rows, ascending. *)
Fixpoint insert (x : Z * row) (l : list (Z * row)) : list (Z * row) :=
  match l with
  | [] => [x]
  | y :: rest =>
      if fst x <=? fst y then x :: l else y :: insert x rest
  end.

Fixpoint argsort (l : list (Z * row)) : list (Z * row) :=
  match l with
  | [] => []
  | x :: rest => insert x (argsort rest)
  end.

(** The rows that have a time in column [n], with it, and the rows that
    have [NaT], both in the order of the frame. *)
Definition timed (key : cell -> option Z) (n : nat) (rs : list row)
    : list (Z * row) :=
  flat_map (fun r => match key (cell_at n r) with
                     | Some k => [(k, r)]
                     | None => []
                     end) rs.

Definition untimed (key : cell -> option Z) (n : nat) (rs : list row)
    : list row :=
  filter (fun r => match key (cell_at n r) with
                   | Some _ => false
                   | None => true
                   end) rs.

(** [df.sort_values(by, ascending=...)] on a time column, with the default
    [na_position="last"].  As pandas' [nargsort] does, the rows without a
    time are set aside and appended in their order; of the others a
    descending sort reverses the rows, sorts ascending and reverses the
    result; the rows keep their labels.  The order among rows of equal key
    is the stable one here; pandas' default sort kind leaves it open. *)
Definition sort_values (df : DataFrame) (by_ : string) (ascending : bool)
    : outcome DataFrame :=
  match position by_ (columns df) with
  | Some n =>
      match reader (map (cell_at n) (rows df)) with
      | Some key =>
          let keyed := timed key n (rows df) in
          let sorted :=
            if ascending then argsort keyed else rev (argsort (rev keyed)) in
          Return {| columns := columns df;
                    rows := map snd sorted ++ untimed key n (rows df) |}
      | None => Unmodelled
      end
  | None => Raise (KeyError by_)
  end.

(** [df.iloc[i]]: the row at a position, counted from the end when [i] is
    negative; [IndexError] outside the frame. *)
Definition iloc (df : DataFrame) (i : Z) : outcome row :=
  let n := Z.of_nat (List.length (rows df)) in
  let i' := if i <? 0 then n + i else i in
  if (0 <=? i') && (i' <? n) then
    match nth_error (rows df) (Z.to_nat i') with
    | Some r => Return r
    | None => Raise IndexError
    end
  else Raise IndexError.

(** [row[c]] for a row of the frame [df]. *)
Definition at_ (df : DataFrame) (r : row) (c : string) : outcome cell :=
  match position c (columns df) with
  | Some n => Return (cell_at n r)
  | None => Raise (KeyError c)
  end.

(** *** A stand-in for pandas *)

(** The library for the runs that are computed here.
    - A column of numbers (ints that fit int64, floats, [None], with a
      number among them) that is no int64 column is float64: an int [z]
      becomes the float of [z], [None] becomes [NaN].
    - Every other column is held as objects and keeps its values (so does
      pandas before 3; pandas 3 holds a column of strings and [None]
      otherwise).
    - A float whose value is a whole number [v] of units is the instant
      [v * u], as long as this count stays within 2^53, where floats are
      exact; on every other value it is silent, as it is on the
      resolution. *)
Definition numeric (vs : list (option json)) : bool :=
  forallb (fun v => match v with
                    | None | Some JNull | Some (JFloat _ _) => true
                    | Some (JInt z) => in_int64 z
                    | _ => false
                    end) vs
  && existsb (fun v => match v with
                       | Some (JInt _) | Some (JFloat _ _) => true
                       | _ => false
                       end) vs.

Definition reference_coerce (vs : list (option json)) (j : json) : cell :=
  if numeric vs then
    match j with
    | JInt z => Obj (JFloat z 0)
    | JNull => NaN
    | _ => Obj j
    end
  else Obj j.

(** The whole number a float literal stands for, when it is one. *)
Definition whole (m e : Z) : option Z :=
  if 0 <=? e then Some (m * 10 ^ e)
  else if m mod 10 ^ (- e) =? 0 then Some (m / 10 ^ (- e))
  else None.

Definition exact_float (z : Z) : bool :=
  (- 9007199254740992 <=? z) && (z <=? 9007199254740992).

Definition reference_read (u : Z) (col : list cell) (c : cell) : reading :=
  match c with
  | Obj (JFloat m e) =>
      match whole m e with
      | Some v => if exact_float (v * u) then At (v * u) else Unread
      | None => Unread
      end
  | _ => Unread
  end.

Definition reference : library :=
  {| coerce := reference_coerce;
     resolution := Unsettled;
     read := reference_read |}.

End pd.

(** ** Charts and widgets *)

(** A plotly figure is kept as the call that built it. *)
Record Figure : Type := {
  fig_kind : string;
  fig_data : pd.DataFrame;
  fig_x : string;
  fig_y : list string;
  fig_title : string
}.

(** What an f-string of [main] interpolates: a cell of a frame or a string. *)
Inductive shown : Type :=
| SCell (c : pd.cell)
| SStr (s : string).

(** [st.metric(label, f"...")] and [st.plotly_chart(fig)]. *)
Inductive widget : Type :=
| Metric (label : string) (template : string) (values : list shown)
| PlotlyChart (fig : Figure).

Record state : Type := {
  obj : CoinGlassAPI;          (* the attributes of [self] *)
  stdout : list line;          (* lines printed, oldest first *)
  wire : list request;         (* requests sent, newest first *)
  page : list widget           (* widgets drawn, oldest first *)
}.

(** Sequencing of steps that touch no state. *)
Definition and_then {A B} (o : outcome A) (k : A -> outcome B) : outcome B :=
  match o with
  | Return a => k a
  | Raise e => Raise e
  | Unmodelled => Unmodelled
  end.

Definition M (A : Type) : Type := state -> outcome A * state.

Definition ret {A} (a : A) : M A := fun s => (Return a, s).

Definition bind {A B} (m : M A) (k : A -> M B) : M B :=
  fun s =>
    match m s with
    | (Return a, s') => k a s'
    | (Raise e, s') => (Raise e, s')
    | (Unmodelled, s') => (Unmodelled, s')
    end.

Definition raise {A} (e : exn) : M A := fun s => (Raise e, s).

Definition unmodelled {A} : M A := fun s => (Unmodelled, s).

Definition lift {A} (o : outcome A) : M A := fun s => (o, s).

Definition self : M CoinGlassAPI := fun s => (Return (obj s), s).

Definition print (l : line) : M unit :=
  fun s => (Return tt,
            {| obj := obj s; stdout := stdout s ++ [l]; wire := wire s;
               page := page s |}).

Definition draw (w : widget) : M unit :=
  fun s => (Return tt,
            {| obj := obj s; stdout := stdout s; wire := wire s;
               page := page s ++ [w] |}).

(** [try: body except E as e: handler e], for the exception class
    recognised by [caught]. *)
Definition try_except {A} (caught : exn -> bool) (body : M A)
    (handler : exn -> M A) : M A :=
  fun s =>
    match body s with
    | (Raise e, s') => if caught e then handler e s' else (Raise e, s')
    | r => r
    end.

Declare Scope monad_scope.
Delimit Scope monad_scope with monad.
Notation "x <- c ;; k" := (bind c (fun x => k))
  (at level 61, c at next level, right associativity) : monad_scope.
Notation "c ;;; k" := (bind c (fun _ => k))
  (at level 61, right associativity) : monad_scope.
Notation "x <~ c ;; k" := (and_then c (fun x => k))
  (at level 61, c at next level, right associativity) : monad_scope.
Open Scope monad_scope.

(** ** Subscripting and attribute access on Python values *)

(** [v[k]] for a string key [k]: a dict looks the key up; every other JSON
    value refuses a string subscript. *)
Definition getitem (v : json) (k : string) : outcome json :=
  match v with
  | JObj kv =>
      match lookup k kv with
      | Some x => Return x
      | None => Raise (KeyError k)
      end
  | _ => Raise TypeError
  end.

(** [v.items()]: only a dict has the method. *)
Definition items (v : json) : outcome (list (string * json)) :=
  match v with
  | JObj kv => Return kv
  | _ => Raise AttributeError
  end.

(** [for item in v]: a list yields its elements, a dict its keys, a string
    its characters; the other JSON values are not iterable. *)
Definition iterate (v : json) : outcome (list json) :=
  match v with
  | JArr l => Return l
  | JObj kv => Return (map (fun p => JStr (fst p)) kv)
  | JStr s => Return (map (fun c => JStr (String c EmptyString)) (list_ascii_of_string s))
  | _ => Raise TypeError
  end.

(** ASCII upper-casing, the part of [str.upper] that the symbols of the
    catalog exercise. *)
Definition ascii_upper (c : ascii) : ascii :=
  let n := nat_of_ascii c in
  if (andb (Nat.leb 97 n) (Nat.leb n 122)) then ascii_of_nat (n - 32) else c.

Fixpoint str_upper (s : string) : string :=
  match s with
  | EmptyString => EmptyString
  | String c rest => String (ascii_upper c) (str_upper rest)
  end.

(** The result of [CoinGlassAPI.get_available_pairs]: one row per pair. *)
Record InstrumentRef : Type := {
  exchange : string;
  instrumentId : json
}.

Section Client.

(** [str.upper]; the provider: the reply to the newest request, given
    everything sent so far; and pandas. *)
Variable upper : string -> string.
Variable net : list request -> reply.
Variable pandas : pd.library.

(** [v.upper()]: only a string has the method. *)
Definition upper_of (v : json) : outcome string :=
  match v with
  | JStr s => Return (upper s)
  | _ => Raise AttributeError
  end.

(** *** Transport *)

(** [CoinGlassAPI.__init__] and [_get_headers]. *)
Definition _get_headers (key : string) : list (string * string) :=
  [("accept", "application/json"); ("coinglassSecret", key)].

Definition __init__ (key : string) : CoinGlassAPI :=
  {| api_key := key;
     base_url := "https://open-api.coinglass.com";
     headers := _get_headers key |}.

(** [requests.get(url, headers=..., params=...)]. *)
Definition requests_get (u : string) (h : list (string * string))
    (p : list (string * json)) : M response :=
  fun s =>
    let sent := {| url := u; req_headers := h; req_params := p |} :: wire s in
    let s' := {| obj := obj s; stdout := stdout s; wire := sent;
                 page := page s |} in
    match net sent with
    | Answer r => (Return r, s')
    | NetworkError => (Raise ConnectionError, s')
    end.

(** [Response.raise_for_status]: the client (4xx) and server (5xx) error
    statuses raise, every other status passes. *)
Definition is_error_status (c : Z) : bool :=
  (400 <=? c) && (c <? 600).

Definition raise_for_status (r : response) : M unit :=
  if is_error_status (status_code r) then raise (HTTPError r) else ret tt.

(** [Response.json]: the decoded body, or the exception of the body that
    does not decode. *)
Definition response_json (r : response) : M json :=
  match json_body r with
  | Decoded j => ret j
  | Undecodable why => raise (raised_by why)
  end.

(** The response an [HTTPError] carries ([e.response]). *)
Definition response_of (e : exn) : M response :=
  match e with
  | HTTPError r => ret r
  | _ => unmodelled
  end.

(** [CoinGlassAPI._request]. *)
Definition _request (endpoint : string) (params : list (string * json))
    : M json :=
  me <- self ;;
  let u := (base_url me ++ endpoint)%string in
  try_except is_HTTPError
    (resp <- requests_get u (headers me) params ;;
     raise_for_status resp ;;;
     response_json resp)
    (fun e =>
       r <- response_of e ;;
       print (Line "HTTP error occurred: {} {}"
                   [AInt (status_code r); AStr (reason r)]) ;;;
       try_except is_JSONDecodeError
         (error_details <- response_json r ;;
          print (Line "Error details: {}" [AJson error_details]))
         (fun _ => print (Line "No detailed error message available from API." [])) ;;;
       raise e).

(** *** Instrument discovery *)

(** The inner loop of [get_available_pairs] over the instruments of one
    exchange; [pairs] is the list built so far. *)
Fixpoint scan_instruments (coin exchange_ : string) (instruments : list json)
    (pairs : list InstrumentRef) : outcome (list InstrumentRef) :=
  match instruments with
  | [] => Return pairs
  | item :: rest =>
      base <~ getitem item "baseAsset" ;;
      b <~ upper_of base ;;
      quote <~ getitem item "quoteAsset" ;;
      q <~ upper_of quote ;;
      if String.eqb (upper coin) b || String.eqb (upper coin) q then
        i <~ getitem item "instrumentId" ;;
        scan_instruments coin exchange_ rest
          (pairs ++ [{| exchange := exchange_; instrumentId := i |}])
      else scan_instruments coin exchange_ rest pairs
  end.

(** The outer loop, over the items of [data["data"]]. *)
Fixpoint scan_exchanges (coin : string) (exchanges : list (string * json))
    (pairs : list InstrumentRef) : outcome (list InstrumentRef) :=
  match exchanges with
  | [] => Return pairs
  | (exchange_, instruments) :: rest =>
      its <~ iterate instruments ;;
      pairs' <~ scan_instruments coin exchange_ its pairs ;;
      scan_exchanges coin rest pairs'
  end.

(** [CoinGlassAPI.get_available_pairs]; the frame returned is kept as its
    rows. *)
Definition get_available_pairs (coin : string) : M (list InstrumentRef) :=
  let endpoint := "/public/v2/instrument" in
  let params := [("symbol", JStr coin)] in
  data <- _request endpoint params ;;
  catalog <- lift (getitem data "data") ;;
  exchanges <- lift (items catalog) ;;
  lift (scan_exchanges coin exchanges []).

(** *** The five metrics *)

Definition default_interval : json := JStr "h24".
Definition default_limit : json := JInt 50.

Definition query (ex_ pair interval limit : json) : list (string * json) :=
  [("ex", ex_); ("pair", pair); ("interval", interval); ("limit", limit)].

(** [CoinGlassAPI.fetch_ohlc_oi_data]. *)
Definition fetch_ohlc_oi_data (exchange_ pair : json) : M pd.DataFrame :=
  let endpoint := "/public/v2/indicator/open_interest_ohlc" in
  let params :=
    [("ex", exchange_); ("pair", pair); ("interval", JStr "h24");
     ("limit", JInt 50)] in
  try_except is_HTTPError
    (request_ <- _request endpoint params ;;
     data <- lift (getitem request_ "data") ;;
     df <- lift (pd.DataFrame_of pandas data None) ;;
     t <- lift (pd.column df "t") ;;
     stamps <- lift (pd.to_datetime pandas t pd.ns_per_ms) ;;
     days <- lift (pd.dt_date stamps) ;;
     let df := pd.set_column df "t" days in
     df <- lift (pd.sort_values df "t" false) ;;
     ret df)
    (fun err =>
       print (Line "HTTP error occurred: {}" [AExn err]) ;;;
       raise err).

(** [CoinGlassAPI.fetch_price_ohlc_data]. *)
Definition fetch_price_ohlc_data (exchange_ pair interval limit : json)
    : M pd.DataFrame :=
  let endpoint := "/public/v2/indicator/price_ohlc" in
  let params := query exchange_ pair interval limit in
  try_except is_HTTPError
    (request_ <- _request endpoint params ;;
     data <- lift (getitem request_ "data") ;;
     df <- lift (pd.DataFrame_of pandas data
                 (Some ["t"; "o"; "h"; "l"; "c"; "v"])) ;;
     t <- lift (pd.column df "t") ;;
     stamps <- lift (pd.to_datetime pandas t pd.ns_per_s) ;;
     days <- lift (pd.dt_date stamps) ;;
     let df := pd.set_column df "t" days in
     df <- lift (pd.sort_values df "t" false) ;;
     ret df)
    (fun err =>
       print (Line "HTTP error occurred: {}" [AExn err]) ;;;
       raise err).

(** [CoinGlassAPI.fetch_top_long_short_ratio]. *)
Definition fetch_top_long_short_ratio (exchange_ pair interval limit : json)
    : M pd.DataFrame :=
  let endpoint := "/public/v2/indicator/top_long_short_account_ratio" in
  let params := query exchange_ pair interval limit in
  df <- try_except is_HTTPError
    (request_ <- _request endpoint params ;;
     data <- lift (getitem request_ "data") ;;
     df <- lift (pd.DataFrame_of pandas data None) ;;
     t <- lift (pd.column df "createTime") ;;
     stamps <- lift (pd.to_datetime pandas t pd.ns_per_ms) ;;
     let df := pd.set_column df "createTime" stamps in
     df <- lift (pd.sort_values df "createTime" false) ;;
     ret df)
    (fun err =>
       print (Line "HTTP error occured: {}" [AExn err]) ;;;
       raise err) ;;
  ret df.

(** [CoinGlassAPI.fetch_top_long_short_position_ratio]. *)
Definition fetch_top_long_short_position_ratio
    (exchange_ pair interval limit : json) : M pd.DataFrame :=
  let endpoint := "/public/v2/indicator/top_long_short_position_ratio" in
  let params := query exchange_ pair interval limit in
  df <- try_except is_HTTPError
    (request_ <- _request endpoint params ;;
     data <- lift (getitem request_ "data") ;;
     df <- lift (pd.DataFrame_of pandas data None) ;;
     t <- lift (pd.column df "createTime") ;;
     stamps <- lift (pd.to_datetime pandas t pd.ns_per_ms) ;;
     let df := pd.set_column df "createTime" stamps in
     df <- lift (pd.sort_values df "createTime" false) ;;
     ret df)
    (fun err =>
       print (Line "HTTP error occured: {}" [AExn err]) ;;;
       raise err) ;;
  ret df.

(** [CoinGlassAPI.fetch_top_long_short_loser]. *)
Definition fetch_top_long_short_loser (exchange_ pair interval limit : json)
    : M pd.DataFrame :=
  let endpoint := "/public/v2/indicator/long_short_accounts" in
  let params := query exchange_ pair interval limit in
  df <- try_except is_HTTPError
    (request_ <- _request endpoint params ;;
     data <- lift (getitem request_ "data") ;;
     df <- lift (pd.DataFrame_of pandas data None) ;;
     t <- lift (pd.column df "createTime") ;;
     stamps <- lift (pd.to_datetime pandas t pd.ns_per_ms) ;;
     let df := pd.set_column df "createTime" stamps in
     df <- lift (pd.sort_values df "createTime" false) ;;
     ret df)
    (fun err =>
       print (Line "HTTP error occured: {}" [AExn err]) ;;;
       raise err) ;;
  ret df.

(** *** CoinGlassPlotter *)

(** plotly checks the call on its own terms (columns present, types it can
    draw) and hands the figure back or raises. *)
Variable plotly : Figure -> outcome Figure.

Definition plot_closing_prices (df : pd.DataFrame) (title : string)
    : outcome Figure :=
  plotly {| fig_kind := "line"; fig_data := df; fig_x := "t";
            fig_y := ["c"]; fig_title := title |}.

Definition plot_candlestick_chart (df : pd.DataFrame) (title : string)
    : outcome Figure :=
  _ <~ pd.column df "t" ;;
  _ <~ pd.column df "o" ;;
  _ <~ pd.column df "h" ;;
  _ <~ pd.column df "l" ;;
  _ <~ pd.column df "c" ;;
  plotly {| fig_kind := "candlestick"; fig_data := df; fig_x := "t";
            fig_y := ["o"; "h"; "l"; "c"]; fig_title := title |}.

Definition plot_long_short_ratios (df : pd.DataFrame) (title : string)
    : outcome Figure :=
  plotly {| fig_kind := "line"; fig_data := df; fig_x := "createTime";
            fig_y := ["longRatio"; "shortRatio"]; fig_title := title |}.

(** *** main *)

(** The page the user drives: what was typed, what each select box gives
    back for its options, whether the button was pressed; and the parsed
    [config.json]. *)
Variable text_input : string.
Variable selectbox : string -> list json -> json.
Variable button : bool.
Variable config : json.

(** [coinglass_api = CoinGlassAPI(api_key=...)]. *)
Definition construct (key : string) : M unit :=
  fun s => (Return tt,
            {| obj := __init__ key; stdout := stdout s; wire := wire s;
               page := page s |}).

(** [df.iloc[i][c]]. *)
Definition iloc_at (df : pd.DataFrame) (i : Z) (c : string)
    : outcome pd.cell :=
  r <~ pd.iloc df i ;;
  pd.at_ df r c.

(** The format spec [:,] takes a number; a string refuses it with
    [ValueError], a list or a dict with [TypeError]. *)
Definition thousands (c : pd.cell) : outcome unit :=
  match c with
  | pd.Obj (JInt _) | pd.Obj (JFloat _ _) | pd.NaN => Return tt
  | pd.Obj (JStr _) => Raise ValueError
  | pd.Obj (JArr _) | pd.Obj (JObj _) => Raise TypeError
  | _ => Unmodelled
  end.

(** The body of [if st.button("Fetch Data"):].  The layout calls
    ([st.columns], the [with] blocks) draw nothing and are left out. *)
Definition fetch_data (coin : string) (selected_exchange selected_pair : json)
    : M unit :=
  (* col1 *)
  ohlc_oi_data <- fetch_ohlc_oi_data selected_exchange selected_pair ;;
  latest_oi <- lift (iloc_at ohlc_oi_data (-1) "c") ;;
  lift (thousands latest_oi) ;;;
  draw (Metric "Open Interest" "{:,} {}" [SCell latest_oi; SStr coin]) ;;;
  fig_oi <- lift (plot_closing_prices ohlc_oi_data "Open Interest") ;;
  (* col2 *)
  price_ohlc_data <- fetch_price_ohlc_data selected_exchange selected_pair
                       default_interval default_limit ;;
  latest_close <- lift (iloc_at price_ohlc_data 0 "c") ;;
  draw (Metric "Price" "${}" [SCell latest_close]) ;;;
  fig_price <- lift (plot_candlestick_chart price_ohlc_data "Price") ;;
  (* col3 *)
  long_short_data <- fetch_top_long_short_ratio selected_exchange selected_pair
                       default_interval default_limit ;;
  latest_long_ratio <- lift (iloc_at long_short_data 0 "longRatio") ;;
  latest_short_ratio <- lift (iloc_at long_short_data 0 "shortRatio") ;;
  draw (Metric "Top Accounts Ratio" "{}/{}"
          [SCell latest_long_ratio; SCell latest_short_ratio]) ;;;
  fig_ratio <- lift (plot_long_short_ratios long_short_data
                       "Top Traders Accounts Ratio") ;;
  (* col4 *)
  top_traders_data <- fetch_top_long_short_position_ratio
                        selected_exchange selected_pair
                        default_interval default_limit ;;
  latest_long_position_ratio <- lift (iloc_at top_traders_data 0 "longRatio") ;;
  latest_short_position_ratio <- lift (iloc_at top_traders_data 0 "shortRatio") ;;
  draw (Metric "Top Traders Position  Ratios" "{}/{}"
          [SCell latest_long_position_ratio;
           SCell latest_short_position_ratio]) ;;;
  fig_top_traders_ratio <- lift (plot_long_short_ratios top_traders_data
                                   "Top Traders Accounts Ratio") ;;
  (* the two rows of charts *)
  draw (PlotlyChart fig_price) ;;;
  draw (PlotlyChart fig_oi) ;;;
  draw (PlotlyChart fig_ratio) ;;;
  draw (PlotlyChart fig_top_traders_ratio) ;;;
  (* bot2 *)
  L_data <- fetch_top_long_short_loser selected_exchange selected_pair
              default_interval default_limit ;;
  L_plot <- lift (plot_long_short_ratios L_data "Total Accounts") ;;
  draw (PlotlyChart L_plot) ;;;
  (* col5 *)
  latest_long_ratio <- lift (iloc_at L_data (-1) "longRatio") ;;
  latest_short_ratio <- lift (iloc_at L_data (-1) "shortRatio") ;;
  draw (Metric "All Accounts Ratio" "{}/{}"
          [SCell latest_long_ratio; SCell latest_short_ratio]).

(** [available_pairs_df["exchange"].unique()]. *)
Fixpoint unique (l : list string) : list string :=
  match l with
  | [] => []
  | x :: rest => x :: filter (fun y => negb (String.eqb x y)) (unique rest)
  end.

(** [available_pairs_df.query("exchange == @selected")["instrumentId"]]. *)
Definition pairs_on (selected : json) (pairs : list InstrumentRef)
    : list json :=
  match selected with
  | JStr e =>
      map instrumentId (filter (fun p => String.eqb (exchange p) e) pairs)
  | _ => []
  end.

Definition main : M unit :=
  key <- lift (getitem config "coinglassSecret") ;;
  match key with
  | JStr k =>
      construct k ;;;
      let coin := upper text_input in
      if String.eqb coin "" then ret tt
      else
        available_pairs_df <- get_available_pairs coin ;;
        match available_pairs_df with
        | [] => ret tt
        | _ :: _ =>
            let selected_exchange :=
              selectbox "Select Exchange"
                (map JStr (unique (map exchange available_pairs_df))) in
            let selected_pair :=
              selectbox "Select Pair"
                (pairs_on selected_exchange available_pairs_df) in
            if button then fetch_data coin selected_exchange selected_pair
            else ret tt
        end
  | _ => unmodelled
  end.

End Client.
(** * Vocabulary of the statements *)

(** ** States around a request *)

(** The request [_request] builds from the client in [s]. *)
Definition the_request (s : state) (endpoint : string)
    (params : list (string * json)) : request :=
  {| url := (base_url (obj s) ++ endpoint)%string;
     req_headers := headers (obj s);
     req_params := params |}.

Definition after_send (s : state) (rq : request) : state :=
  {| obj := obj s; stdout := stdout s; wire := rq :: wire s; page := page s |}.

Definition logged (s : state) (ls : list line) : state :=
  {| obj := obj s; stdout := stdout s ++ ls; wire := wire s; page := page s |}.

(** The exception that takes the place of the [HTTPError] of the answer
    [r]: the one that decoding the error body raises, when the clause
    [except json.JSONDecodeError] of [_request] does not catch it. *)
Definition masking (r : response) : option exn :=
  match json_body r with
  | Decoded _ => None
  | Undecodable why =>
      if is_JSONDecodeError (raised_by why) then None
      else Some (raised_by why)
  end.

(** What [_request] raises on an answer that carries an error status. *)
Definition transport_error (r : response) : exn :=
  match masking r with
  | Some e => e
  | None => HTTPError r
  end.

(** The lines [_request] prints on its error path: the status line, then
    the details or the note that there are none; no second line when the
    decoding raises past the clause. *)
Definition status_line (r : response) : line :=
  Line "HTTP error occurred: {} {}" [AInt (status_code r); AStr (reason r)].

Definition diagnostic (r : response) : list line :=
  status_line r ::
  match json_body r with
  | Decoded j => [Line "Error details: {}" [AJson j]]
  | Undecodable why =>
      if is_JSONDecodeError (raised_by why)
      then [Line "No detailed error message available from API." []]
      else []
  end.

(** ** The five metrics, side by side *)

(** One name per fetch method, so that a statement can range over them. *)
Inductive metric : Type :=
| OpenInterest
| PriceOHLC
| TopAccountRatio
| TopPositionRatio
| AllAccounts.

Definition endpoint_of (m : metric) : string :=
  match m with
  | OpenInterest => "/public/v2/indicator/open_interest_ohlc"
  | PriceOHLC => "/public/v2/indicator/price_ohlc"
  | TopAccountRatio => "/public/v2/indicator/top_long_short_account_ratio"
  | TopPositionRatio => "/public/v2/indicator/top_long_short_position_ratio"
  | AllAccounts => "/public/v2/indicator/long_short_accounts"
  end.

(** The query each method sends; the open-interest method takes neither
    an interval nor a limit from its caller. *)
Definition params_of (m : metric) (ex_ pair interval limit : json)
    : list (string * json) :=
  match m with
  | OpenInterest => query ex_ pair (JStr "h24") (JInt 50)
  | _ => query ex_ pair interval limit
  end.

Definition time_field (m : metric) : string :=
  match m with
  | OpenInterest | PriceOHLC => "t"
  | _ => "createTime"
  end.

Definition per_unit (m : metric) : Z :=
  match m with
  | PriceOHLC => pd.ns_per_s
  | _ => pd.ns_per_ms
  end.

Definition daily (m : metric) : bool :=
  match m with
  | OpenInterest | PriceOHLC => true
  | _ => false
  end.

Definition selected_columns (m : metric) : option (list string) :=
  match m with
  | PriceOHLC => Some ["t"; "o"; "h"; "l"; "c"; "v"]
  | _ => None
  end.

(** The line a fetch method prints before it re-raises. *)
Definition fetch_line (m : metric) (e : exn) : line :=
  match m with
  | OpenInterest | PriceOHLC => Line "HTTP error occurred: {}" [AExn e]
  | _ => Line "HTTP error occured: {}" [AExn e]
  end.

(** What a fetch method prints on an answer that carries an error
    status: the lines of [_request], then its own line when the error is
    the [HTTPError] its [except] clause catches. *)
Definition error_lines (m : metric) (r : response) : list line :=
  diagnostic r ++
  match masking r with
  | Some _ => []
  | None => [fetch_line m (HTTPError r)]
  end.

(** What a fetch method does to a decoded body: the steps between
    [_request] and [return df]. *)
Definition normalize (lib : pd.library) (m : metric) (body : json)
    : outcome pd.DataFrame :=
  data <~ getitem body "data" ;;
  df <~ pd.DataFrame_of lib data (selected_columns m) ;;
  t <~ pd.column df (time_field m) ;;
  stamps <~ pd.to_datetime lib t (per_unit m) ;;
  times <~ (if daily m then pd.dt_date stamps else Return stamps) ;;
  pd.sort_values (pd.set_column df (time_field m) times) (time_field m) false.

Definition fetch (net : list request -> reply) (lib : pd.library) (m : metric)
    (ex_ pair interval limit : json) : M pd.DataFrame :=
  match m with
  | OpenInterest => fetch_ohlc_oi_data net lib ex_ pair
  | PriceOHLC => fetch_price_ohlc_data net lib ex_ pair interval limit
  | TopAccountRatio =>
      fetch_top_long_short_ratio net lib ex_ pair interval limit
  | TopPositionRatio =>
      fetch_top_long_short_position_ratio net lib ex_ pair interval limit
  | AllAccounts => fetch_top_long_short_loser net lib ex_ pair interval limit
  end.

(** The errors pandas raises in the steps of a fetch method. *)
Definition of_pandas (e : exn) : bool :=
  match e with
  | OutOfBoundsDatetime | ValueError | TypeError | OverflowError => true
  | _ => false
  end.

(** ** Order *)

(** Newest first: no later position holds a greater key. *)
Definition descending (ks : list Z) : Prop :=
  forall i j : nat,
    (i < j < List.length ks)%nat -> nth j ks 0 <= nth i ks 0.

Definition by_key (a b : Z * pd.row) : Prop := fst a <= fst b.

(** The rows of a descending sort: a rearrangement of the input, keys
    newest first. *)
Definition sorted_desc (keyed : list (Z * pd.row)) : list (Z * pd.row) :=
  rev (pd.argsort (rev keyed)).

(** A keyed row agrees with its frame when the key is what [f] reads in
    the row's cell of column [n]. *)
Definition keyed_by (f : pd.cell -> option Z) (n : nat) (p : Z * pd.row)
    : Prop :=
  f (pd.cell_at n (snd p)) = Some (fst p).

(** Keys with [NaT] among them: every position that holds a time is
    preceded by times only, none of them smaller.  So the times run newest
    first and the [NaT] come after all of them. *)
Definition times_first (ks : list (option Z)) : Prop :=
  forall i j : nat,
    (i < j < List.length ks)%nat ->
    forall b : Z, nth j ks None = Some b ->
    exists a : Z, nth i ks None = Some a /\ b <= a.

(** A frame is newest first in the time column of its metric. *)
Definition newest_first (m : metric) (df : pd.DataFrame) : Prop :=
  exists col ks,
    pd.column df (time_field m) = Return col /\
    pd.time_keys col = Some ks /\ times_first ks.

(** The comparison [a >= b] of two decoded times; with [NaT] on either
    side it is false. *)
Definition time_ge (a b : pd.cell) : Prop :=
  match a, b with
  | pd.Timestamp x, pd.Timestamp y => x >= y
  | pd.Date x, pd.Date y => x >= y
  | _, _ => False
  end.

(** A computation keeps the client when no run of it changes [obj]. *)
Definition keeps_obj {A : Type} (m : M A) : Prop :=
  forall s : state, obj (snd (m s)) = obj s.

(** ** Concrete clients, providers and bodies *)

(** A fresh client and an empty history. *)
Definition s0 : state :=
  {| obj := __init__ "secret"; stdout := []; wire := []; page := [] |}.

(** A provider that answers every request alike. *)
Definition always (r : response) : list request -> reply :=
  fun _ => Answer r.

Definition ok (body : json) : response :=
  {| status_code := 200; reason := "OK"; json_body := Decoded body |}.

Definition ratio_body : json :=
  JObj [("code", JStr "0");
        ("data", JArr [
           JObj [("createTime", JInt 1000); ("longRatio", JFloat 525 (-1));
                 ("shortRatio", JFloat 475 (-1))];
           JObj [("createTime", JInt 2000); ("longRatio", JFloat 51 0);
                 ("shortRatio", JFloat 49 0)]])].

(** The frame the top-account method returns for [ratio_body]. *)
Definition ratio_run : outcome pd.DataFrame * state :=
  fetch (always (ok ratio_body)) pd.reference TopAccountRatio (JStr "Binance")
    (JStr "BTCUSDT") default_interval default_limit s0.

Definition ratio_frame : pd.DataFrame :=
  {| pd.columns := ["createTime"; "longRatio"; "shortRatio"];
     pd.rows :=
       [ {| pd.label := 1;
            pd.cells := [pd.Timestamp 2000000000; pd.Obj (JFloat 51 0);
                         pd.Obj (JFloat 49 0)] |};
         {| pd.label := 0;
            pd.cells := [pd.Timestamp 1000000000; pd.Obj (JFloat 525 (-1));
                         pd.Obj (JFloat 475 (-1))] |} ] |}.

(** The frame the top-account method returns for [null_time_body]. *)
Definition null_time_frame : pd.DataFrame :=
  {| pd.columns := ["createTime"; "longRatio"; "shortRatio"];
     pd.rows :=
       [ {| pd.label := 1;
            pd.cells := [pd.Timestamp 1000000000; pd.Obj (JFloat 51 0);
                         pd.Obj (JFloat 49 0)] |};
         {| pd.label := 0;
            pd.cells := [pd.NaT; pd.Obj (JFloat 525 (-1));
                         pd.Obj (JFloat 475 (-1))] |} ] |}.


(** A 429 whose body is no JSON. *)
Definition too_many_requests : response :=
  {| status_code := 429; reason := "Too Many Requests";
     json_body := Undecodable Malformed |}.


(** A body whose first record has a [null] time. *)
Definition null_time_body : json :=
  JObj [("data", JArr [
     JObj [("createTime", JNull); ("longRatio", JFloat 525 (-1));
           ("shortRatio", JFloat 475 (-1))];
     JObj [("createTime", JInt 1000); ("longRatio", JFloat 51 0);
           ("shortRatio", JFloat 49 0)]])].


(** ** Instrument discovery *)

(** What the resolver does to a decoded body. *)
Definition resolve (upper : string -> string) (coin : string) (body : json)
    : outcome (list InstrumentRef) :=
  catalog <~ getitem body "data" ;;
  exchanges <~ items catalog ;;
  scan_exchanges upper coin exchanges [].

(** The selection rule, in the spec's words: the base and quote symbols
    of a descriptor, and whether the upper-cased coin equals one of them
    upper-cased. *)
Definition assets (item : json) : option (string * string) :=
  match item with
  | JObj kv =>
      match lookup "baseAsset" kv, lookup "quoteAsset" kv with
      | Some (JStr b), Some (JStr q) => Some (b, q)
      | _, _ => None
      end
  | _ => None
  end.

Definition descriptor (item : json) : option (string * string * json) :=
  match assets item, getitem item "instrumentId" with
  | Some (b, q), Return i => Some (b, q, i)
  | _, _ => None
  end.

Definition trades (upper : string -> string) (coin b q : string) : bool :=
  String.eqb (upper coin) (upper b) || String.eqb (upper coin) (upper q).

(** The instruments of one exchange, then of the whole catalog, that the
    rule selects, in catalog order. *)
Definition select_in (upper : string -> string) (coin exchange_ : string)
    (instruments : list json) : list InstrumentRef :=
  flat_map
    (fun item =>
       match descriptor item with
       | Some (b, q, i) =>
           if trades upper coin b q
           then [{| exchange := exchange_; instrumentId := i |}]
           else []
       | None => []
       end)
    instruments.

Definition select (upper : string -> string) (coin : string)
    (exchanges : list (string * json)) : list InstrumentRef :=
  flat_map
    (fun p =>
       match snd p with
       | JArr instruments => select_in upper coin (fst p) instruments
       | _ => []
       end)
    exchanges.

(** A catalog maps each exchange to a list of descriptors. *)
Definition is_catalog (exchanges : list (string * json)) : Prop :=
  Forall
    (fun p =>
       exists instruments,
         snd p = JArr instruments /\
         Forall (fun item => exists d, descriptor item = Some d) instruments)
    exchanges.

(** The catalog of the scenario: one instrument on each of two exchanges. *)
Definition catalog_body : json :=
  JObj [("data", JObj [
     ("Binance", JArr [JObj [("baseAsset", JStr "BTC");
                             ("quoteAsset", JStr "USDT");
                             ("instrumentId", JStr "BTCUSDT")]]);
     ("OKX", JArr [JObj [("baseAsset", JStr "ETH");
                         ("quoteAsset", JStr "USDT");
                         ("instrumentId", JStr "ETHUSDT")]])])].

Definition catalog_exchanges : list (string * json) :=
  match catalog_body with
  | JObj [(_, JObj exchanges)] => exchanges
  | _ => []
  end.

(** No instrument of the catalog trades the coin: every instrument has a
    base and a quote asset, and the upper-cased coin is neither. *)
Definition no_match (upper : string -> string) (coin : string)
    (exchanges : list (string * json)) : Prop :=
  Forall
    (fun p =>
       exists instruments,
         snd p = JArr instruments /\
         Forall (fun item =>
                   exists b q, assets item = Some (b, q) /\
                               upper coin <> upper b /\
                               upper coin <> upper q)
                instruments)
    exchanges.

(** ** The summary *)

Definition drawn (s : state) (w : widget) : state :=
  {| obj := obj s; stdout := stdout s; wire := wire s; page := page s ++ [w] |}.

(** [df.iloc[0][c]] reads the row at position 0, [df.iloc[-1][c]] the row
    at the last position. *)
Definition read_at (df : pd.DataFrame) (n : nat) (c : string) (v : pd.cell)
    : Prop :=
  exists r, nth_error (pd.rows df) n = Some r /\ pd.at_ df r c = Return v.

(** A frame that one of the fetch methods returned, called as [main]
    calls it. *)
Definition fetched (net : list request -> reply) (lib : pd.library)
    (m : metric) (ex_ pair : json) (df : pd.DataFrame) : Prop :=
  exists sa sb,
    fetch net lib m ex_ pair default_interval default_limit sa
      = (Return df, sb) /\
    newest_first m df.

(** A provider that serves every endpoint of the client, and a plotly
    that accepts every figure. *)
Definition oi_body : json :=
  JObj [("data", JArr [
     JObj [("t", JInt 1700000000000); ("o", JInt 90); ("h", JInt 120);
           ("l", JInt 80); ("c", JInt 100)];
     JObj [("t", JInt 1700086400000); ("o", JInt 100); ("h", JInt 130);
           ("l", JInt 95); ("c", JInt 110)]])].

Definition price_body : json :=
  JObj [("data", JArr [
     JObj [("t", JInt 1000); ("o", JInt 1); ("h", JInt 2);
           ("l", JFloat 5 (-1)); ("c", JFloat 15 (-1)); ("v", JInt 100)];
     JObj [("t", JInt 2000); ("o", JFloat 15 (-1)); ("h", JFloat 25 (-1));
           ("l", JInt 1); ("c", JInt 2); ("v", JInt 200)]])].

Definition provider (sent : list request) : reply :=
  match sent with
  | [] => NetworkError
  | rq :: _ =>
      let asks e := String.eqb (url rq) ("https://open-api.coinglass.com" ++ e) in
      if asks "/public/v2/instrument" then Answer (ok catalog_body)
      else if asks "/public/v2/indicator/open_interest_ohlc"
      then Answer (ok oi_body)
      else if asks "/public/v2/indicator/price_ohlc" then Answer (ok price_body)
      else Answer (ok ratio_body)
  end.

Definition summary_run : outcome unit * state :=
  fetch_data provider pd.reference (@Return Figure) "BTC" (JStr "Binance")
    (JStr "BTCUSDT") s0.

(** ** Epochs *)

Definition ms_per_day : Z := 86400000.
Definition s_per_day : Z := 86400.

(** The way back from a decoded time to an epoch: a timestamp counts
    nanoseconds, a date stands for its midnight. *)
Definition epoch_ms (c : pd.cell) : option Z :=
  match c with
  | pd.Timestamp ns => Some (ns / pd.ns_per_ms)
  | pd.Date d => Some (d * ms_per_day)
  | _ => None
  end.

Definition epoch_s (c : pd.cell) : option Z :=
  match c with
  | pd.Timestamp ns => Some (ns / pd.ns_per_s)
  | pd.Date d => Some (d * s_per_day)
  | _ => None
  end.

(** ** The price frame *)

Definition six : list string := ["t"; "o"; "h"; "l"; "c"; "v"].


(** ** Frames of records, metric by metric *)

(** The columns of the frame a method builds from [recs]. *)
Definition frame_columns (m : metric) (recs : list (list (string * json)))
    : list string :=
  match selected_columns m with
  | Some cols => cols
  | None => pd.union_keys recs
  end.

(** The time column as the constructor built it. *)
Definition raw_times (lib : pd.library) (m : metric)
    (recs : list (list (string * json))) : list pd.cell :=
  map (fun kv => pd.built lib recs kv (time_field m)) recs.

(** What a method makes of one cell of the time column [col]: the reading
    of [to_datetime], taken to its day for the daily metrics. *)
Definition decoded_time (lib : pd.library) (m : metric) (col : list pd.cell)
    (c : pd.cell) : outcome pd.cell :=
  ts <~ pd.instant lib (per_unit m) col c ;;
  if daily m then pd.date_cell ts else Return ts.

(** The rows [rs] with the cell at position [tpos] replaced, row by row,
    by [times]. *)
Definition retimed (tpos : nat) (rs : list pd.row) (times : list pd.cell)
    : list pd.row :=
  map (fun rv : pd.row * pd.cell =>
         {| pd.label := pd.label (fst rv);
            pd.cells := pd.replace_nth tpos (snd rv) (pd.cells (fst rv)) |})
      (combine rs times).

(** A row of a returned frame against the records sent: it is the row the
    constructor built for the record its label names, but for the cell at
    position [tpos], which holds the decoded time of that record. *)
Definition faithful_row (lib : pd.library) (m : metric) (tpos : nat)
    (cols : list string) (recs : list (list (string * json))) (r : pd.row)
    : Prop :=
  exists kv t,
    nth_error recs (pd.label r) = Some kv /\
    decoded_time lib m (raw_times lib m recs)
      (pd.built lib recs kv (time_field m)) = Return t /\
    pd.cells r = pd.replace_nth tpos t (map (pd.built lib recs kv) cols).

(** ** Runs of the client *)

(** What a run adds to the wire: requests built from the client of the
    start state, addressed under its base URL and carrying its headers. *)
Definition own_request (c : CoinGlassAPI) (rq : request) : Prop :=
  req_headers rq = headers c /\
  exists endpoint, url rq = (base_url c ++ endpoint)%string.

(** A computation is disciplined when it leaves the client alone, only
    appends to what was printed and drawn, and only sends requests of the
    client. *)
Definition disciplined {A : Type} (m : M A) : Prop :=
  forall s : state,
    let s' := snd (m s) in
    obj s' = obj s /\
    (exists new, wire s' = new ++ wire s /\ Forall (own_request (obj s)) new) /\
    (exists out, stdout s' = stdout s ++ out) /\
    (exists ws, page s' = page s ++ ws).

(** The provider answers the request [rq], sent from [s], with a status
    that is no error status and a body that decodes to [body]. *)
Definition delivers (net : list request -> reply) (s : state) (rq : request)
    (body : json) : Prop :=
  exists r,
    net (rq :: wire s) = Answer r /\
    is_error_status (status_code r) = false /\
    json_body r = Decoded body.

(** The request of a fetch method, and of the resolver. *)
Definition fetch_request (s : state) (m : metric)
    (ex_ pair interval limit : json) : request :=
  the_request s (endpoint_of m) (params_of m ex_ pair interval limit).

Definition pairs_request (s : state) (coin : string) : request :=
  the_request s "/public/v2/instrument" [("symbol", JStr coin)].

(** A body whose record array is empty. *)
Definition empty_body : json := JObj [("data", JArr [])].

(** What is wrong with an instrument of the catalog, as the loop of the
    resolver meets it for [coin]: not a dict, a base or quote asset that
    is missing or is no string, or, when the instrument trades the coin,
    no [instrumentId]. *)
Definition item_fault (upper : string -> string) (coin : string) (item : json)
    : option exn :=
  match item with
  | JObj kv =>
      match lookup "baseAsset" kv with
      | None => Some (KeyError "baseAsset")
      | Some (JStr b) =>
          match lookup "quoteAsset" kv with
          | None => Some (KeyError "quoteAsset")
          | Some (JStr q) =>
              if trades upper coin b q then
                match lookup "instrumentId" kv with
                | None => Some (KeyError "instrumentId")
                | Some _ => None
                end
              else None
          | Some _ => Some AttributeError
          end
      | Some _ => Some AttributeError
      end
  | _ => Some TypeError
  end.

(** Every exchange maps to a list of instruments, none of them at fault. *)
Definition usable_catalog (upper : string -> string) (coin : string)
    (exchanges : list (string * json)) : Prop :=
  Forall
    (fun p =>
       exists instruments,
         snd p = JArr instruments /\
         Forall (fun item => item_fault upper coin item = None) instruments)
    exchanges.

(** A catalog body whose second instrument has no [instrumentId]. *)
Definition sparse_catalog_body : json :=
  JObj [("data", JObj [
     ("Binance", JArr [JObj [("baseAsset", JStr "BTC");
                             ("quoteAsset", JStr "USDT");
                             ("instrumentId", JStr "BTCUSDT")];
                       JObj [("baseAsset", JStr "ETH");
                             ("quoteAsset", JStr "USDT")]])])].

(** The state after [coinglass_api = CoinGlassAPI(api_key=key)]. *)
Definition constructed (s : state) (key : string) : state :=
  {| obj := __init__ key; stdout := stdout s; wire := wire s; page := page s |}.

(** A provider that serves the open interest and refuses every other
    request with 429. *)
Definition throttled (sent : list request) : reply :=
  match sent with
  | [] => NetworkError
  | rq :: _ =>
      if String.eqb (url rq)
           "https://open-api.coinglass.com/public/v2/indicator/open_interest_ohlc"
      then Answer (ok oi_body)
      else Answer too_many_requests
  end.

(** A catalog body with a malformed Binance descriptor after a good one. *)
Definition broken_catalog_body : json :=
  JObj [("data", JObj [
     ("Binance", JArr [JObj [("baseAsset", JStr "BTC");
                             ("quoteAsset", JStr "USDT");
                             ("instrumentId", JStr "BTCUSDT")];
                       JObj [("quoteAsset", JStr "USDT");
                             ("instrumentId", JStr "XUSDT")]])])].

(** * Properties *)

(** ** The transport, case by case *)

Lemma raised_by_no_http (why : undecodable) :
  is_HTTPError (raised_by why) = false.
Proof. destruct why; reflexivity. Qed.

Lemma masking_no_http (r : response) (e : exn) :
  masking r = Some e -> is_HTTPError e = false.
Proof.
  unfold masking. destruct (json_body r) as [j|why]; [discriminate|].
  destruct (is_JSONDecodeError (raised_by why)); [discriminate|].
  intros [= <-]. apply raised_by_no_http.
Qed.

Section Transport.

Variable net : list request -> reply.

Lemma _request_eq (endpoint : string) (params : list (string * json))
    (s : state) :
  _request net endpoint params s =
  let rq := the_request s endpoint params in
  let s1 := after_send s rq in
  match net (rq :: wire s) with
  | NetworkError => (Raise ConnectionError, s1)
  | Answer r =>
      if is_error_status (status_code r)
      then (Raise (transport_error r), logged s1 (diagnostic r))
      else match json_body r with
           | Decoded j => (Return j, s1)
           | Undecodable why => (Raise (raised_by why), s1)
           end
  end.
Proof.
  unfold _request, bind, self, try_except, requests_get, the_request,
    after_send; simpl.
  destruct (net _) as [r|]; simpl; [|reflexivity].
  unfold raise_for_status, response_json, transport_error, masking,
    diagnostic, status_line, logged, print, raise, ret.
  destruct (is_error_status (status_code r)); simpl.
  - destruct (json_body r) as [j|why]; simpl.
    + rewrite <- app_assoc. reflexivity.
    + destruct (is_JSONDecodeError (raised_by why)); simpl;
        [rewrite <- app_assoc|]; reflexivity.
  - destruct (json_body r) as [j|why]; simpl; [reflexivity|].
    now rewrite raised_by_no_http.
Qed.

End Transport.

(** ** Lists read element by element *)

Lemma each_Forall2 {A B : Type} (f : A -> outcome B) (l : list A)
    (l' : list B) :
  pd.each f l = Return l' <-> Forall2 (fun a b => f a = Return b) l l'.
Proof.
  revert l'; induction l as [|a l IH]; simpl; intros l'.
  - split; [intros [= <-]; constructor | inversion 1; reflexivity].
  - split.
    + destruct (f a) as [b| |] eqn:Ea; try discriminate.
      destruct (pd.each f l) as [bs| |] eqn:El; try discriminate.
      intros [= <-]. constructor; [exact Ea | now apply IH].
    + inversion 1 as [|? b ? bs Hb Hbs]; subst.
      rewrite Hb. apply IH in Hbs. rewrite Hbs. reflexivity.
Qed.

Lemma each_Raise {A B : Type} (f : A -> outcome B) (l : list A) (e : exn) :
  pd.each f l = Raise e -> exists a, In a l /\ f a = Raise e.
Proof.
  induction l as [|a l IH]; simpl; [discriminate|].
  destruct (f a) as [b|e'|] eqn:Ea; try discriminate.
  - destruct (pd.each f l) as [bs|e'|]; try discriminate.
    intros [= <-]. destruct (IH eq_refl) as (a' & Hin & Ha'). eauto.
  - intros [= <-]. eauto.
Qed.


Lemma Forall2_length_eq {A B : Type} (R : A -> B -> Prop) (l : list A)
    (l' : list B) :
  Forall2 R l l' -> List.length l' = List.length l.
Proof. induction 1; simpl; congruence. Qed.

(** ** The steps on frames *)

Lemma instant_Raise (lib : pd.library) (u : Z) (col : list pd.cell)
    (c : pd.cell) (e : exn) :
  pd.instant lib u col c = Raise e -> of_pandas e = true.
Proof.
  assert (R : match pd.read lib u col c with
              | pd.At ns =>
                  if pd.has_date ns then Return (pd.Timestamp ns)
                  else Unmodelled
              | pd.Null => Return pd.NaT
              | pd.Refused why => Raise (pd.error_of why)
              | pd.Unread => Unmodelled
              end = Raise e -> of_pandas e = true).
  { destruct (pd.read lib u col c) as [ns| |why|]; try discriminate.
    - destruct (pd.has_date ns); discriminate.
    - intros [= <-]. destruct why; reflexivity. }
  unfold pd.instant.
  destruct c as [[ |b|z|m e'|x|l|kv]| |ns|d| ]; try discriminate; try exact R.
  destruct (pd.in_int64 (z * u)); [discriminate|].
  destruct (pd.in_int64 z); [|discriminate].
  destruct (pd.resolution lib); try discriminate.
  - intros [= <-]. reflexivity.
  - destruct (pd.has_date (z * u)); discriminate.
Qed.

Lemma to_datetime_Raise (lib : pd.library) (col : list pd.cell) (u : Z)
    (e : exn) :
  pd.to_datetime lib col u = Raise e -> of_pandas e = true.
Proof.
  unfold pd.to_datetime. intros H. apply each_Raise in H.
  destruct H as (c & _ & H). exact (instant_Raise _ _ _ _ H).
Qed.

Lemma date_cell_no_raise (c : pd.cell) (e : exn) : pd.date_cell c <> Raise e.
Proof.
  destruct c; simpl; try discriminate. destruct (pd.has_date ns); discriminate.
Qed.

Lemma dt_date_no_raise (col : list pd.cell) (e : exn) :
  pd.dt_date col <> Raise e.
Proof.
  unfold pd.dt_date. intros H. apply each_Raise in H.
  destruct H as (c & _ & H). exact (date_cell_no_raise _ H).
Qed.

(** ** The five fetch methods, case by case *)

(** The steps on Python values and frames raise no [HTTPError], so the
    [except] clause of a fetch method is entered only from [_request]. *)
Create HintDb no_http.

Lemma of_pandas_no_http (e : exn) : of_pandas e = true -> is_HTTPError e = false.
Proof. destruct e; simpl; congruence. Qed.

Lemma getitem_no_http (v : json) (k : string) (e : exn) :
  getitem v k = Raise e -> is_HTTPError e = false.
Proof.
  destruct v; simpl; try (intros [= <-]; reflexivity).
  destruct (lookup k fields); intros [= <-]; reflexivity.
Qed.

Lemma DataFrame_of_no_raise (lib : pd.library) (data : json)
    (cols : option (list string)) (e : exn) :
  pd.DataFrame_of lib data cols = Raise e -> is_HTTPError e = false.
Proof.
  unfold pd.DataFrame_of. destruct (pd.records_of data); discriminate.
Qed.

Lemma column_no_http (df : pd.DataFrame) (c : string) (e : exn) :
  pd.column df c = Raise e -> is_HTTPError e = false.
Proof.
  unfold pd.column. destruct (pd.position c (pd.columns df)).
  - discriminate.
  - intros [= <-]; reflexivity.
Qed.

Lemma to_datetime_no_http (lib : pd.library) (col : list pd.cell) (u : Z)
    (e : exn) :
  pd.to_datetime lib col u = Raise e -> is_HTTPError e = false.
Proof. intros H. apply of_pandas_no_http. exact (to_datetime_Raise _ _ _ H). Qed.

Lemma dt_date_no_http (col : list pd.cell) (e : exn) :
  pd.dt_date col = Raise e -> is_HTTPError e = false.
Proof. intros H; destruct (dt_date_no_raise _ H). Qed.

Lemma sort_values_no_http (df : pd.DataFrame) (c : string) (asc : bool)
    (e : exn) :
  pd.sort_values df c asc = Raise e -> is_HTTPError e = false.
Proof.
  unfold pd.sort_values.
  destruct (pd.position c (pd.columns df)).
  - destruct (pd.reader _); discriminate.
  - intros [= <-]. reflexivity.
Qed.

#[local] Hint Resolve getitem_no_http DataFrame_of_no_raise column_no_http
  to_datetime_no_http dt_date_no_http sort_values_no_http : no_http.

Ltac case_outcome :=
  match goal with
  | |- context [match ?o with Return _ => _ | Raise _ => _ | Unmodelled => _ end] =>
      let E := fresh "E" in
      destruct o eqn:E; simpl; try reflexivity;
      try match type of E with
          | _ = Raise ?e =>
              let H := fresh "H" in
              assert (H : is_HTTPError e = false) by eauto with no_http;
              rewrite H; reflexivity
          end
  end.

Section Fetch.

Variable net : list request -> reply.
Variable lib : pd.library.

Lemma fetch_eq (m : metric) (ex_ pair interval limit : json) (s : state) :
  fetch net lib m ex_ pair interval limit s =
  let rq := the_request s (endpoint_of m) (params_of m ex_ pair interval limit) in
  let s1 := after_send s rq in
  match net (rq :: wire s) with
  | NetworkError => (Raise ConnectionError, s1)
  | Answer r =>
      if is_error_status (status_code r)
      then (Raise (transport_error r), logged s1 (error_lines m r))
      else match json_body r with
           | Decoded body => (normalize lib m body, s1)
           | Undecodable why => (Raise (raised_by why), s1)
           end
  end.
Proof.
  destruct m; unfold fetch, fetch_ohlc_oi_data, fetch_price_ohlc_data,
    fetch_top_long_short_ratio, fetch_top_long_short_position_ratio,
    fetch_top_long_short_loser, try_except, bind;
    rewrite _request_eq; simpl;
    (destruct (net _) as [r|]; simpl; [|reflexivity]);
    (destruct (is_error_status (status_code r)); simpl;
     [ unfold transport_error, error_lines;
       destruct (masking r) as [e|] eqn:Em; simpl;
       [ rewrite (masking_no_http _ Em); simpl; now rewrite app_nil_r
       | unfold logged, print, raise; simpl; now rewrite <- app_assoc ]
     | ]);
    (destruct (json_body r) as [body|why]; simpl;
     [|rewrite raised_by_no_http; reflexivity]);
    unfold normalize, lift, ret, and_then; simpl;
    repeat case_outcome.
Qed.

End Fetch.
(** ** Sorting *)

Lemma insert_perm (x : Z * pd.row) (l : list (Z * pd.row)) :
  Permutation (pd.insert x l) (x :: l).
Proof.
  induction l as [|y l IH]; simpl; [reflexivity|].
  destruct (fst x <=? fst y); [reflexivity|].
  rewrite IH. apply perm_swap.
Qed.

Lemma argsort_perm (l : list (Z * pd.row)) : Permutation (pd.argsort l) l.
Proof.
  induction l as [|x l IH]; simpl; [reflexivity|].
  rewrite insert_perm. now constructor.
Qed.

Lemma insert_sorted (x : Z * pd.row) (l : list (Z * pd.row)) :
  StronglySorted by_key l -> StronglySorted by_key (pd.insert x l).
Proof.
  induction 1 as [|y l Hl IH Hy]; simpl.
  - repeat constructor.
  - destruct (Z.leb_spec (fst x) (fst y)) as [Hxy|Hxy].
    + constructor; [now constructor|].
      constructor; [exact Hxy|].
      eapply Forall_impl; [|exact Hy].
      unfold by_key; intros; lia.
    + constructor; [exact IH|].
      apply (Permutation_Forall (Permutation_sym (insert_perm x l))).
      constructor; [unfold by_key; lia | exact Hy].
Qed.

Lemma argsort_sorted (l : list (Z * pd.row)) :
  StronglySorted by_key (pd.argsort l).
Proof.
  induction l; simpl; [constructor | now apply insert_sorted].
Qed.

Lemma StronglySorted_snoc {A : Type} (R : A -> A -> Prop) (l : list A) (x : A) :
  StronglySorted R l -> Forall (fun y => R y x) l ->
  StronglySorted R (l ++ [x]).
Proof.
  induction 1 as [|y l Hl IH Hy]; simpl; intros Hx.
  - repeat constructor.
  - inversion Hx; subst. constructor; [now apply IH|].
    apply Forall_app; split; [exact Hy | now repeat constructor].
Qed.

Lemma StronglySorted_rev {A : Type} (R : A -> A -> Prop) (l : list A) :
  StronglySorted R l -> StronglySorted (fun a b => R b a) (rev l).
Proof.
  induction 1 as [|y l Hl IH Hy]; simpl; [constructor|].
  apply StronglySorted_snoc; [exact IH|].
  apply Forall_rev. exact Hy.
Qed.

Lemma StronglySorted_nth {A : Type} (R : A -> A -> Prop) (l : list A) (d : A) :
  StronglySorted R l ->
  forall i j : nat, (i < j < List.length l)%nat -> R (nth i l d) (nth j l d).
Proof.
  induction 1 as [|y l Hl IH Hy]; simpl; intros i j Hij; [lia|].
  destruct j as [|j]; [lia|].
  destruct i as [|i].
  - rewrite Forall_forall in Hy. apply Hy, nth_In. lia.
  - apply IH. lia.
Qed.

Lemma sorted_desc_perm (keyed : list (Z * pd.row)) :
  Permutation (sorted_desc keyed) keyed.
Proof.
  unfold sorted_desc.
  rewrite <- Permutation_rev, argsort_perm, <- Permutation_rev. reflexivity.
Qed.

Lemma sorted_desc_descending (keyed : list (Z * pd.row)) :
  descending (map fst (sorted_desc keyed)).
Proof.
  intros i j Hij. rewrite length_map in Hij.
  change 0 with (fst (0, {| pd.label := O; pd.cells := [] |})).
  rewrite !map_nth.
  exact (@StronglySorted_nth _ (fun a b => by_key b a) _ _
           (StronglySorted_rev (argsort_sorted (rev keyed))) i j Hij).
Qed.

(** ** Rows with and without a time *)

Lemma timed_untimed_perm (key : pd.cell -> option Z) (n : nat)
    (rs : list pd.row) :
  Permutation (map snd (pd.timed key n rs) ++ pd.untimed key n rs) rs.
Proof.
  induction rs as [|r rs IH]; simpl; [constructor|].
  destruct (key (pd.cell_at n r)); simpl.
  - now constructor.
  - apply Permutation_sym, Permutation_cons_app, Permutation_sym. exact IH.
Qed.

Lemma timed_keyed (key : pd.cell -> option Z) (n : nat) (rs : list pd.row) :
  Forall (keyed_by key n) (pd.timed key n rs).
Proof.
  induction rs as [|r rs IH]; simpl; [constructor|].
  destruct (key (pd.cell_at n r)) eqn:E; simpl; [|exact IH].
  constructor; [exact E | exact IH].
Qed.

Lemma untimed_unkeyed (key : pd.cell -> option Z) (n : nat)
    (rs : list pd.row) :
  Forall (fun r => key (pd.cell_at n r) = None) (pd.untimed key n rs).
Proof.
  unfold pd.untimed. apply Forall_forall. intros r Hr.
  apply filter_In in Hr. destruct Hr as [_ Hr].
  destruct (key (pd.cell_at n r)); [discriminate | reflexivity].
Qed.

Lemma keyed_keys (key : pd.cell -> option Z) (n : nat)
    (l : list (Z * pd.row)) :
  Forall (keyed_by key n) l ->
  map key (map (pd.cell_at n) (map snd l)) = map Some (map fst l).
Proof.
  induction 1 as [|p l Hp _ IH]; simpl; [reflexivity|].
  unfold keyed_by in Hp. now rewrite Hp, IH.
Qed.

Lemma unkeyed_keys (key : pd.cell -> option Z) (n : nat) (l : list pd.row) :
  Forall (fun r => key (pd.cell_at n r) = None) l ->
  map key (map (pd.cell_at n) l) = repeat None (List.length l).
Proof.
  induction 1 as [|r l Hr _ IH]; simpl; [reflexivity|]. now rewrite Hr, IH.
Qed.

Lemma forallb_perm {A : Type} (f : A -> bool) (l l' : list A) :
  Permutation l l' -> forallb f l = forallb f l'.
Proof.
  induction 1 as [|x l l' _ IH|x y l|l l' l'' _ IH1 _ IH2]; simpl.
  - reflexivity.
  - now rewrite IH.
  - destruct (f x), (f y); reflexivity.
  - congruence.
Qed.

Lemma reader_perm (col col' : list pd.cell) :
  Permutation col col' -> pd.reader col' = pd.reader col.
Proof.
  intros H. unfold pd.reader.
  now rewrite (forallb_perm pd.stamp_or_NaT H), (forallb_perm pd.day_or_NaT H).
Qed.

Lemma nth_map_Some (ks : list Z) (i : nat) :
  (i < List.length ks)%nat -> nth i (map Some ks) None = Some (nth i ks 0).
Proof.
  intros H. rewrite (nth_indep _ None (Some 0)) by now rewrite length_map.
  apply map_nth.
Qed.

(** Times newest first, then as many [NaT] as one likes. *)
Lemma times_first_app (ks : list Z) (k : nat) :
  descending ks -> times_first (map Some ks ++ repeat None k).
Proof.
  intros Hd i j Hij b Hb.
  assert (Hj : (j < List.length ks)%nat).
  { destruct (Nat.lt_ge_cases j (List.length ks)) as [H|H]; [exact H|].
    exfalso. rewrite app_nth2 in Hb by now rewrite length_map.
    rewrite length_map in Hb.
    destruct (nth_in_or_default (j - List.length ks) (repeat (@None Z) k) None)
      as [Hin|Hdef].
    - apply repeat_spec in Hin. congruence.
    - congruence. }
  rewrite app_nth1 in Hb by now rewrite length_map.
  rewrite app_nth1 by (rewrite length_map; lia).
  rewrite nth_map_Some in Hb by exact Hj. injection Hb as <-.
  exists (nth i ks 0). split; [apply nth_map_Some; lia|].
  apply Hd. lia.
Qed.

(** [sort_values(by, ascending=False)]: when it returns, the frame keeps
    its columns, its rows are the old rows rearranged, and the keys read
    back from the sorted column run newest first, [NaT] last. *)
Lemma sort_values_desc (df df' : pd.DataFrame) (c : string) :
  pd.sort_values df c false = Return df' ->
  pd.columns df' = pd.columns df /\
  Permutation (pd.rows df') (pd.rows df) /\
  exists col ks,
    pd.column df' c = Return col /\ pd.time_keys col = Some ks /\
    times_first ks.
Proof.
  unfold pd.sort_values, pd.column.
  destruct (pd.position c (pd.columns df)) as [n|] eqn:En; [|discriminate].
  destruct (pd.reader _) as [key|] eqn:Ek; [|discriminate].
  intros [= <-]; simpl. rewrite En.
  fold (sorted_desc (pd.timed key n (pd.rows df))).
  set (sorted := sorted_desc (pd.timed key n (pd.rows df))).
  assert (Hp : Permutation (map snd sorted ++ pd.untimed key n (pd.rows df))
                 (pd.rows df)).
  { rewrite <- (timed_untimed_perm key n (pd.rows df)) at 2.
    apply Permutation_app_tail, Permutation_map, sorted_desc_perm. }
  split; [reflexivity|]. split; [exact Hp|].
  eexists. eexists. split; [reflexivity|]. split.
  - unfold pd.time_keys.
    rewrite (reader_perm (Permutation_sym (Permutation_map (pd.cell_at n) Hp))).
    rewrite Ek. reflexivity.
  - rewrite !map_app.
    rewrite (@keyed_keys key n sorted).
    + rewrite (@unkeyed_keys key n _ (untimed_unkeyed key n (pd.rows df))).
      apply times_first_app, sorted_desc_descending.
    + apply (Permutation_Forall (Permutation_sym (sorted_desc_perm _))).
      apply timed_keyed.
Qed.
(** ** C2: every series comes back newest first, [NaT] last *)

Lemma and_then_Return {A B : Type} (o : outcome A) (k : A -> outcome B) (b : B) :
  and_then o k = Return b -> exists a, o = Return a /\ k a = Return b.
Proof. destruct o; simpl; try discriminate. intros H; eauto. Qed.

Lemma fetch_Return (net : list request -> reply) (lib : pd.library)
    (m : metric) (ex_ pair interval limit : json) (s s' : state)
    (df : pd.DataFrame) :
  fetch net lib m ex_ pair interval limit s = (Return df, s') ->
  exists r body,
    net (the_request s (endpoint_of m) (params_of m ex_ pair interval limit)
           :: wire s) = Answer r /\
    is_error_status (status_code r) = false /\
    json_body r = Decoded body /\
    normalize lib m body = Return df /\
    s' = after_send s (the_request s (endpoint_of m)
                         (params_of m ex_ pair interval limit)).
Proof.
  rewrite fetch_eq; simpl.
  destruct (net _) as [r|] eqn:En; [|discriminate].
  destruct (is_error_status (status_code r)) eqn:Es; [discriminate|].
  destruct (json_body r) as [body|why] eqn:Eb; [|discriminate].
  intros [= Hn Hs]. exists r, body. repeat split; auto.
Qed.

Lemma normalize_sorted (lib : pd.library) (m : metric) (body : json)
    (df : pd.DataFrame) :
  normalize lib m body = Return df -> newest_first m df.
Proof.
  unfold normalize, newest_first. intros H.
  do 5 (apply and_then_Return in H; destruct H as (? & _ & H)).
  apply sort_values_desc in H. tauto.
Qed.

(** C2, as stated, fails: the top-account method accepts an array whose
    first record has a [null] time, and in the frame it returns the row
    without a time stands after the row with one; between a time and
    [NaT] no [>=] holds. *)
Lemma null_time_is_not_ordered :
  exists df col,
    fst (fetch (always (ok null_time_body)) pd.reference TopAccountRatio
           (JStr "Binance") (JStr "BTCUSDT") default_interval default_limit s0)
      = Return df /\
    pd.column df "createTime" = Return col /\
    col = [pd.Timestamp 1000000000; pd.NaT] /\
    ~ (forall i j : nat,
         (i < j < List.length col)%nat ->
         time_ge (nth i col pd.NaT) (nth j col pd.NaT)).
Proof.
  eexists. eexists. split; [vm_compute; reflexivity|].
  split; [vm_compute; reflexivity|]. split; [reflexivity|].
  intros H. apply (H 0%nat 1%nat). simpl. lia.
Qed.

(** C2, amended.  Whatever record array one of the five fetch methods
    accepts, and whatever pandas makes of its values, the frame returned
    is sorted by its decoded time column ([t] or [createTime]) newest
    first with the rows without a time last: a position that holds a time
    is preceded by times only, none of them smaller.  In a frame in which
    every row has a time, of two positions the later one never holds the
    greater time. *)
Theorem times_newest_first_NaT_last (net : list request -> reply)
    (lib : pd.library) (m : metric) (ex_ pair interval limit : json)
    (s s' : state) (df : pd.DataFrame) :
  fetch net lib m ex_ pair interval limit s = (Return df, s') ->
  exists col ks,
    pd.column df (time_field m) = Return col /\
    pd.time_keys col = Some ks /\
    (forall i j : nat,
       (i < j < List.length ks)%nat ->
       forall b : Z, nth j ks None = Some b ->
       exists a : Z, nth i ks None = Some a /\ a >= b) /\
    (forall zs : list Z,
       ks = map Some zs ->
       forall i j : nat,
         (i < j < List.length zs)%nat -> nth i zs 0 >= nth j zs 0).
Proof.
  intros H. apply fetch_Return in H.
  destruct H as (r & body & _ & _ & _ & Hn & _).
  destruct (normalize_sorted _ _ _ Hn) as (col & ks & Hc & Hk & Hd).
  exists col, ks. split; [exact Hc|]. split; [exact Hk|].
  assert (G : forall i j : nat,
             (i < j < List.length ks)%nat ->
             forall b : Z, nth j ks None = Some b ->
             exists a : Z, nth i ks None = Some a /\ a >= b).
  { intros i j Hij b Hb. destruct (Hd i j Hij b Hb) as (a & Ha & Hab).
    exists a. split; [exact Ha | lia]. }
  split; [exact G|].
  intros zs -> i j Hij. rewrite length_map in G.
  destruct (G i j Hij (nth j zs 0)) as (a & Ha & Hab).
  - apply nth_map_Some. lia.
  - rewrite nth_map_Some in Ha by lia. injection Ha as <-. exact Hab.
Qed.

Lemma times_newest_first_NaT_last_witness :
  exists col ks,
    pd.column null_time_frame "createTime" = Return col /\
    pd.time_keys col = Some ks /\
    (forall i j : nat,
       (i < j < List.length ks)%nat ->
       forall b : Z, nth j ks None = Some b ->
       exists a : Z, nth i ks None = Some a /\ a >= b) /\
    (forall zs : list Z,
       ks = map Some zs ->
       forall i j : nat,
         (i < j < List.length zs)%nat -> nth i zs 0 >= nth j zs 0).
Proof.
  apply (@times_newest_first_NaT_last (always (ok null_time_body))
           pd.reference TopAccountRatio (JStr "Binance") (JStr "BTCUSDT")
           default_interval default_limit s0
           (snd (fetch (always (ok null_time_body)) pd.reference
                   TopAccountRatio (JStr "Binance") (JStr "BTCUSDT")
                   default_interval default_limit s0))
           null_time_frame).
  vm_compute. reflexivity.
Defined.

(** ** C4: the query of the open-interest method *)

(** What a call puts on the wire, whatever the provider answers. *)
Lemma fetch_wire (net : list request -> reply) (lib : pd.library)
    (m : metric) (ex_ pair interval limit : json) (s : state) :
  wire (snd (fetch net lib m ex_ pair interval limit s)) =
  the_request s (endpoint_of m) (params_of m ex_ pair interval limit) :: wire s.
Proof.
  rewrite fetch_eq; simpl.
  destruct (net _) as [r|]; [|reflexivity].
  destruct (is_error_status (status_code r)); [reflexivity|].
  destruct (json_body r); reflexivity.
Qed.

(** C4, as stated, fails: the request of the open-interest method does
    carry a [limit], and its interval is spelled ["h24"]. *)
Lemma open_interest_query_has_limit :
  let sent :=
    hd (the_request s0 "" [])
       (wire (snd (fetch_ohlc_oi_data (always (ok ratio_body)) pd.reference
                     (JStr "Binance") (JStr "BTCUSDT") s0))) in
  ~ (lookup "interval" (req_params sent) = Some (JStr "24h") /\
     lookup "limit" (req_params sent) = None).
Proof. vm_compute. intros [H _]. discriminate H. Qed.

(** C4, amended.  Every call of the open-interest method sends exactly
    [ex], [pair], [interval = "h24"] and [limit = 50]: both the interval
    and the limit are fixed in the method, which takes neither from its
    caller; the other four methods send the interval and the limit they
    are called with. *)
Theorem open_interest_query_fixed (net : list request -> reply)
    (lib : pd.library) (ex_ pair : json) (s : state) :
  (exists rq,
     wire (snd (fetch_ohlc_oi_data net lib ex_ pair s)) = rq :: wire s /\
     req_params rq =
       [("ex", ex_); ("pair", pair); ("interval", JStr "h24");
        ("limit", JInt 50)]) /\
  (forall (m : metric) (interval limit : json),
     m <> OpenInterest ->
     exists rq,
       wire (snd (fetch net lib m ex_ pair interval limit s)) = rq :: wire s /\
       req_params rq =
         [("ex", ex_); ("pair", pair); ("interval", interval);
          ("limit", limit)]).
Proof.
  split.
  - eexists; split.
    + exact (fetch_wire net lib OpenInterest ex_ pair JNull JNull s).
    + reflexivity.
  - intros m interval limit Hm. eexists; split.
    + apply fetch_wire.
    + destruct m; try reflexivity. now destruct Hm.
Qed.

(** ** C6 and C8: the error path *)







(** ** C10: the methods leave the client as it was *)

Section Frame.

Variable upper : string -> string.
Variable net : list request -> reply.
Variable lib : pd.library.

Lemma keeps_ret {A : Type} (a : A) : keeps_obj (ret a).
Proof. intros s; reflexivity. Qed.

Lemma keeps_raise {A : Type} (e : exn) : keeps_obj (@raise A e).
Proof. intros s; reflexivity. Qed.

Lemma keeps_unmodelled {A : Type} : keeps_obj (@unmodelled A).
Proof. intros s; reflexivity. Qed.

Lemma keeps_lift {A : Type} (o : outcome A) : keeps_obj (lift o).
Proof. intros s; reflexivity. Qed.

Lemma keeps_self : keeps_obj self.
Proof. intros s; reflexivity. Qed.

Lemma keeps_print (l : line) : keeps_obj (print l).
Proof. intros s; reflexivity. Qed.

Lemma keeps_bind {A B : Type} (m : M A) (k : A -> M B) :
  keeps_obj m -> (forall a, keeps_obj (k a)) -> keeps_obj (bind m k).
Proof.
  intros Hm Hk s. unfold bind. specialize (Hm s).
  destruct (m s) as [[a|e|] s1]; simpl in *; [|assumption..].
  rewrite (Hk a s1). exact Hm.
Qed.

Lemma keeps_try {A : Type} (caught : exn -> bool) (body : M A)
    (handler : exn -> M A) :
  keeps_obj body -> (forall e, keeps_obj (handler e)) ->
  keeps_obj (try_except caught body handler).
Proof.
  intros Hb Hh s. unfold try_except. specialize (Hb s).
  destruct (body s) as [[a|e|] s1]; simpl in *; [assumption| |assumption].
  destruct (caught e); simpl; [|assumption].
  rewrite (Hh e s1). exact Hb.
Qed.

Lemma keeps_requests_get (u : string) (h : list (string * string))
    (p : list (string * json)) : keeps_obj (requests_get net u h p).
Proof. intros s. unfold requests_get. destruct (net _); reflexivity. Qed.

Lemma keeps_raise_for_status (r : response) : keeps_obj (raise_for_status r).
Proof.
  unfold raise_for_status.
  destruct (is_error_status _); [apply keeps_raise | apply keeps_ret].
Qed.

Lemma keeps_response_json (r : response) : keeps_obj (response_json r).
Proof.
  unfold response_json.
  destruct (json_body r); [apply keeps_ret | apply keeps_raise].
Qed.

Lemma keeps_response_of (e : exn) : keeps_obj (response_of e).
Proof. destruct e; first [apply keeps_ret | apply keeps_unmodelled]. Qed.

Ltac frame :=
  repeat first
    [ apply keeps_bind | apply keeps_try | apply keeps_ret | apply keeps_raise
    | apply keeps_lift | apply keeps_self | apply keeps_print
    | apply keeps_requests_get | apply keeps_raise_for_status
    | apply keeps_response_json | apply keeps_response_of
    | intro ].

Lemma keeps_request (endpoint : string) (params : list (string * json)) :
  keeps_obj (_request net endpoint params).
Proof. unfold _request. frame. Qed.

Lemma keeps_get_available_pairs (coin : string) :
  keeps_obj (get_available_pairs upper net coin).
Proof. unfold get_available_pairs. frame; apply keeps_request. Qed.

Lemma keeps_fetch (m : metric) (ex_ pair interval limit : json) :
  keeps_obj (fetch net lib m ex_ pair interval limit).
Proof.
  destruct m; unfold fetch, fetch_ohlc_oi_data, fetch_price_ohlc_data,
    fetch_top_long_short_ratio, fetch_top_long_short_position_ratio,
    fetch_top_long_short_loser; frame; apply keeps_request.
Qed.

End Frame.

(** C10.  A call of [get_available_pairs], or of any of the five fetch
    methods, leaves [api_key], [base_url] and [headers] of the client as
    they were, whether the call returns or raises. *)
Theorem client_state_unchanged (upper : string -> string)
    (net : list request -> reply) (lib : pd.library) (coin : string)
    (m : metric) (ex_ pair interval limit : json) (s : state) :
  let after_pairs := obj (snd (get_available_pairs upper net coin s)) in
  let after_fetch := obj (snd (fetch net lib m ex_ pair interval limit s)) in
  (api_key after_pairs = api_key (obj s) /\
   base_url after_pairs = base_url (obj s) /\
   headers after_pairs = headers (obj s)) /\
  (api_key after_fetch = api_key (obj s) /\
   base_url after_fetch = base_url (obj s) /\
   headers after_fetch = headers (obj s)).
Proof.
  simpl. rewrite (keeps_get_available_pairs upper net coin s).
  rewrite (keeps_fetch net lib m ex_ pair interval limit s).
  repeat split.
Qed.

(** ** C1 and C7: instrument discovery *)

Lemma get_available_pairs_eq (upper : string -> string)
    (net : list request -> reply) (coin : string) (s : state) :
  get_available_pairs upper net coin s =
  let rq := the_request s "/public/v2/instrument" [("symbol", JStr coin)] in
  let s1 := after_send s rq in
  match net (rq :: wire s) with
  | NetworkError => (Raise ConnectionError, s1)
  | Answer r =>
      if is_error_status (status_code r)
      then (Raise (transport_error r), logged s1 (diagnostic r))
      else match json_body r with
           | Decoded body => (resolve upper coin body, s1)
           | Undecodable why => (Raise (raised_by why), s1)
           end
  end.
Proof.
  unfold get_available_pairs, bind. rewrite _request_eq; simpl.
  destruct (net _) as [r|]; [|reflexivity].
  destruct (is_error_status (status_code r)); [reflexivity|].
  destruct (json_body r) as [body|why]; [|reflexivity].
  unfold resolve, lift, and_then.
  destruct (getitem body "data"); try reflexivity.
  destruct (items a); reflexivity.
Qed.

Section Resolver.

Variable upper : string -> string.

Lemma assets_getitem (item : json) (b q : string) :
  assets item = Some (b, q) ->
  getitem item "baseAsset" = Return (JStr b) /\
  getitem item "quoteAsset" = Return (JStr q).
Proof.
  destruct item; simpl; try discriminate.
  destruct (lookup "baseAsset" fields) as [[]|]; try discriminate.
  destruct (lookup "quoteAsset" fields) as [[]|]; try discriminate.
  intros [= -> ->]. split; reflexivity.
Qed.

Lemma descriptor_inv (item : json) (b q : string) (i : json) :
  descriptor item = Some (b, q, i) <->
  assets item = Some (b, q) /\ getitem item "instrumentId" = Return i.
Proof.
  unfold descriptor.
  destruct (assets item) as [[b' q']|];
    destruct (getitem item "instrumentId"); split;
    (intros [= ] || intros [[= ] [= ]] || idtac); subst; auto; try easy.
Qed.

(** One turn of the inner loop on an item that has both assets. *)
Lemma scan_instruments_cons (coin e : string) (item : json)
    (rest : list json) (acc : list InstrumentRef) (b q : string) :
  assets item = Some (b, q) ->
  scan_instruments upper coin e (item :: rest) acc =
  if trades upper coin b q then
    i <~ getitem item "instrumentId" ;;
    scan_instruments upper coin e rest
      (acc ++ [{| exchange := e; instrumentId := i |}])
  else scan_instruments upper coin e rest acc.
Proof.
  intros Ha. destruct (assets_getitem _ Ha) as [Hb Hq].
  simpl. rewrite Hb; simpl. rewrite Hq; simpl. reflexivity.
Qed.

Lemma scan_instruments_select (coin e : string) (instruments : list json) :
  Forall (fun item => exists d, descriptor item = Some d) instruments ->
  forall acc,
    scan_instruments upper coin e instruments acc =
    Return (acc ++ select_in upper coin e instruments).
Proof.
  induction 1 as [|item rest [[[b q] i] Hd] _ IH]; intros acc.
  - simpl. now rewrite app_nil_r.
  - pose proof (proj1 (descriptor_inv _ _ _ _) Hd) as [Ha Hi].
    rewrite (@scan_instruments_cons coin e item rest acc b q Ha).
    unfold select_in; simpl. rewrite Hd.
    fold (select_in upper coin e rest).
    destruct (trades upper coin b q).
    + rewrite Hi; simpl. rewrite IH, <- app_assoc. reflexivity.
    + apply IH.
Qed.

Lemma scan_exchanges_select (coin : string) (exchanges : list (string * json)) :
  is_catalog exchanges ->
  forall acc,
    scan_exchanges upper coin exchanges acc =
    Return (acc ++ select upper coin exchanges).
Proof.
  induction 1 as [|[e v] rest (its & Hv & Hits) _ IH]; intros acc.
  - simpl. now rewrite app_nil_r.
  - simpl in Hv; subst v. simpl.
    rewrite (@scan_instruments_select coin e its Hits); simpl.
    rewrite IH, <- app_assoc. reflexivity.
Qed.

Lemma in_select_in (coin e e' : string) (i : json) (instruments : list json) :
  In {| exchange := e'; instrumentId := i |} (select_in upper coin e instruments)
  <-> e' = e /\
      exists item b q,
        In item instruments /\ descriptor item = Some (b, q, i) /\
        trades upper coin b q = true.
Proof.
  unfold select_in. rewrite in_flat_map. split.
  - intros (item & Hin & H).
    destruct (descriptor item) as [[[b q] i0]|] eqn:Hd; [|destruct H].
    destruct (trades upper coin b q) eqn:Ht; [|destruct H].
    destruct H as [[= <- <-]|[]]. split; [reflexivity|].
    exists item, b, q. auto.
  - intros (-> & item & b & q & Hin & Hd & Ht).
    exists item. split; [exact Hin|]. rewrite Hd, Ht. now left.
Qed.

Lemma in_select (coin e : string) (i : json) (exchanges : list (string * json)) :
  In {| exchange := e; instrumentId := i |} (select upper coin exchanges)
  <-> exists instruments item b q,
        In (e, JArr instruments) exchanges /\ In item instruments /\
        descriptor item = Some (b, q, i) /\
        (upper coin = upper b \/ upper coin = upper q).
Proof.
  unfold select. rewrite in_flat_map. split.
  - intros ([e0 v] & Hin & H). simpl in H.
    destruct v; try (now destruct H).
    apply in_select_in in H. destruct H as (-> & item & b & q & Hi & Hd & Ht).
    exists items0, item, b, q. repeat split; auto.
    unfold trades in Ht. apply orb_true_iff in Ht.
    destruct Ht as [Ht|Ht]; apply String.eqb_eq in Ht; auto.
  - intros (its & item & b & q & Hin & Hi & Hd & Ht).
    exists (e, JArr its). split; [exact Hin|]. simpl.
    apply in_select_in. split; [reflexivity|].
    exists item, b, q. repeat split; auto.
    unfold trades. apply orb_true_iff.
    destruct Ht as [Ht|Ht]; [left|right]; now apply String.eqb_eq.
Qed.

End Resolver.

(** C1.  Given a catalog (each exchange mapped to a list of descriptors),
    [get_available_pairs] returns a pair for an instrument exactly when
    the upper-cased coin equals the upper-cased base asset or the
    upper-cased quote asset of its descriptor, and it returns the pairs
    in catalog order; for the catalog of the scenario and the symbol
    ["BTC"] the result is exactly the Binance pair [BTCUSDT]. *)
Theorem resolver_selects_base_or_quote :
  (forall (upper : string -> string) (net : list request -> reply)
          (coin : string) (s : state) (r : response) (body : json)
          (exchanges : list (string * json)),
     net (the_request s "/public/v2/instrument" [("symbol", JStr coin)]
            :: wire s) = Answer r ->
     is_error_status (status_code r) = false ->
     json_body r = Decoded body ->
     getitem body "data" = Return (JObj exchanges) ->
     is_catalog exchanges ->
     exists pairs,
       fst (get_available_pairs upper net coin s) = Return pairs /\
       pairs = select upper coin exchanges /\
       forall (e : string) (i : json),
         In {| exchange := e; instrumentId := i |} pairs <->
         exists instruments item b q,
           In (e, JArr instruments) exchanges /\ In item instruments /\
           descriptor item = Some (b, q, i) /\
           (upper coin = upper b \/ upper coin = upper q)) /\
  fst (get_available_pairs str_upper (always (ok catalog_body)) "BTC" s0)
  = Return [{| exchange := "Binance"; instrumentId := JStr "BTCUSDT" |}].
Proof.
  split; [|reflexivity].
  intros upper net coin s r body exchanges Hn Hs Hb Hd Hc.
  exists (select upper coin exchanges).
  split; [|split; [reflexivity|]].
  - rewrite get_available_pairs_eq; simpl. rewrite Hn, Hs, Hb; simpl.
    unfold resolve. rewrite Hd; simpl.
    now rewrite (scan_exchanges_select upper coin Hc).
  - intros e i. apply in_select.
Qed.

Lemma catalog_exchanges_is_catalog : is_catalog catalog_exchanges.
Proof.
  repeat constructor; simpl; eexists; (split; [reflexivity|]);
    repeat constructor; eexists; reflexivity.
Defined.

Lemma resolver_selects_base_or_quote_witness :
  exists pairs,
    fst (get_available_pairs str_upper (always (ok catalog_body)) "btc" s0)
      = Return pairs /\
    pairs = select str_upper "btc" catalog_exchanges /\
    forall (e : string) (i : json),
      In {| exchange := e; instrumentId := i |} pairs <->
      exists instruments item b q,
        In (e, JArr instruments) catalog_exchanges /\ In item instruments /\
        descriptor item = Some (b, q, i) /\
        (str_upper "btc" = str_upper b \/ str_upper "btc" = str_upper q).
Proof.
  apply (proj1 resolver_selects_base_or_quote str_upper
           (always (ok catalog_body)) "btc" s0 (ok catalog_body) catalog_body
           catalog_exchanges); try reflexivity.
  exact catalog_exchanges_is_catalog.
Defined.

Lemma scan_exchanges_no_match (upper : string -> string) (coin : string)
    (exchanges : list (string * json)) :
  no_match upper coin exchanges ->
  forall acc, scan_exchanges upper coin exchanges acc = Return acc.
Proof.
  induction 1 as [|[e v] rest (its & Hv & Hits) _ IH]; intros acc;
    [reflexivity|].
  simpl in Hv; subst v. simpl.
  assert (Hscan : scan_instruments upper coin e its acc = Return acc).
  { induction Hits as [|item its' (b & q & Ha & Hb & Hq) _ IHi];
      [reflexivity|].
    rewrite (@scan_instruments_cons upper coin e item its' acc b q Ha).
    unfold trades.
    destruct (String.eqb_spec (upper coin) (upper b)); [contradiction|].
    destruct (String.eqb_spec (upper coin) (upper q)); [contradiction|].
    exact IHi. }
  rewrite Hscan; simpl. apply IH.
Qed.

(** C7.  When no instrument of the catalog matches the coin,
    [get_available_pairs] returns the empty result: it returns, and
    raises nothing. *)
Theorem no_match_gives_empty_result (upper : string -> string)
    (net : list request -> reply) (coin : string) (s : state) (r : response)
    (body : json) (exchanges : list (string * json)) :
  net (the_request s "/public/v2/instrument" [("symbol", JStr coin)]
         :: wire s) = Answer r ->
  is_error_status (status_code r) = false ->
  json_body r = Decoded body ->
  getitem body "data" = Return (JObj exchanges) ->
  no_match upper coin exchanges ->
  fst (get_available_pairs upper net coin s) = Return [].
Proof.
  intros Hn Hs Hb Hd Hm.
  rewrite get_available_pairs_eq; simpl. rewrite Hn, Hs, Hb; simpl.
  unfold resolve. rewrite Hd; simpl.
  apply (scan_exchanges_no_match Hm).
Qed.

Lemma no_match_gives_empty_result_witness :
  fst (get_available_pairs str_upper (always (ok catalog_body)) "ZZZZ" s0)
  = Return [].
Proof.
  apply (@no_match_gives_empty_result str_upper (always (ok catalog_body))
           "ZZZZ" s0 (ok catalog_body) catalog_body catalog_exchanges);
    try reflexivity.
  repeat constructor; simpl; eexists; (split; [reflexivity|]);
    repeat constructor; do 2 eexists;
    (split; [reflexivity | split; vm_compute; discriminate]).
Defined.

(** ** C3: which end of each series the summary reads *)

Lemma bind_Return {A B : Type} (m : M A) (k : A -> M B) (s s' : state) (b : B) :
  bind m k s = (Return b, s') ->
  exists a s1, m s = (Return a, s1) /\ k a s1 = (Return b, s').
Proof.
  unfold bind. destruct (m s) as [[a|e|] s1]; try discriminate.
  intros H. exists a, s1. auto.
Qed.

Lemma lift_Return {A : Type} (o : outcome A) (s s' : state) (a : A) :
  lift o s = (Return a, s') -> o = Return a /\ s' = s.
Proof. unfold lift. intros [= -> ->]. auto. Qed.

Lemma draw_Return (w : widget) (s s' : state) (u : unit) :
  draw w s = (Return u, s') -> s' = drawn s w.
Proof. unfold draw. destruct u. intros [= <-]. reflexivity. Qed.

Lemma iloc_first (df : pd.DataFrame) (r : pd.row) :
  pd.iloc df 0 = Return r -> nth_error (pd.rows df) 0 = Some r.
Proof.
  unfold pd.iloc. change (0 <? 0) with false. cbv iota zeta.
  destruct (_ && _); [|discriminate].
  change (Z.to_nat 0) with O.
  destruct (nth_error (pd.rows df) 0); [|discriminate].
  now intros [= ->].
Qed.

Lemma iloc_last (df : pd.DataFrame) (r : pd.row) :
  pd.iloc df (-1) = Return r ->
  nth_error (pd.rows df) (List.length (pd.rows df) - 1) = Some r.
Proof.
  unfold pd.iloc. change (-1 <? 0) with true. cbv iota zeta.
  destruct (_ && _); [|discriminate].
  replace (Z.to_nat (Z.of_nat (List.length (pd.rows df)) + -1))
    with (List.length (pd.rows df) - 1)%nat by lia.
  destruct (nth_error (pd.rows df) _); [|discriminate].
  now intros [= ->].
Qed.

Lemma iloc_at_first (df : pd.DataFrame) (c : string) (v : pd.cell) :
  iloc_at df 0 c = Return v -> read_at df 0 c v.
Proof.
  unfold iloc_at. intros H.
  apply and_then_Return in H. destruct H as (r & Hr & Hv).
  exists r. split; [now apply iloc_first | exact Hv].
Qed.

Lemma iloc_at_last (df : pd.DataFrame) (c : string) (v : pd.cell) :
  iloc_at df (-1) c = Return v ->
  read_at df (List.length (pd.rows df) - 1) c v.
Proof.
  unfold iloc_at. intros H.
  apply and_then_Return in H. destruct H as (r & Hr & Hv).
  exists r. split; [now apply iloc_last | exact Hv].
Qed.

Lemma fetch_Return_page (net : list request -> reply) (lib : pd.library)
    (m : metric) (ex_ pair interval limit : json) (s s' : state)
    (df : pd.DataFrame) :
  fetch net lib m ex_ pair interval limit s = (Return df, s') ->
  newest_first m df /\ page s' = page s.
Proof.
  intros H. apply fetch_Return in H.
  destruct H as (r & body & _ & _ & _ & Hn & ->).
  split; [exact (normalize_sorted _ _ _ Hn) | reflexivity].
Qed.

Ltac next H :=
  let a := fresh "a" in
  let s1 := fresh "s" in
  let Hs := fresh "Hs" in
  apply bind_Return in H; destruct H as (a & s1 & Hs & H);
  first
    [ apply lift_Return in Hs; destruct Hs as [Hs ->]
    | apply draw_Return in Hs; subst s1
    | idtac ].

Ltac got_frame net lib m :=
  match goal with
  | H : _ = (Return ?df, ?s1) |- _ =>
      let Hn := fresh "Hn" in
      let Hp := fresh "Hp" in
      destruct (@fetch_Return_page net lib m _ _ default_interval default_limit
                  _ _ _ H) as [Hn Hp];
      assert (fetched net lib m _ _ df)
        by (do 2 eexists; split; [exact H | exact Hn]);
      clear H; simpl in Hp
  end.

(** C3.  In a run of the summary that completes, the five frames are the
    newest-first frames of the fetch methods, and the values shown are
    read at position 0 for the price, the top-account ratio and the
    top-position ratio, and at the last position for the open interest
    and for the all-accounts ratio. *)
Theorem summary_reads_first_or_last (net : list request -> reply)
    (lib : pd.library) (plotly : Figure -> outcome Figure) (coin : string)
    (ex_ pair : json) (s s' : state) :
  fetch_data net lib plotly coin ex_ pair s = (Return tt, s') ->
  exists (ohlc_oi_data price_ohlc_data long_short_data top_traders_data
            L_data : pd.DataFrame)
         (latest_oi latest_close : pd.cell)
         (acc_long acc_short pos_long pos_short all_long all_short : pd.cell)
         (fig_price fig_oi fig_ratio fig_top_traders_ratio L_plot : Figure),
    fetched net lib OpenInterest ex_ pair ohlc_oi_data /\
    fetched net lib PriceOHLC ex_ pair price_ohlc_data /\
    fetched net lib TopAccountRatio ex_ pair long_short_data /\
    fetched net lib TopPositionRatio ex_ pair top_traders_data /\
    fetched net lib AllAccounts ex_ pair L_data /\
    read_at ohlc_oi_data (List.length (pd.rows ohlc_oi_data) - 1) "c" latest_oi /\
    read_at price_ohlc_data 0 "c" latest_close /\
    read_at long_short_data 0 "longRatio" acc_long /\
    read_at long_short_data 0 "shortRatio" acc_short /\
    read_at top_traders_data 0 "longRatio" pos_long /\
    read_at top_traders_data 0 "shortRatio" pos_short /\
    read_at L_data (List.length (pd.rows L_data) - 1) "longRatio" all_long /\
    read_at L_data (List.length (pd.rows L_data) - 1) "shortRatio" all_short /\
    page s' = page s ++
      [ Metric "Open Interest" "{:,} {}" [SCell latest_oi; SStr coin];
        Metric "Price" "${}" [SCell latest_close];
        Metric "Top Accounts Ratio" "{}/{}" [SCell acc_long; SCell acc_short];
        Metric "Top Traders Position  Ratios" "{}/{}"
          [SCell pos_long; SCell pos_short];
        PlotlyChart fig_price; PlotlyChart fig_oi; PlotlyChart fig_ratio;
        PlotlyChart fig_top_traders_ratio; PlotlyChart L_plot;
        Metric "All Accounts Ratio" "{}/{}" [SCell all_long; SCell all_short] ].
Proof.
  unfold fetch_data. intros H.
  repeat next H. apply draw_Return in H. subst s'.
  got_frame net lib AllAccounts.
  got_frame net lib TopPositionRatio.
  got_frame net lib TopAccountRatio.
  got_frame net lib PriceOHLC.
  got_frame net lib OpenInterest.
  do 18 eexists.
  repeat match goal with
         | |- fetched _ _ _ _ _ _ /\ _ => split; [eassumption|]
         end.
  repeat match goal with
         | |- read_at _ 0 _ _ /\ _ =>
             split; [apply iloc_at_first; eassumption|]
         | |- read_at _ _ _ _ /\ _ =>
             split; [apply iloc_at_last; eassumption|]
         end.
  simpl.
  repeat match goal with
         | Hp : page _ = _ |- _ => rewrite Hp; clear Hp; simpl
         end.
  repeat rewrite <- app_assoc. reflexivity.
Qed.

Lemma summary_reads_first_or_last_witness :
  exists (ohlc_oi_data : pd.DataFrame) (latest_oi : pd.cell),
    fetched provider pd.reference OpenInterest (JStr "Binance")
      (JStr "BTCUSDT") ohlc_oi_data /\
    read_at ohlc_oi_data (List.length (pd.rows ohlc_oi_data) - 1) "c"
      latest_oi /\
    In (Metric "Open Interest" "{:,} {}" [SCell latest_oi; SStr "BTC"])
       (page (snd summary_run)).
Proof.
  destruct (@summary_reads_first_or_last provider pd.reference
              (@Return Figure) "BTC" (JStr "Binance") (JStr "BTCUSDT") s0
              (snd summary_run))
    as (oi & ? & ? & ? & ? & v & ? & ? & ? & ? & ? & ? & ? & ? & ? & ? & ? & ?
        & Hf & ? & ? & ? & ? & Hr & ? & ? & ? & ? & ? & ? & ? & Hp).
  - vm_compute. reflexivity.
  - exists oi, v. split; [exact Hf|]. split; [exact Hr|].
    rewrite Hp. apply in_or_app. right. left. reflexivity.
Defined.

(** ** C9: decoding an epoch and encoding it back *)

(** An instant that fits the int64 count of nanoseconds has a date. *)
Lemma in_int64_has_date (ns : Z) :
  pd.in_int64 ns = true -> pd.has_date ns = true.
Proof.
  unfold pd.in_int64, pd.has_date, pd.date_of, pd.int64_max, pd.ns_per_day,
    pd.date_min, pd.date_max.
  intros H. apply andb_true_iff in H. destruct H as [H1 H2].
  apply Z.leb_le in H1. apply Z.leb_le in H2.
  apply andb_true_iff. split; apply Z.leb_le.
  - apply Z.div_le_lower_bound; lia.
  - apply Z.div_le_upper_bound; lia.
Qed.

(** Decoding one epoch: it returns whenever the nanosecond count fits;
    beyond that the resolution of the library decides, and a time that is
    returned is the exact one. *)
Lemma to_datetime_one (lib : pd.library) (t u : Z) :
  pd.to_datetime lib [pd.Obj (JInt t)] u =
  if pd.in_int64 (t * u) then Return [pd.Timestamp (t * u)]
  else if pd.in_int64 t then
    match pd.resolution lib with
    | pd.Nanoseconds => Raise OutOfBoundsDatetime
    | pd.OfTheUnit =>
        if pd.has_date (t * u) then Return [pd.Timestamp (t * u)]
        else Unmodelled
    | pd.Unsettled => Unmodelled
    end
  else Unmodelled.
Proof.
  unfold pd.to_datetime; simpl.
  destruct (pd.in_int64 (t * u)); [reflexivity|].
  destruct (pd.in_int64 t); [|reflexivity].
  destruct (pd.resolution lib); try reflexivity.
  destruct (pd.has_date (t * u)); reflexivity.
Qed.

Lemma to_datetime_one_Return (lib : pd.library) (t u : Z) (ts : pd.cell) :
  pd.to_datetime lib [pd.Obj (JInt t)] u = Return [ts] ->
  ts = pd.Timestamp (t * u) /\ pd.has_date (t * u) = true.
Proof.
  rewrite to_datetime_one.
  destruct (pd.in_int64 (t * u)) eqn:E.
  - intros [= <-]. split; [reflexivity | now apply in_int64_has_date].
  - destruct (pd.in_int64 t); [|discriminate].
    destruct (pd.resolution lib); try discriminate.
    destruct (pd.has_date (t * u)) eqn:Ed; [|discriminate].
    intros [= <-]. split; reflexivity.
Qed.

(** C9.  An epoch in milliseconds that [to_datetime] decodes (it does
    whenever the nanosecond count fits int64) is given back exactly by
    encoding the timestamp to milliseconds again.  For the daily metrics
    the date kept stands for the midnight at or before the epoch: the way
    back gives [t - t mod 86400000] for the open interest (milliseconds)
    and [t - t mod 86400] for the price (seconds), which is [t] only when
    [t] is itself a midnight. *)
Theorem epoch_round_trip (lib : pd.library) (t : Z) :
  (pd.in_int64 (t * pd.ns_per_ms) = true ->
   exists ts,
     pd.to_datetime lib [pd.Obj (JInt t)] pd.ns_per_ms = Return [ts]) /\
  (forall ts,
     pd.to_datetime lib [pd.Obj (JInt t)] pd.ns_per_ms = Return [ts] ->
     epoch_ms ts = Some t /\
     exists d,
       pd.dt_date [ts] = Return [d] /\
       epoch_ms d = Some (t - t mod ms_per_day) /\
       (epoch_ms d = Some t <-> t mod ms_per_day = 0)) /\
  (forall ts,
     pd.to_datetime lib [pd.Obj (JInt t)] pd.ns_per_s = Return [ts] ->
     epoch_s ts = Some t /\
     exists d,
       pd.dt_date [ts] = Return [d] /\
       epoch_s d = Some (t - t mod s_per_day) /\
       (epoch_s d = Some t <-> t mod s_per_day = 0)).
Proof.
  split; [|split].
  - intros Hr. rewrite to_datetime_one. rewrite Hr. eauto.
  - intros ts H. apply to_datetime_one_Return in H. destruct H as [-> Hd].
    simpl. split.
    + f_equal. apply Z.div_mul. discriminate.
    + exists (pd.Date (pd.date_of (t * pd.ns_per_ms))).
      split; [unfold pd.dt_date; simpl; now rewrite Hd|].
      assert (E : pd.date_of (t * pd.ns_per_ms) * ms_per_day
                  = t - t mod ms_per_day).
      { unfold pd.date_of, pd.ns_per_day, pd.ns_per_ms, ms_per_day.
        change 86400000000000 with (86400000 * 1000000).
        rewrite Z.div_mul_cancel_r by discriminate.
        pose proof (Z.div_mod t 86400000). lia. }
      simpl. rewrite E. split; [reflexivity|].
      split; [intros [= H]; lia | intros ->; f_equal; lia].
  - intros ts H. apply to_datetime_one_Return in H. destruct H as [-> Hd].
    simpl. split.
    + f_equal. apply Z.div_mul. discriminate.
    + exists (pd.Date (pd.date_of (t * pd.ns_per_s))).
      split; [unfold pd.dt_date; simpl; now rewrite Hd|].
      assert (E : pd.date_of (t * pd.ns_per_s) * s_per_day
                  = t - t mod s_per_day).
      { unfold pd.date_of, pd.ns_per_day, pd.ns_per_s, s_per_day.
        change 86400000000000 with (86400 * 1000000000).
        rewrite Z.div_mul_cancel_r by discriminate.
        pose proof (Z.div_mod t 86400). lia. }
      simpl. rewrite E. split; [reflexivity|].
      split; [intros [= H]; lia | intros ->; f_equal; lia].
Qed.

Lemma epoch_round_trip_witness :
  epoch_ms (pd.Timestamp 1700000000123000000) = Some 1700000000123.
Proof.
  apply (proj1 (proj2 (epoch_round_trip pd.reference 1700000000123))
           (pd.Timestamp 1700000000123000000)).
  reflexivity.
Defined.

(** ** Frames of records *)

Lemma all_some_map {A B : Type} (f : A -> option B) (g : B -> A) (l : list B) :
  (forall b, f (g b) = Some b) -> pd.all_some f (map g l) = Some l.
Proof.
  intros Hfg; induction l as [|b l IH]; simpl; [reflexivity|].
  rewrite Hfg, IH. reflexivity.
Qed.

Lemma as_records_map (recs : list (list (string * json))) :
  pd.as_records (map JObj recs) = Some recs.
Proof. apply all_some_map. reflexivity. Qed.

Lemma records_of_list (recs : list (list (string * json))) :
  pd.records_of (JArr (map JObj recs)) = Some recs.
Proof. apply as_records_map. Qed.

Lemma Forall2_map_left {A B C : Type} (R : B -> C -> Prop) (f : A -> B)
    (l : list A) (l' : list C) :
  Forall2 R (map f l) l' <-> Forall2 (fun a c => R (f a) c) l l'.
Proof.
  revert l'; induction l as [|a l IH]; intros l'; simpl.
  - split; inversion 1; constructor.
  - split; inversion 1; subst; constructor; trivial; now apply IH.
Qed.

Lemma Forall2_In_right {A B : Type} (R : A -> B -> Prop) (l : list A)
    (l' : list B) (b : B) :
  Forall2 R l l' -> In b l' -> exists a, In a l /\ R a b.
Proof.
  induction 1 as [|a b' l l' Hab _ IH]; simpl; [intros []|].
  intros [<-|Hin]; [eauto|]. destruct (IH Hin) as (a' & Ha & Hr). eauto.
Qed.

Lemma Forall2_compose {A B C : Type} (R : A -> B -> Prop) (S : B -> C -> Prop)
    (l : list A) (l' : list B) (l'' : list C) :
  Forall2 R l l' -> Forall2 S l' l'' ->
  Forall2 (fun a c => exists b, R a b /\ S b c) l l''.
Proof.
  intros H; revert l''; induction H as [|a b l l' Hab _ IH]; intros l'' H';
    inversion H'; subst; constructor; eauto.
Qed.

Lemma position_nth_error (c : string) (cols : list string) (n : nat) :
  pd.position c cols = Some n -> nth_error cols n = Some c.
Proof.
  revert n; induction cols as [|c' cols IH]; intros n; simpl; [discriminate|].
  destruct (String.eqb_spec c c') as [->|Hne].
  - now intros [= <-].
  - destruct (pd.position c cols) as [k|]; [|discriminate].
    intros [= <-]. simpl. now apply IH.
Qed.

Lemma position_None (c : string) (cols : list string) :
  pd.position c cols = None <-> ~ In c cols.
Proof.
  induction cols as [|c' cols IH]; simpl.
  - split; [intros _ [] | reflexivity].
  - destruct (String.eqb_spec c c') as [->|Hne].
    + split; [discriminate | intros H; exfalso; apply H; now left].
    + destruct (pd.position c cols) as [k|].
      * split; [discriminate|]. intros H.
        assert (Hn : ~ In c cols) by (intros Hin; apply H; now right).
        apply IH in Hn. discriminate Hn.
      * split; [|reflexivity]. intros _ [Heq|Hin]; [congruence|].
        exact (proj1 IH eq_refl Hin).
Qed.

Lemma nth_map_some {A B : Type} (f : A -> B) (l : list A) (n : nat) (a : A)
    (d : B) :
  nth_error l n = Some a -> nth n (map f l) d = f a.
Proof.
  revert n; induction l as [|x l IH]; intros [|n]; simpl; try discriminate.
  - now intros [= ->].
  - apply IH.
Qed.


Lemma length_replace_nth (n : nat) (x : pd.cell) (l : list pd.cell) :
  List.length (pd.replace_nth n x l) = List.length l.
Proof.
  revert n; induction l as [|y l IH]; intros [|n]; simpl; auto.
Qed.

Section Records.

Variable lib : pd.library.
Variable m : metric.

(** The frame as the constructor builds it. *)
Lemma label_from_length (recs : list (list (string * json)))
    (cols : list string) (i : nat) (rest : list (list (string * json))) :
  List.length (pd.label_from lib recs cols i rest) = List.length rest.
Proof.
  revert i; induction rest as [|kv rest IH]; intros i; simpl; auto.
Qed.

Lemma label_from_column (recs : list (list (string * json)))
    (cols : list string) (tpos : nat) (c : string) (i : nat)
    (rest : list (list (string * json))) :
  nth_error cols tpos = Some c ->
  map (pd.cell_at tpos) (pd.label_from lib recs cols i rest)
  = map (fun kv => pd.built lib recs kv c) rest.
Proof.
  intros Hc. revert i; induction rest as [|kv rest IH]; intros i;
    [reflexivity|].
  cbn [pd.label_from map]. rewrite IH. f_equal.
  unfold pd.cell_at. cbn [pd.cells].
  exact (nth_map_some (pd.built lib recs kv) cols tpos pd.NaN Hc).
Qed.

(** The rows once the time column is rewritten. *)
Lemma retimed_length (tpos : nat) (rs : list pd.row) (times : list pd.cell) :
  List.length times = List.length rs ->
  List.length (retimed tpos rs times) = List.length rs.
Proof.
  intros H. unfold retimed. rewrite length_map, length_combine. lia.
Qed.

Lemma retimed_labels (recs : list (list (string * json)))
    (cols : list string) (tpos : nat) (i : nat)
    (rest : list (list (string * json))) (times : list pd.cell) :
  List.length times = List.length rest ->
  map pd.label (retimed tpos (pd.label_from lib recs cols i rest) times)
  = seq i (List.length rest).
Proof.
  revert i times; induction rest as [|kv rest IH]; intros i [|t times] H;
    try discriminate; [reflexivity|].
  unfold retimed in *. cbn [pd.label_from combine map pd.label fst seq
                             List.length].
  f_equal. apply IH. now injection H.
Qed.


Lemma retimed_faithful (tpos : nat) (cols : list string)
    (all_ pre rest : list (list (string * json))) (times : list pd.cell) :
  all_ = pre ++ rest ->
  Forall2 (fun kv t =>
             decoded_time lib m (raw_times lib m all_)
               (pd.built lib all_ kv (time_field m)) = Return t)
          rest times ->
  Forall (faithful_row lib m tpos cols all_)
         (retimed tpos (pd.label_from lib all_ cols (List.length pre) rest)
            times).
Proof.
  intros E H. revert pre E.
  induction H as [|kv t rest times Hkt _ IH]; intros pre E.
  - constructor.
  - unfold retimed. cbn [pd.label_from combine map fst snd pd.label pd.cells].
    constructor.
    + exists kv, t. cbn [pd.label pd.cells]. split; [|split].
      * rewrite E, nth_error_app2 by lia. now rewrite Nat.sub_diag.
      * exact Hkt.
      * reflexivity.
    + specialize (IH (pre ++ [kv])).
      rewrite length_app, Nat.add_1_r in IH.
      apply IH. now rewrite <- app_assoc.
Qed.

(** What a cell of the time column is decoded to. *)
Lemma instant_kind (u : Z) (col : list pd.cell) (c t : pd.cell) :
  pd.instant lib u col c = Return t ->
  t = pd.NaT \/ exists ns, t = pd.Timestamp ns /\ pd.has_date ns = true.
Proof.
  assert (R : match pd.read lib u col c with
              | pd.At ns =>
                  if pd.has_date ns then Return (pd.Timestamp ns)
                  else Unmodelled
              | pd.Null => Return pd.NaT
              | pd.Refused why => Raise (pd.error_of why)
              | pd.Unread => Unmodelled
              end = Return t ->
              t = pd.NaT \/
              exists ns, t = pd.Timestamp ns /\ pd.has_date ns = true).
  { destruct (pd.read lib u col c) as [ns| |why|]; try discriminate.
    - destruct (pd.has_date ns) eqn:E; [|discriminate].
      intros [= <-]. right. eauto.
    - intros [= <-]. now left. }
  unfold pd.instant.
  destruct c as [[ |b|z|m0 e'|x|l|kv]| |ns|d| ]; try exact R;
    try (intros [= <-]; now left).
  destruct (pd.in_int64 (z * u)) eqn:E.
  - intros [= <-]. right. eexists. split; [reflexivity|].
    now apply in_int64_has_date.
  - destruct (pd.in_int64 z); [|discriminate].
    destruct (pd.resolution lib); try discriminate.
    destruct (pd.has_date (z * u)) eqn:Ed; [|discriminate].
    intros [= <-]. right. eauto.
Qed.


Lemma decoded_time_kind (col : list pd.cell) (c t : pd.cell) :
  decoded_time lib m col c = Return t ->
  t = pd.NaT \/
  (daily m = true /\ exists d, t = pd.Date d) \/
  (daily m = false /\ exists ns, t = pd.Timestamp ns).
Proof.
  unfold decoded_time. intros H. apply and_then_Return in H.
  destruct H as (ts & Hi & H). apply instant_kind in Hi.
  destruct (daily m).
  - destruct Hi as [->|(ns & -> & Hd)]; simpl in H.
    + injection H as <-. now left.
    + rewrite Hd in H. injection H as <-. right. left. eauto.
  - injection H as <-. destruct Hi as [->|(ns & -> & _)]; [now left|].
    right. right. eauto.
Qed.



(** The two decoding steps of a method, cell by cell. *)
Lemma decoded_times (col stamps times : list pd.cell) :
  pd.to_datetime lib col (per_unit m) = Return stamps ->
  (if daily m then pd.dt_date stamps else Return stamps) = Return times ->
  Forall2 (fun c t => decoded_time lib m col c = Return t) col times.
Proof.
  unfold pd.to_datetime. intros Hs Ht. apply each_Forall2 in Hs.
  unfold decoded_time. destruct (daily m).
  - unfold pd.dt_date in Ht. apply each_Forall2 in Ht.
    eapply Forall2_impl; [|exact (Forall2_compose Hs Ht)].
    intros c t (ts & Hc & Hd). rewrite Hc. exact Hd.
  - injection Ht as <-. eapply Forall2_impl; [|exact Hs].
    intros c t Hc. now rewrite Hc.
Qed.

(** A column of decoded times can be sorted. *)
Lemma reader_times (col times : list pd.cell) :
  Forall2 (fun c t => decoded_time lib m col c = Return t) col times ->
  exists key, pd.reader times = Some key.
Proof.
  intros H. unfold pd.reader.
  destruct (forallb pd.stamp_or_NaT times) eqn:E1; [eauto|].
  destruct (forallb pd.day_or_NaT times) eqn:E2; [eauto|].
  exfalso. assert (K : forallb (if daily m then pd.day_or_NaT
                                else pd.stamp_or_NaT) times = true).
  { apply forallb_forall. intros t Ht.
    destruct (@Forall2_In_right _ _ _ _ _ t H Ht) as (c & _ & Hc).
    clear - Hc.
    apply decoded_time_kind in Hc.
    destruct Hc as [->|[(-> & d & ->)|(-> & ns & ->)]];
      try reflexivity; now destruct (daily m). }
  destruct (daily m); congruence.
Qed.

End Records.

(** ** A fetch method on a list of records, case by case *)

Lemma normalize_records (lib : pd.library) (m : metric) (body data : json)
    (recs : list (list (string * json))) :
  getitem body "data" = Return data ->
  pd.records_of data = Some recs ->
  normalize lib m body =
  match pd.position (time_field m) (frame_columns m recs) with
  | None => Raise (KeyError (time_field m))
  | Some tpos =>
      stamps <~ pd.to_datetime lib (raw_times lib m recs) (per_unit m) ;;
      times <~ (if daily m then pd.dt_date stamps else Return stamps) ;;
      pd.sort_values
        {| pd.columns := frame_columns m recs;
           pd.rows :=
             retimed tpos
               (pd.label_from lib recs (frame_columns m recs) 0 recs) times |}
        (time_field m) false
  end.
Proof.
  intros Hd Hr. unfold normalize. rewrite Hd. cbn [and_then].
  unfold pd.DataFrame_of. rewrite Hr. cbn [and_then].
  fold (frame_columns m recs). set (cols := frame_columns m recs).
  unfold pd.column at 1. cbn [pd.columns pd.rows].
  destruct (pd.position (time_field m) cols) as [tpos|] eqn:Ep;
    [|reflexivity].
  cbn [and_then].
  rewrite (label_from_column lib recs cols tpos 0 recs
             (position_nth_error _ _ Ep)).
  fold (raw_times lib m recs).
  unfold pd.set_column. cbn [pd.columns pd.rows]. rewrite Ep.
  reflexivity.
Qed.

(** What a returned frame is, given the records sent. *)
Lemma normalize_records_Return (lib : pd.library) (m : metric)
    (body data : json) (recs : list (list (string * json)))
    (df : pd.DataFrame) :
  getitem body "data" = Return data ->
  pd.records_of data = Some recs ->
  normalize lib m body = Return df ->
  exists tpos times,
    pd.position (time_field m) (frame_columns m recs) = Some tpos /\
    Forall2 (fun kv t =>
               decoded_time lib m (raw_times lib m recs)
                 (pd.built lib recs kv (time_field m)) = Return t)
            recs times /\
    pd.columns df = frame_columns m recs /\
    Permutation (pd.rows df)
      (retimed tpos (pd.label_from lib recs (frame_columns m recs) 0 recs)
         times).
Proof.
  intros Hd Hr Hn. rewrite (normalize_records lib m body Hd Hr) in Hn.
  destruct (pd.position _ _) as [tpos|] eqn:Ep; [|discriminate].
  apply and_then_Return in Hn. destruct Hn as (stamps & Hs & Hn).
  apply and_then_Return in Hn. destruct Hn as (times & Ht & Hn).
  apply sort_values_desc in Hn. destruct Hn as (Hc & Hp & _).
  exists tpos, times. split; [reflexivity|]. split; [|split].
  - pose proof (decoded_times lib m _ Hs Ht) as H.
    unfold raw_times at 2 in H.
    exact (proj1 (Forall2_map_left _ _ _ _) H).
  - exact Hc.
  - exact Hp.
Qed.

(** The shape of a returned frame: one row per record, each labelled by
    the rank of its record and faithful to it. *)
Lemma normalize_records_rows (lib : pd.library) (m : metric)
    (body data : json) (recs : list (list (string * json)))
    (df : pd.DataFrame) :
  getitem body "data" = Return data ->
  pd.records_of data = Some recs ->
  normalize lib m body = Return df ->
  exists tpos,
    pd.position (time_field m) (pd.columns df) = Some tpos /\
    pd.columns df = frame_columns m recs /\
    List.length (pd.rows df) = List.length recs /\
    Permutation (map pd.label (pd.rows df)) (seq 0 (List.length recs)) /\
    Forall (faithful_row lib m tpos (pd.columns df) recs) (pd.rows df).
Proof.
  intros Hd Hr Hn.
  destruct (normalize_records_Return lib m body Hd Hr Hn)
    as (tpos & times & Ep & Ht & Hc & Hp).
  pose proof (Forall2_length_eq Ht) as Hlen.
  exists tpos. rewrite Hc. split; [exact Ep|]. split; [reflexivity|].
  split; [|split].
  - rewrite (Permutation_length Hp), retimed_length;
      rewrite label_from_length; trivial.
  - rewrite (Permutation_map pd.label Hp). now rewrite retimed_labels.
  - apply (Permutation_Forall (Permutation_sym Hp)).
    exact (@retimed_faithful lib m tpos (frame_columns m recs) recs [] recs
             times eq_refl Ht).
Qed.

Lemma fetch_delivered (net : list request -> reply) (lib : pd.library)
    (m : metric) (ex_ pair interval limit : json) (s : state) (body : json) :
  delivers net s (fetch_request s m ex_ pair interval limit) body ->
  fetch net lib m ex_ pair interval limit s =
  (normalize lib m body,
   after_send s (fetch_request s m ex_ pair interval limit)).
Proof.
  intros (r & Hn & Hs & Hb). rewrite fetch_eq. cbv zeta.
  unfold fetch_request in *. rewrite Hn, Hs, Hb. reflexivity.
Qed.

Lemma pairs_delivered (upper : string -> string) (net : list request -> reply)
    (coin : string) (s : state) (body : json) :
  delivers net s (pairs_request s coin) body ->
  get_available_pairs upper net coin s =
  (resolve upper coin body, after_send s (pairs_request s coin)).
Proof.
  intros (r & Hn & Hs & Hb). rewrite get_available_pairs_eq. cbv zeta.
  unfold pairs_request in *. rewrite Hn, Hs, Hb. reflexivity.
Qed.

Lemma always_delivers (body : json) (s : state) (rq : request) :
  delivers (always (ok body)) s rq body.
Proof. exists (ok body). repeat split. Defined.

(** ** C5: the price frame has the six columns, and dates in [t] *)






(** * Further properties *)

(** X1.  A frame returned by any of the five fetch methods has one row
    per record of the array sent: no record is dropped, none is repeated,
    and records with equal times are all kept. *)
Theorem fetch_keeps_every_record (net : list request -> reply)
    (lib : pd.library) (m : metric) (ex_ pair interval limit : json)
    (s s' : state) (body : json) (recs : list (list (string * json)))
    (df : pd.DataFrame) :
  delivers net s (fetch_request s m ex_ pair interval limit) body ->
  getitem body "data" = Return (JArr (map JObj recs)) ->
  fetch net lib m ex_ pair interval limit s = (Return df, s') ->
  List.length (pd.rows df) = List.length recs /\
  Permutation (map pd.label (pd.rows df)) (seq 0 (List.length recs)).
Proof.
  intros Hdel Hd Hf. rewrite (fetch_delivered lib Hdel) in Hf.
  injection Hf as Hn _.
  destruct (normalize_records_rows lib m body Hd (records_of_list recs) Hn)
    as (tpos & _ & _ & Hl & Hp & _).
  split; [exact Hl | exact Hp].
Qed.

Lemma fetch_keeps_every_record_witness :
  List.length (pd.rows ratio_frame) = 2%nat /\
  Permutation (map pd.label (pd.rows ratio_frame)) (seq 0 2).
Proof.
  apply (@fetch_keeps_every_record (always (ok ratio_body)) pd.reference
           TopAccountRatio (JStr "Binance") (JStr "BTCUSDT") default_interval
           default_limit s0 (snd ratio_run) ratio_body
           [ [("createTime", JInt 1000); ("longRatio", JFloat 525 (-1));
              ("shortRatio", JFloat 475 (-1))];
             [("createTime", JInt 2000); ("longRatio", JFloat 51 0);
              ("shortRatio", JFloat 49 0)] ] ratio_frame).
  - apply always_delivers.
  - reflexivity.
  - vm_compute. reflexivity.
Defined.



(** ** The columns met in the records *)

Lemma mem_In (k : string) (ks : list string) :
  pd.mem k ks = true <-> In k ks.
Proof.
  unfold pd.mem. rewrite existsb_exists. split.
  - intros (x & Hin & He). apply String.eqb_eq in He. now subst.
  - intros Hin. exists k. split; [exact Hin | apply String.eqb_refl].
Qed.

Lemma add_keys_In (seen : list string) (kv : list (string * json))
    (k : string) :
  In k (pd.add_keys seen kv) <-> In k seen \/ In k (map fst kv).
Proof.
  unfold pd.add_keys. revert seen; induction kv as [|[k' v] kv IH];
    intros seen; simpl.
  - tauto.
  - rewrite IH. destruct (pd.mem k' seen) eqn:Em.
    + apply mem_In in Em. split; [tauto|].
      intros [H|[H|H]]; subst; auto.
    + rewrite in_app_iff. simpl. tauto.
Qed.

Lemma add_keys_NoDup (seen : list string) (kv : list (string * json)) :
  NoDup seen -> NoDup (pd.add_keys seen kv).
Proof.
  unfold pd.add_keys. revert seen; induction kv as [|[k' v] kv IH];
    intros seen Hs; simpl; [exact Hs|].
  apply IH. destruct (pd.mem k' seen) eqn:Em; [exact Hs|].
  assert (Hn : ~ In k' seen).
  { intros Hin. apply mem_In in Hin. congruence. }
  apply NoDup_app; [exact Hs | repeat constructor; intros [] | ].
  intros x Hx [<-|[]]. contradiction.
Qed.

Lemma union_keys_from_In (seen : list string)
    (recs : list (list (string * json))) (k : string) :
  In k (fold_left pd.add_keys recs seen) <->
  In k seen \/ exists kv, In kv recs /\ In k (map fst kv).
Proof.
  revert seen; induction recs as [|kv recs IH]; intros seen; simpl.
  - split; [tauto | intros [H|(kv & [] & _)]; exact H].
  - rewrite IH, add_keys_In. split.
    + intros [[H|H]|(kv' & Hin & Hk)]; eauto.
    + intros [H|(kv' & [<-|Hin] & Hk)]; eauto.
Qed.

Lemma union_keys_In (recs : list (list (string * json))) (k : string) :
  In k (pd.union_keys recs) <-> exists kv, In kv recs /\ In k (map fst kv).
Proof.
  unfold pd.union_keys. rewrite union_keys_from_In. simpl. tauto.
Qed.

Lemma union_keys_NoDup (recs : list (list (string * json))) :
  NoDup (pd.union_keys recs).
Proof.
  unfold pd.union_keys. generalize (NoDup_nil string).
  generalize (@nil string). induction recs as [|kv recs IH]; intros seen Hs;
    simpl; [exact Hs|].
  apply IH. now apply add_keys_NoDup.
Qed.

Lemma lookup_None {A : Type} (k : string) (kv : list (string * A)) :
  lookup k kv = None <-> ~ In k (map fst kv).
Proof.
  induction kv as [|[k' v] kv IH]; simpl.
  - split; [intros _ [] | reflexivity].
  - destruct (String.eqb_spec k k') as [->|Hne].
    + split; [discriminate | intros H; exfalso; apply H; now left].
    + rewrite IH. split; [intros H [Heq|Hin]; [congruence | now apply H] | tauto].
Qed.

Lemma time_column_missing (m : metric) (recs : list (list (string * json))) :
  pd.position (time_field m) (frame_columns m recs) = None <->
  m <> PriceOHLC /\ Forall (fun kv => lookup (time_field m) kv = None) recs.
Proof.
  rewrite position_None. unfold frame_columns.
  destruct m; cbn [selected_columns time_field];
    try (rewrite union_keys_In, Forall_forall; split;
         [ intros H; split; [discriminate|];
           intros kv Hin; apply lookup_None; intros Hk; apply H; eauto
         | intros [_ H] (kv & Hin & Hk);
           exact (proj1 (lookup_None _ _) (H kv Hin) Hk) ]).
  split; [intros H; exfalso; apply H; now left | intros [H _]; now destruct H].
Qed.

Lemma fetch_outcome (net : list request -> reply) (lib : pd.library)
    (m : metric) (ex_ pair interval limit : json) (s : state) (body : json) :
  delivers net s (fetch_request s m ex_ pair interval limit) body ->
  fst (fetch net lib m ex_ pair interval limit s) = normalize lib m body /\
  stdout (snd (fetch net lib m ex_ pair interval limit s)) = stdout s /\
  page (snd (fetch net lib m ex_ pair interval limit s)) = page s.
Proof. intros H. rewrite (fetch_delivered lib H). repeat split. Qed.

(** Once the time column is found, nothing in a method raises a
    [KeyError]. *)
Lemma found_time_no_KeyError (lib : pd.library) (m : metric)
    (body data : json) (recs : list (list (string * json))) (tpos : nat)
    (k : string) :
  getitem body "data" = Return data ->
  pd.records_of data = Some recs ->
  pd.position (time_field m) (frame_columns m recs) = Some tpos ->
  normalize lib m body <> Raise (KeyError k).
Proof.
  intros Hd Hr Ep. rewrite (normalize_records lib m body Hd Hr), Ep.
  destruct (pd.to_datetime lib _ _) as [stamps|e|] eqn:Es; cbn [and_then];
    [| |discriminate].
  - destruct (if daily m then pd.dt_date stamps else Return stamps)
      as [times|e|] eqn:Et; cbn [and_then]; [| |discriminate].
    + unfold pd.sort_values. cbn [pd.columns]. rewrite Ep.
      destruct (pd.reader _); discriminate.
    + exfalso. destruct (daily m); [|discriminate].
      exact (dt_date_no_raise _ Et).
  - apply to_datetime_Raise in Es. intros [= ->]. discriminate Es.
Qed.

(** X3.  On a list of records, a fetch method raises [KeyError] for its
    time field exactly when it is not the price method and no record
    carries that field (an empty list included): the price method fixes
    its columns and so always finds [t].  The error is not an [HTTPError]:
    it passes the [except] clause and nothing is printed. *)
Theorem missing_time_field_is_KeyError (net : list request -> reply)
    (lib : pd.library) (m : metric) (ex_ pair interval limit : json)
    (s : state) (body : json) (recs : list (list (string * json))) :
  delivers net s (fetch_request s m ex_ pair interval limit) body ->
  getitem body "data" = Return (JArr (map JObj recs)) ->
  (fst (fetch net lib m ex_ pair interval limit s)
     = Raise (KeyError (time_field m))
   <-> m <> PriceOHLC /\
       Forall (fun kv => lookup (time_field m) kv = None) recs) /\
  stdout (snd (fetch net lib m ex_ pair interval limit s)) = stdout s.
Proof.
  intros Hdel Hd. destruct (fetch_outcome lib Hdel) as (-> & Hout & _).
  split; [|exact Hout].
  rewrite <- time_column_missing.
  destruct (pd.position (time_field m) (frame_columns m recs)) as [tpos|]
    eqn:Ep.
  - split; [|discriminate]. intros H. exfalso.
    exact (found_time_no_KeyError lib m body Hd (records_of_list recs) Ep H).
  - rewrite (normalize_records lib m body Hd (records_of_list recs)), Ep.
    tauto.
Qed.

Lemma missing_time_field_is_KeyError_witness :
  fst (fetch (always (ok empty_body)) pd.reference AllAccounts (JStr "Binance")
         (JStr "BTCUSDT") default_interval default_limit s0)
  = Raise (KeyError "createTime").
Proof.
  apply (proj2 (proj1 (@missing_time_field_is_KeyError (always (ok empty_body))
                         pd.reference AllAccounts (JStr "Binance")
                         (JStr "BTCUSDT") default_interval default_limit s0
                         empty_body []
                         (always_delivers empty_body s0 _) eq_refl))).
  split; [discriminate | constructor].
Defined.

(** X4.  On an empty array the price method returns the empty frame with
    its six columns, while each of the other four methods raises
    [KeyError] for its time field. *)
Theorem empty_array_price_returns_others_raise (net : list request -> reply)
    (lib : pd.library) (m : metric) (ex_ pair interval limit : json)
    (s : state) (body : json) :
  delivers net s (fetch_request s m ex_ pair interval limit) body ->
  getitem body "data" = Return (JArr []) ->
  fst (fetch net lib m ex_ pair interval limit s) =
  match m with
  | PriceOHLC =>
      Return {| pd.columns := ["t"; "o"; "h"; "l"; "c"; "v"]; pd.rows := [] |}
  | _ => Raise (KeyError (time_field m))
  end.
Proof.
  intros Hdel Hd. destruct (fetch_outcome lib Hdel) as (-> & _).
  rewrite (normalize_records lib m body Hd (records_of_list [])).
  destruct m; reflexivity.
Qed.

Lemma empty_array_price_returns_others_raise_witness :
  fst (fetch (always (ok empty_body)) pd.reference PriceOHLC (JStr "Binance")
         (JStr "BTCUSDT") default_interval default_limit s0)
  = Return {| pd.columns := ["t"; "o"; "h"; "l"; "c"; "v"]; pd.rows := [] |}.
Proof.
  apply (@empty_array_price_returns_others_raise (always (ok empty_body))
           pd.reference PriceOHLC (JStr "Binance") (JStr "BTCUSDT")
           default_interval default_limit s0 empty_body
           (always_delivers empty_body s0 _) eq_refl).
Defined.

(** X6.  The columns of a returned frame: the price method has its six
    fixed names; the other four have every key that some record carries,
    each once, so that no provider field is dropped. *)
Theorem fetch_columns (net : list request -> reply) (lib : pd.library)
    (m : metric) (ex_ pair interval limit : json) (s s' : state) (body : json)
    (recs : list (list (string * json))) (df : pd.DataFrame) :
  delivers net s (fetch_request s m ex_ pair interval limit) body ->
  getitem body "data" = Return (JArr (map JObj recs)) ->
  fetch net lib m ex_ pair interval limit s = (Return df, s') ->
  NoDup (pd.columns df) /\
  (m = PriceOHLC -> pd.columns df = ["t"; "o"; "h"; "l"; "c"; "v"]) /\
  (m <> PriceOHLC ->
   forall c, In c (pd.columns df) <->
             exists kv, In kv recs /\ lookup c kv <> None).
Proof.
  intros Hdel Hd Hf. rewrite (fetch_delivered lib Hdel) in Hf.
  injection Hf as Hn _.
  destruct (normalize_records_rows lib m body Hd (records_of_list recs) Hn)
    as (tpos & _ & -> & _).
  unfold frame_columns. split; [|split].
  - destruct m; cbn [selected_columns]; try apply union_keys_NoDup.
    repeat constructor; simpl; intuition discriminate.
  - now intros ->.
  - intros Hm c.
    assert (E : match selected_columns m with
                | Some cols => cols
                | None => pd.union_keys recs
                end = pd.union_keys recs)
      by (destruct m; try reflexivity; now destruct Hm).
    rewrite E, union_keys_In.
    split; intros (kv & Hin & Hk); exists kv; (split; [exact Hin|]).
    + intros Hnone. apply lookup_None in Hnone. contradiction.
    + destruct (in_dec string_dec c (map fst kv)) as [Hc|Hc]; [exact Hc|].
      exfalso. apply Hk. now apply lookup_None.
Qed.

Lemma fetch_columns_witness :
  NoDup (pd.columns ratio_frame) /\
  (TopAccountRatio = PriceOHLC ->
   pd.columns ratio_frame = ["t"; "o"; "h"; "l"; "c"; "v"]) /\
  (TopAccountRatio <> PriceOHLC ->
   forall c, In c (pd.columns ratio_frame) <->
             exists kv,
               In kv [ [("createTime", JInt 1000); ("longRatio", JFloat 525 (-1));
                        ("shortRatio", JFloat 475 (-1))];
                       [("createTime", JInt 2000); ("longRatio", JFloat 51 0);
                        ("shortRatio", JFloat 49 0)] ] /\
               lookup c kv <> None).
Proof.
  apply (@fetch_columns (always (ok ratio_body)) pd.reference TopAccountRatio
           (JStr "Binance") (JStr "BTCUSDT") default_interval default_limit
           s0 (snd ratio_run) ratio_body).
  - apply always_delivers.
  - reflexivity.
  - vm_compute. reflexivity.
Defined.

(** ** What goes on the wire and what is printed *)

(** X7.  With a client built by [__init__ key], a call of
    [get_available_pairs] or of a fetch method sends exactly one request,
    whatever the provider answers (no retry): it goes to the endpoint under
    [https://open-api.coinglass.com] and carries the headers [accept] and
    [coinglassSecret], the latter being [key]. *)
Theorem one_keyed_request_per_call (upper : string -> string)
    (net : list request -> reply) (lib : pd.library) (key coin : string)
    (m : metric) (ex_ pair interval limit : json) (s : state) :
  obj s = __init__ key ->
  let sent endpoint params :=
    {| url := ("https://open-api.coinglass.com" ++ endpoint)%string;
       req_headers := [("accept", "application/json"); ("coinglassSecret", key)];
       req_params := params |} in
  wire (snd (get_available_pairs upper net coin s))
    = sent "/public/v2/instrument" [("symbol", JStr coin)] :: wire s /\
  wire (snd (fetch net lib m ex_ pair interval limit s))
    = sent (endpoint_of m) (params_of m ex_ pair interval limit) :: wire s.
Proof.
  intros Ho. cbv zeta. split.
  - rewrite get_available_pairs_eq. cbv zeta. unfold the_request. rewrite Ho.
    destruct (net _) as [r|]; [|reflexivity].
    destruct (is_error_status (status_code r)); [reflexivity|].
    destruct (json_body r); reflexivity.
  - rewrite fetch_eq. cbv zeta. unfold the_request. rewrite Ho.
    destruct (net _) as [r|]; [|reflexivity].
    destruct (is_error_status (status_code r)); [reflexivity|].
    destruct (json_body r); reflexivity.
Qed.

Lemma one_keyed_request_per_call_witness :
  wire (snd (fetch (always too_many_requests) pd.reference AllAccounts
               (JStr "Binance") (JStr "BTCUSDT") default_interval
               default_limit s0))
  = [ {| url := "https://open-api.coinglass.com/public/v2/indicator/long_short_accounts";
         req_headers := [("accept", "application/json");
                         ("coinglassSecret", "secret")];
         req_params := [("ex", JStr "Binance"); ("pair", JStr "BTCUSDT");
                        ("interval", JStr "h24"); ("limit", JInt 50)] |} ].
Proof.
  apply (proj2 (@one_keyed_request_per_call str_upper
                  (always too_many_requests) pd.reference "secret" "BTC"
                  AllAccounts (JStr "Binance") (JStr "BTCUSDT")
                  default_interval default_limit s0 eq_refl)).
Defined.

(** X8.  Failures that are not HTTP errors pass every [except] clause of
    the client and leave no diagnostic: when the network fails the call
    raises [ConnectionError], when an answer without error status has a
    body that does not decode it raises the exception of the decoding
    ([JSONDecodeError] for a body that is no JSON); in both cases nothing
    is printed, by the resolver and by the fetch methods alike. *)
Theorem other_failures_pass_unprinted (upper : string -> string)
    (net : list request -> reply) (lib : pd.library) (coin : string)
    (m : metric) (ex_ pair interval limit : json) (s : state) :
  let pairs := get_available_pairs upper net coin s in
  let frame := fetch net lib m ex_ pair interval limit s in
  (net (pairs_request s coin :: wire s) = NetworkError ->
   fst pairs = Raise ConnectionError /\ stdout (snd pairs) = stdout s) /\
  (net (fetch_request s m ex_ pair interval limit :: wire s) = NetworkError ->
   fst frame = Raise ConnectionError /\ stdout (snd frame) = stdout s) /\
  (forall r why,
     net (pairs_request s coin :: wire s) = Answer r ->
     is_error_status (status_code r) = false ->
     json_body r = Undecodable why ->
     fst pairs = Raise (raised_by why) /\ stdout (snd pairs) = stdout s) /\
  (forall r why,
     net (fetch_request s m ex_ pair interval limit :: wire s) = Answer r ->
     is_error_status (status_code r) = false ->
     json_body r = Undecodable why ->
     fst frame = Raise (raised_by why) /\ stdout (snd frame) = stdout s) /\
  raised_by Malformed = JSONDecodeError.
Proof.
  cbv zeta. unfold pairs_request, fetch_request.
  rewrite get_available_pairs_eq, fetch_eq. cbv zeta.
  split; [|split; [|split; [|split]]].
  - intros ->. split; reflexivity.
  - intros ->. split; reflexivity.
  - intros r why -> -> ->. split; reflexivity.
  - intros r why -> -> ->. split; reflexivity.
  - reflexivity.
Qed.

Lemma other_failures_pass_unprinted_witness :
  fst (fetch (fun _ => NetworkError) pd.reference PriceOHLC (JStr "Binance")
         (JStr "BTCUSDT") default_interval default_limit s0)
  = Raise ConnectionError.
Proof.
  apply (proj1 (proj2 (@other_failures_pass_unprinted str_upper
                         (fun _ => NetworkError) pd.reference "BTC" PriceOHLC
                         (JStr "Binance") (JStr "BTCUSDT") default_interval
                         default_limit s0)) eq_refl).
Defined.

(** X9.  A fetch method prints exactly when the answer carries an error
    status.  When the error body decodes, or is no JSON, it prints three
    lines: the status line and the detail line of the transport, followed
    by its own line, whose text reads "occurred" in the open-interest and
    price methods and "occured" in the three ratio methods.  When decoding
    the error body raises anything but [json.JSONDecodeError], only the
    status line is printed: the exception leaves [_request] at once and
    no [except] clause of the method catches it.  The resolver prints the
    lines of the transport only. *)
Theorem printing_on_error_status (upper : string -> string)
    (net : list request -> reply) (lib : pd.library) (coin : string)
    (m : metric) (ex_ pair interval limit : json) (s : state) (r : response) :
  let status_line :=
    Line "HTTP error occurred: {} {}" [AInt (status_code r); AStr (reason r)] in
  let own_line :=
    Line (match m with
          | OpenInterest | PriceOHLC => "HTTP error occurred: {}"
          | _ => "HTTP error occured: {}"
          end) [AExn (HTTPError r)] in
  let lines (of_method : list line) :=
    match json_body r with
    | Decoded details =>
        status_line :: Line "Error details: {}" [AJson details] :: of_method
    | Undecodable why =>
        if is_JSONDecodeError (raised_by why)
        then status_line
               :: Line "No detailed error message available from API." []
               :: of_method
        else [status_line]
    end in
  (net (fetch_request s m ex_ pair interval limit :: wire s) = Answer r ->
   stdout (snd (fetch net lib m ex_ pair interval limit s)) =
   if is_error_status (status_code r)
   then stdout s ++ lines [own_line]
   else stdout s) /\
  (net (pairs_request s coin :: wire s) = Answer r ->
   stdout (snd (get_available_pairs upper net coin s)) =
   if is_error_status (status_code r)
   then stdout s ++ lines []
   else stdout s).
Proof.
  cbv zeta. unfold pairs_request, fetch_request.
  rewrite get_available_pairs_eq, fetch_eq. cbv zeta. split.
  - intros ->. destruct (is_error_status (status_code r)).
    + cbn [snd logged stdout after_send].
      unfold error_lines, diagnostic, masking, status_line.
      destruct (json_body r) as [j|why]; [destruct m; reflexivity|].
      destruct (is_JSONDecodeError (raised_by why)); destruct m; reflexivity.
    + destruct (json_body r); reflexivity.
  - intros ->. destruct (is_error_status (status_code r)).
    + cbn [snd logged stdout after_send].
      unfold diagnostic, status_line.
      destruct (json_body r) as [j|why]; [reflexivity|].
      destruct (is_JSONDecodeError (raised_by why)); reflexivity.
    + destruct (json_body r); reflexivity.
Qed.

Lemma printing_on_error_status_witness :
  stdout (snd (fetch (always too_many_requests) pd.reference TopPositionRatio
                 (JStr "Binance") (JStr "BTCUSDT") default_interval
                 default_limit s0))
  = [ Line "HTTP error occurred: {} {}" [AInt 429; AStr "Too Many Requests"];
      Line "No detailed error message available from API." [];
      Line "HTTP error occured: {}" [AExn (HTTPError too_many_requests)] ].
Proof.
  apply (proj1 (@printing_on_error_status str_upper (always too_many_requests)
                  pd.reference "BTC" TopPositionRatio (JStr "Binance")
                  (JStr "BTCUSDT") default_interval default_limit s0
                  too_many_requests)
           eq_refl).
Defined.

(** ** The resolver on catalogs that are not all descriptors *)

Section Faults.

Variable upper : string -> string.
Variable coin : string.

(** One turn of the inner loop, by the fault of the item. *)
Lemma scan_instruments_step (e : string) (item : json) (rest : list json)
    (acc : list InstrumentRef) :
  scan_instruments upper coin e (item :: rest) acc =
  match item_fault upper coin item with
  | Some x => Raise x
  | None =>
      scan_instruments upper coin e rest (acc ++ select_in upper coin e [item])
  end.
Proof.
  unfold select_in, descriptor, assets. cbn [flat_map].
  destruct item; try reflexivity.
  cbn [scan_instruments item_fault getitem].
  destruct (lookup "baseAsset" fields) as [[ |?|?|? ?|b|?|?]|];
    try reflexivity.
  cbn [and_then upper_of].
  destruct (lookup "quoteAsset" fields) as [[ |?|?|? ?|q|?|?]|];
    try reflexivity.
  cbn [and_then upper_of]. unfold trades.
  destruct (String.eqb (upper coin) (upper b) || String.eqb (upper coin) (upper q))
    eqn:Et.
  - destruct (lookup "instrumentId" fields); [|reflexivity].
    cbn [and_then app]. rewrite Et. now rewrite app_nil_r.
  - destruct (lookup "instrumentId" fields); rewrite ?Et;
      cbn [app]; now rewrite app_nil_r.
Qed.

Lemma select_in_cons (e : string) (item : json) (rest : list json) :
  select_in upper coin e (item :: rest)
  = select_in upper coin e [item] ++ select_in upper coin e rest.
Proof. unfold select_in. cbn [flat_map]. now rewrite app_nil_r. Qed.

Lemma scan_instruments_usable (e : string) (instruments : list json) :
  Forall (fun item => item_fault upper coin item = None) instruments ->
  forall acc,
    scan_instruments upper coin e instruments acc
    = Return (acc ++ select_in upper coin e instruments).
Proof.
  induction 1 as [|item rest Hi _ IH]; intros acc.
  - simpl. now rewrite app_nil_r.
  - rewrite scan_instruments_step, Hi, IH, (select_in_cons e item rest),
      app_assoc.
    reflexivity.
Qed.

Lemma scan_instruments_fault (e : string) (good : list json) (bad : json)
    (rest : list json) (x : exn) :
  Forall (fun item => item_fault upper coin item = None) good ->
  item_fault upper coin bad = Some x ->
  forall acc,
    scan_instruments upper coin e (good ++ bad :: rest) acc = Raise x.
Proof.
  intros Hg Hb. induction Hg as [|item good Hi _ IH]; intros acc.
  - cbn [app]. now rewrite scan_instruments_step, Hb.
  - cbn [app]. rewrite scan_instruments_step, Hi. apply IH.
Qed.

Lemma scan_exchanges_usable (exchanges : list (string * json)) :
  usable_catalog upper coin exchanges ->
  forall acc,
    scan_exchanges upper coin exchanges acc
    = Return (acc ++ select upper coin exchanges).
Proof.
  induction 1 as [|[e v] rest (its & Hv & Hits) _ IH]; intros acc.
  - simpl. now rewrite app_nil_r.
  - simpl in Hv; subst v. cbn [scan_exchanges iterate and_then].
    rewrite (@scan_instruments_usable e its Hits). cbn [and_then].
    rewrite IH. unfold select. cbn [flat_map snd fst].
    now rewrite app_assoc.
Qed.

Lemma scan_exchanges_fault (pre post : list (string * json)) (e : string)
    (good : list json) (bad : json) (rest : list json) (x : exn) :
  usable_catalog upper coin pre ->
  Forall (fun item => item_fault upper coin item = None) good ->
  item_fault upper coin bad = Some x ->
  forall acc,
    scan_exchanges upper coin
      (pre ++ (e, JArr (good ++ bad :: rest)) :: post) acc = Raise x.
Proof.
  intros Hp Hg Hb. induction Hp as [|[e' v] pre (its & Hv & Hits) _ IH];
    intros acc.
  - cbn [app scan_exchanges iterate and_then].
    now rewrite (@scan_instruments_fault e good bad rest x Hg Hb).
  - simpl in Hv; subst v. cbn [app scan_exchanges iterate and_then].
    rewrite (@scan_instruments_usable e' its Hits). cbn [and_then]. apply IH.
Qed.

End Faults.

(** X10.  The resolver returns the selected pairs, in catalog order, as
    soon as every exchange maps to a list whose items each carry a string
    base asset and a string quote asset; an [instrumentId] is needed only
    on the instruments that trade the coin. *)
Theorem instrumentId_needed_only_on_match (upper : string -> string)
    (net : list request -> reply) (coin : string) (s : state) (body : json)
    (exchanges : list (string * json)) :
  delivers net s (pairs_request s coin) body ->
  getitem body "data" = Return (JObj exchanges) ->
  usable_catalog upper coin exchanges ->
  fst (get_available_pairs upper net coin s)
  = Return (select upper coin exchanges).
Proof.
  intros Hdel Hd Hu. rewrite (pairs_delivered upper Hdel).
  unfold resolve. cbn [fst]. rewrite Hd. cbn [and_then items].
  now rewrite (scan_exchanges_usable Hu).
Qed.

Lemma instrumentId_needed_only_on_match_witness :
  fst (get_available_pairs str_upper (always (ok sparse_catalog_body)) "BTC" s0)
  = Return [{| exchange := "Binance"; instrumentId := JStr "BTCUSDT" |}].
Proof.
  apply (@instrumentId_needed_only_on_match str_upper
           (always (ok sparse_catalog_body)) "BTC" s0 sparse_catalog_body _
           (always_delivers sparse_catalog_body s0 _) eq_refl).
  repeat constructor. eexists. split; [reflexivity|].
  repeat constructor.
Defined.

(** X11.  The first instrument at fault decides a call of the resolver:
    when the instruments before it are in order, the call raises the
    error of that instrument ([TypeError] for a non-dict, [KeyError] for
    a missing [baseAsset] or [quoteAsset], [AttributeError] for an asset
    that is no string, [KeyError] for a matching instrument without
    [instrumentId]), and the pairs found before it are not returned. *)
Theorem first_faulty_instrument_raises (upper : string -> string)
    (net : list request -> reply) (coin : string) (s : state) (body : json)
    (pre post : list (string * json)) (e : string) (good : list json)
    (bad : json) (rest : list json) (x : exn) :
  delivers net s (pairs_request s coin) body ->
  getitem body "data"
    = Return (JObj (pre ++ (e, JArr (good ++ bad :: rest)) :: post)) ->
  usable_catalog upper coin pre ->
  Forall (fun item => item_fault upper coin item = None) good ->
  item_fault upper coin bad = Some x ->
  fst (get_available_pairs upper net coin s) = Raise x.
Proof.
  intros Hdel Hd Hp Hg Hb. rewrite (pairs_delivered upper Hdel).
  unfold resolve. cbn [fst]. rewrite Hd. cbn [and_then items].
  now apply scan_exchanges_fault.
Qed.

Lemma first_faulty_instrument_raises_witness :
  fst (get_available_pairs str_upper (always (ok broken_catalog_body)) "BTC" s0)
  = Raise (KeyError "baseAsset").
Proof.
  apply (@first_faulty_instrument_raises str_upper
           (always (ok broken_catalog_body)) "BTC" s0 broken_catalog_body
           [] [] "Binance"
           [JObj [("baseAsset", JStr "BTC"); ("quoteAsset", JStr "USDT");
                  ("instrumentId", JStr "BTCUSDT")]]
           (JObj [("quoteAsset", JStr "USDT"); ("instrumentId", JStr "XUSDT")])
           [] (KeyError "baseAsset")
           (always_delivers broken_catalog_body s0 _) eq_refl).
  - constructor.
  - repeat constructor.
  - reflexivity.
Defined.

(** X12.  The resolver on a body of the wrong shape: a body that is no
    dict raises [TypeError], a dict without ["data"] raises
    [KeyError "data"], a ["data"] that is no dict (a list, or the [null]
    of an error answer) raises [AttributeError], and an empty catalog
    gives the empty result. *)
Theorem resolver_on_misshapen_body (upper : string -> string)
    (net : list request -> reply) (coin : string) (s : state) (body : json) :
  delivers net s (pairs_request s coin) body ->
  let result := fst (get_available_pairs upper net coin s) in
  ((forall kv, body <> JObj kv) -> result = Raise TypeError) /\
  (forall kv, body = JObj kv -> lookup "data" kv = None ->
              result = Raise (KeyError "data")) /\
  (forall kv data, body = JObj kv -> lookup "data" kv = Some data ->
                   (forall exchanges, data <> JObj exchanges) ->
                   result = Raise AttributeError) /\
  (forall kv, body = JObj kv -> lookup "data" kv = Some (JObj []) ->
              result = Return []).
Proof.
  intros Hdel. cbv zeta. rewrite (pairs_delivered upper Hdel). unfold resolve.
  cbn [fst]. split; [|split; [|split]].
  - intros Hb. destruct body; try reflexivity. now destruct (Hb fields).
  - intros kv -> Hk. cbn [getitem]. now rewrite Hk.
  - intros kv data -> Hk Hd. cbn [getitem]. rewrite Hk. cbn [and_then].
    destruct data; try reflexivity. now destruct (Hd fields).
  - intros kv -> Hk. cbn [getitem]. now rewrite Hk.
Qed.

Lemma resolver_on_misshapen_body_witness :
  fst (get_available_pairs str_upper
         (always (ok (JObj [("code", JStr "30001"); ("data", JNull)])))
         "BTC" s0)
  = Raise AttributeError.
Proof.
  apply (proj1 (proj2 (proj2 (@resolver_on_misshapen_body str_upper
           (always (ok (JObj [("code", JStr "30001"); ("data", JNull)])))
           "BTC" s0 (JObj [("code", JStr "30001"); ("data", JNull)])
           (always_delivers _ s0 _))))
           [("code", JStr "30001"); ("data", JNull)] JNull eq_refl eq_refl).
  discriminate.
Defined.

Lemma scan_instruments_same_upper (upper : string -> string)
    (c1 c2 e : string) (instruments : list json) :
  upper c1 = upper c2 ->
  forall acc,
    scan_instruments upper c1 e instruments acc
    = scan_instruments upper c2 e instruments acc.
Proof.
  intros Hu. induction instruments as [|item rest IH]; intros acc;
    [reflexivity|].
  rewrite !scan_instruments_step.
  assert (Hf : item_fault upper c1 item = item_fault upper c2 item).
  { unfold item_fault, trades. now rewrite Hu. }
  assert (Hs : select_in upper c1 e [item] = select_in upper c2 e [item]).
  { unfold select_in, trades. now rewrite Hu. }
  rewrite Hf, Hs. destruct (item_fault upper c2 item); [reflexivity | apply IH].
Qed.

Lemma scan_exchanges_same_upper (upper : string -> string) (c1 c2 : string)
    (exchanges : list (string * json)) :
  upper c1 = upper c2 ->
  forall acc,
    scan_exchanges upper c1 exchanges acc
    = scan_exchanges upper c2 exchanges acc.
Proof.
  intros Hu. induction exchanges as [|[e v] rest IH]; intros acc;
    [reflexivity|].
  cbn [scan_exchanges]. destruct (iterate v) as [its| |]; try reflexivity.
  cbn [and_then]. rewrite (scan_instruments_same_upper upper c1 c2 e its Hu).
  destruct (scan_instruments upper c2 e its acc); try reflexivity.
  cbn [and_then]. apply IH.
Qed.

Lemma ascii_upper_idempotent (c : ascii) :
  ascii_upper (ascii_upper c) = ascii_upper c.
Proof. destruct c as [[] [] [] [] [] [] [] []]; reflexivity. Qed.

Lemma str_upper_idempotent (x : string) : str_upper (str_upper x) = str_upper x.
Proof.
  induction x as [|c x IH]; [reflexivity|].
  cbn [str_upper]. now rewrite ascii_upper_idempotent, IH.
Qed.

(** X13.  The resolver reads the coin only through its upper-cased form:
    on the same body, two spellings with the same upper case give the same
    outcome, pairs or error.  With ASCII upper-casing this makes the
    upper-casing [main] applies to the typed symbol harmless. *)
Theorem resolver_ignores_the_case_of_the_coin (net : list request -> reply)
    (s : state) (body : json) :
  (forall (upper : string -> string) (c1 c2 : string),
     delivers net s (pairs_request s c1) body ->
     delivers net s (pairs_request s c2) body ->
     upper c1 = upper c2 ->
     fst (get_available_pairs upper net c1 s)
     = fst (get_available_pairs upper net c2 s)) /\
  (forall typed : string,
     delivers net s (pairs_request s typed) body ->
     delivers net s (pairs_request s (str_upper typed)) body ->
     fst (get_available_pairs str_upper net (str_upper typed) s)
     = fst (get_available_pairs str_upper net typed s)).
Proof.
  assert (G : forall (upper : string -> string) (c1 c2 : string),
             delivers net s (pairs_request s c1) body ->
             delivers net s (pairs_request s c2) body ->
             upper c1 = upper c2 ->
             fst (get_available_pairs upper net c1 s)
             = fst (get_available_pairs upper net c2 s)).
  { intros upper c1 c2 H1 H2 Hu.
    rewrite (pairs_delivered upper H1), (pairs_delivered upper H2).
    unfold resolve. cbn [fst].
    destruct (getitem body "data"); try reflexivity. cbn [and_then].
    destruct (items a); try reflexivity. cbn [and_then].
    now apply scan_exchanges_same_upper. }
  split; [exact G|].
  intros typed H1 H2. apply G; trivial. apply str_upper_idempotent.
Qed.

Lemma resolver_ignores_the_case_of_the_coin_witness :
  fst (get_available_pairs str_upper (always (ok catalog_body)) "BTC" s0)
  = fst (get_available_pairs str_upper (always (ok catalog_body)) "btc" s0).
Proof.
  apply (proj2 (@resolver_ignores_the_case_of_the_coin
                  (always (ok catalog_body)) s0 catalog_body) "btc"
           (always_delivers catalog_body s0 _)
           (always_delivers catalog_body s0 _)).
Defined.

(** ** The summary and [main] as runs *)

Lemma the_request_obj (s1 s2 : state) (endpoint : string)
    (params : list (string * json)) :
  obj s1 = obj s2 -> the_request s1 endpoint params = the_request s2 endpoint params.
Proof. unfold the_request. now intros ->. Qed.

Lemma fetch_Return_fields (net : list request -> reply) (lib : pd.library)
    (m : metric) (ex_ pair interval limit : json) (s s' : state)
    (df : pd.DataFrame) :
  fetch net lib m ex_ pair interval limit s = (Return df, s') ->
  wire s' = fetch_request s m ex_ pair interval limit :: wire s /\
  obj s' = obj s /\ stdout s' = stdout s.
Proof.
  intros H. apply fetch_Return in H.
  destruct H as (r & body & _ & _ & _ & _ & ->). repeat split.
Qed.

Ltac sent_by net lib m H :=
  let Hw := fresh "Hw" in
  let Ho := fresh "Ho" in
  let Hs := fresh "Hs" in
  destruct (@fetch_Return_fields net lib m _ _ default_interval default_limit
              _ _ _ H) as (Hw & Ho & Hs);
  clear H;
  unfold fetch_request, the_request in Hw;
  cbn [obj wire stdout page params_of endpoint_of query] in Hw, Ho, Hs.

(** X14.  A summary that completes has sent exactly five requests, in the
    order open interest, price, top accounts, top positions, all
    accounts, each for the selected exchange and pair with interval
    ["h24"] and limit 50, and has printed nothing. *)
Theorem summary_sends_five_requests (net : list request -> reply)
    (lib : pd.library) (plotly : Figure -> outcome Figure) (coin : string)
    (ex_ pair : json) (s s' : state) :
  fetch_data net lib plotly coin ex_ pair s = (Return tt, s') ->
  let rq m := the_request s (endpoint_of m)
                [("ex", ex_); ("pair", pair); ("interval", JStr "h24");
                 ("limit", JInt 50)] in
  wire s' = [rq AllAccounts; rq TopPositionRatio; rq TopAccountRatio;
             rq PriceOHLC; rq OpenInterest] ++ wire s /\
  stdout s' = stdout s /\
  obj s' = obj s.
Proof.
  unfold fetch_data. intros H.
  repeat next H. apply draw_Return in H. subst s'.
  match goal with
  | H : fetch_ohlc_oi_data _ _ _ _ _ = _ |- _ =>
      sent_by net lib OpenInterest H
  end.
  match goal with
  | H : fetch_price_ohlc_data _ _ _ _ _ _ _ = _ |- _ =>
      sent_by net lib PriceOHLC H
  end.
  match goal with
  | H : fetch_top_long_short_ratio _ _ _ _ _ _ _ = _ |- _ =>
      sent_by net lib TopAccountRatio H
  end.
  match goal with
  | H : fetch_top_long_short_position_ratio _ _ _ _ _ _ _ = _ |- _ =>
      sent_by net lib TopPositionRatio H
  end.
  match goal with
  | H : fetch_top_long_short_loser _ _ _ _ _ _ _ = _ |- _ =>
      sent_by net lib AllAccounts H
  end.
  cbv zeta. unfold the_request. cbn [obj wire stdout page].
  repeat match goal with
         | E : wire ?x = _ |- _ => is_var x; rewrite E; clear E
         | E : obj ?x = _ |- _ => is_var x; rewrite E in *; clear E
         | E : stdout ?x = _ |- _ => is_var x; rewrite E; clear E
         end.
  split; [reflexivity|]. split; reflexivity.
Qed.

Lemma summary_sends_five_requests_witness :
  map url (wire (snd summary_run))
  = [ "https://open-api.coinglass.com/public/v2/indicator/long_short_accounts";
      "https://open-api.coinglass.com/public/v2/indicator/top_long_short_position_ratio";
      "https://open-api.coinglass.com/public/v2/indicator/top_long_short_account_ratio";
      "https://open-api.coinglass.com/public/v2/indicator/price_ohlc";
      "https://open-api.coinglass.com/public/v2/indicator/open_interest_ohlc" ].
Proof.
  rewrite (proj1 (@summary_sends_five_requests provider pd.reference
                    (@Return Figure) "BTC" (JStr "Binance") (JStr "BTCUSDT")
                    s0 (snd summary_run) ltac:(vm_compute; reflexivity))).
  reflexivity.
Defined.

(** X15.  The summary stops at the first request that fails: whatever
    the open-interest method raises, the summary raises, after that single
    request, with no metric or chart drawn and the other four requests never
    sent. *)
Theorem summary_stops_at_first_failure (net : list request -> reply)
    (lib : pd.library) (plotly : Figure -> outcome Figure) (coin : string)
    (ex_ pair : json) (s : state) (e : exn) :
  fst (fetch_ohlc_oi_data net lib ex_ pair s) = Raise e ->
  let run := fetch_data net lib plotly coin ex_ pair s in
  fst run = Raise e /\
  page (snd run) = page s /\
  wire (snd run)
    = fetch_request s OpenInterest ex_ pair default_interval default_limit
        :: wire s.
Proof.
  intros He. cbv zeta. unfold fetch_data, bind.
  pose proof (fetch_wire net lib OpenInterest ex_ pair default_interval
                default_limit s) as Hw.
  pose proof (fetch_eq net lib OpenInterest ex_ pair default_interval
                default_limit s) as Hq.
  cbn [fetch] in Hw, Hq.
  destruct (fetch_ohlc_oi_data net lib ex_ pair s) as [[oi|e'|] s1];
    cbn [fst] in He; try discriminate.
  injection He as ->. cbn [fst snd] in *.
  split; [reflexivity|]. split; [|exact Hw].
  cbv zeta in Hq.
  destruct (net _) as [r|];
    [|injection Hq as _ Hs1; rewrite Hs1; reflexivity].
  destruct (is_error_status (status_code r));
    [injection Hq as _ Hs1; rewrite Hs1; reflexivity|].
  destruct (json_body r); injection Hq as _ Hs1; rewrite Hs1; reflexivity.
Qed.

Lemma summary_stops_at_first_failure_witness :
  fst (fetch_data (always too_many_requests) pd.reference (@Return Figure)
         "BTC" (JStr "Binance") (JStr "BTCUSDT") s0)
  = Raise (HTTPError too_many_requests).
Proof.
  apply (@summary_stops_at_first_failure (always too_many_requests)
           pd.reference (@Return Figure) "BTC" (JStr "Binance")
           (JStr "BTCUSDT") s0 (HTTPError too_many_requests) eq_refl).
Defined.

(** X16.  Metrics drawn before a failure stay: when the open-interest
    step has gone through and the price request is answered with an error
    status, the summary raises the error of the transport for that answer
    (its [HTTPError], or the exception that decoding its body raised past
    the clause) and the page shows the Open Interest metric, the one
    metric or chart drawn so far; two requests have been sent. *)
Theorem summary_keeps_what_was_drawn (net : list request -> reply)
    (lib : pd.library) (plotly : Figure -> outcome Figure) (coin : string)
    (ex_ pair : json) (s : state) (body : json) (oi : pd.DataFrame)
    (latest_oi : pd.cell) (fig_oi : Figure) (r : response) :
  let first :=
    fetch_request s OpenInterest ex_ pair default_interval default_limit in
  let second :=
    fetch_request s PriceOHLC ex_ pair default_interval default_limit in
  delivers net s first body ->
  normalize lib OpenInterest body = Return oi ->
  iloc_at oi (-1) "c" = Return latest_oi ->
  thousands latest_oi = Return tt ->
  plot_closing_prices plotly oi "Open Interest" = Return fig_oi ->
  net (second :: first :: wire s) = Answer r ->
  is_error_status (status_code r) = true ->
  let run := fetch_data net lib plotly coin ex_ pair s in
  fst run = Raise (transport_error r) /\
  (masking r = None -> fst run = Raise (HTTPError r)) /\
  page (snd run)
    = page s ++ [Metric "Open Interest" "{:,} {}"
                   [SCell latest_oi; SStr coin]] /\
  wire (snd run) = second :: first :: wire s.
Proof.
  cbv zeta. intros Hdel Hn Hi Ht Hp Hnet Hs.
  pose proof (fetch_delivered lib Hdel) as Hf. cbn [fetch] in Hf.
  remember (fetch_data net lib plotly coin ex_ pair s) as run eqn:Hrun.
  unfold fetch_data in Hrun.
  unfold bind at 1 in Hrun. rewrite Hf, Hn in Hrun.
  unfold bind at 1 in Hrun. unfold lift at 1 in Hrun. rewrite Hi in Hrun.
  unfold bind at 1 in Hrun. unfold lift at 1 in Hrun. rewrite Ht in Hrun.
  unfold bind at 1 in Hrun. unfold draw at 1 in Hrun.
  unfold bind at 1 in Hrun. unfold lift at 1 in Hrun. rewrite Hp in Hrun.
  unfold bind at 1 in Hrun.
  change (fetch_price_ohlc_data net lib ex_ pair default_interval
            default_limit)
    with (fetch net lib PriceOHLC ex_ pair default_interval default_limit)
    in Hrun.
  rewrite fetch_eq in Hrun. cbv zeta in Hrun.
  unfold fetch_request in *. unfold the_request, after_send in *.
  cbn [obj wire stdout page] in *.
  rewrite Hnet, Hs in Hrun. rewrite Hrun.
  split; [reflexivity|]. split; [|split; reflexivity].
  unfold transport_error. now intros ->.
Qed.

Lemma summary_keeps_what_was_drawn_witness :
  page (snd (fetch_data throttled pd.reference (@Return Figure) "BTC"
               (JStr "Binance") (JStr "BTCUSDT") s0))
  = [Metric "Open Interest" "{:,} {}" [SCell (pd.Obj (JInt 100)); SStr "BTC"]].
Proof.
  refine (proj1 (proj2 (proj2 (@summary_keeps_what_was_drawn throttled
            pd.reference (@Return Figure) "BTC" (JStr "Binance")
            (JStr "BTCUSDT") s0 oi_body _ (pd.Obj (JInt 100)) _
            too_many_requests
            _ eq_refl eq_refl eq_refl eq_refl eq_refl eq_refl)))).
  exists (ok oi_body). repeat split.
Defined.

Lemma pairs_state (upper : string -> string) (net : list request -> reply)
    (coin : string) (s : state) :
  obj (snd (get_available_pairs upper net coin s)) = obj s /\
  wire (snd (get_available_pairs upper net coin s))
    = pairs_request s coin :: wire s /\
  page (snd (get_available_pairs upper net coin s)) = page s.
Proof.
  rewrite get_available_pairs_eq. cbv zeta. unfold pairs_request.
  destruct (net _) as [r|]; [|repeat split].
  destruct (is_error_status (status_code r)); [repeat split|].
  destruct (json_body r); repeat split.
Qed.

(** X17.  [main] before the button: without the secret in [config.json]
    it raises at once and sends nothing; with an empty symbol it only
    builds the client; and while the button is not pressed, or when no
    pair is found, it sends the one instrument request, with the secret of
    the configuration, and draws no metric or chart. *)
Theorem main_before_the_button (upper : string -> string)
    (net : list request -> reply) (lib : pd.library)
    (plotly : Figure -> outcome Figure) (text_input : string)
    (selectbox : string -> list json -> json) (button : bool) (config : json)
    (s : state) :
  let run :=
    main upper net lib plotly text_input selectbox button config s in
  (forall e, getitem config "coinglassSecret" = Raise e ->
             run = (Raise e, s)) /\
  (forall key, getitem config "coinglassSecret" = Return (JStr key) ->
     (upper text_input = "" -> run = (Return tt, constructed s key)) /\
     (upper text_input <> "" ->
      button = false \/
      fst (get_available_pairs upper net (upper text_input)
             (constructed s key)) = Return [] ->
      page (snd run) = page s /\
      obj (snd run) = __init__ key /\
      wire (snd run)
        = pairs_request (constructed s key) (upper text_input) :: wire s)).
Proof.
  cbv zeta. split.
  - intros e He. unfold main, bind, lift. now rewrite He.
  - intros key Hk.
    remember (main upper net lib plotly text_input selectbox button config s)
      as run eqn:Hrun.
    unfold main in Hrun.
    unfold bind at 1 in Hrun. unfold lift at 1 in Hrun. rewrite Hk in Hrun.
    unfold bind at 1 in Hrun. unfold construct at 1 in Hrun.
    fold (constructed s key) in Hrun.
    split.
    + intros He. rewrite He in Hrun. exact Hrun.
    + intros Hne Hor.
      rewrite (proj2 (String.eqb_neq _ _) Hne) in Hrun.
      unfold bind in Hrun. rewrite Hrun. clear Hrun run.
      destruct (pairs_state upper net (upper text_input) (constructed s key))
        as (Ho & Hw & Hp).
      destruct (get_available_pairs upper net (upper text_input)
                  (constructed s key)) as [[pairs|e|] s1];
        cbn [fst snd] in *; try (repeat split; assumption).
      destruct pairs as [|p pairs]; [repeat split; assumption|].
      destruct Hor as [->|Hor]; [repeat split; assumption | discriminate].
Qed.

Lemma main_before_the_button_witness :
  main str_upper provider pd.reference (@Return Figure) "" (fun _ _ => JNull)
    true (JObj [("coinglassSecret", JStr "k")]) s0
  = (Return tt, constructed s0 "k").
Proof.
  apply (proj1 (proj2 (@main_before_the_button str_upper provider
                         pd.reference (@Return Figure) "" (fun _ _ => JNull)
                         true
                         (JObj [("coinglassSecret", JStr "k")]) s0)
                  "k" eq_refl) eq_refl).
Defined.

(** ** Discipline of the runs *)

Section Discipline.

Variable net : list request -> reply.
Variable lib : pd.library.

Lemma disciplined_still (A : Type) (m : M A) :
  (forall s, snd (m s) = s) -> disciplined m.
Proof.
  intros H s. cbv zeta. rewrite H. split; [reflexivity|]. split; [|split].
  - exists []. split; [reflexivity | constructor].
  - exists []. now rewrite app_nil_r.
  - exists []. now rewrite app_nil_r.
Qed.

Lemma disciplined_ret (A : Type) (a : A) : disciplined (ret a).
Proof. now apply disciplined_still. Qed.

Lemma disciplined_lift (A : Type) (o : outcome A) : disciplined (lift o).
Proof. now apply disciplined_still. Qed.

Lemma disciplined_raise (A : Type) (e : exn) : disciplined (@raise A e).
Proof. now apply disciplined_still. Qed.

Lemma disciplined_print (l : line) : disciplined (print l).
Proof.
  intros s. cbv zeta. cbn. split; [reflexivity|]. split; [|split].
  - exists []. split; [reflexivity | constructor].
  - now exists [l].
  - exists []. now rewrite app_nil_r.
Qed.

Lemma disciplined_draw (w : widget) : disciplined (draw w).
Proof.
  intros s. cbv zeta. cbn. split; [reflexivity|]. split; [|split].
  - exists []. split; [reflexivity | constructor].
  - exists []. now rewrite app_nil_r.
  - now exists [w].
Qed.

Lemma disciplined_step (s s1 s2 : state) :
  (obj s1 = obj s /\
   (exists new, wire s1 = new ++ wire s /\ Forall (own_request (obj s)) new) /\
   (exists out, stdout s1 = stdout s ++ out) /\
   (exists ws, page s1 = page s ++ ws)) ->
  (obj s2 = obj s1 /\
   (exists new, wire s2 = new ++ wire s1 /\ Forall (own_request (obj s1)) new) /\
   (exists out, stdout s2 = stdout s1 ++ out) /\
   (exists ws, page s2 = page s1 ++ ws)) ->
  obj s2 = obj s /\
  (exists new, wire s2 = new ++ wire s /\ Forall (own_request (obj s)) new) /\
  (exists out, stdout s2 = stdout s ++ out) /\
  (exists ws, page s2 = page s ++ ws).
Proof.
  intros (Ho1 & (n1 & Hw1 & Hf1) & (o1 & Hs1) & (p1 & Hp1))
         (Ho2 & (n2 & Hw2 & Hf2) & (o2 & Hs2) & (p2 & Hp2)).
  rewrite Ho1 in *. split; [exact Ho2|]. split; [|split].
  - exists (n2 ++ n1). rewrite Hw2, Hw1, app_assoc. split; [reflexivity|].
    apply Forall_app. now split.
  - exists (o1 ++ o2). now rewrite Hs2, Hs1, app_assoc.
  - exists (p1 ++ p2). now rewrite Hp2, Hp1, app_assoc.
Qed.

Lemma disciplined_bind (A B : Type) (m : M A) (k : A -> M B) :
  disciplined m -> (forall a, disciplined (k a)) -> disciplined (bind m k).
Proof.
  intros Hm Hk s. specialize (Hm s). cbv zeta in *. unfold bind.
  destruct (m s) as [[a|e|] s1]; cbn [snd] in *; try exact Hm.
  eapply disciplined_step; [exact Hm | exact (Hk a s1)].
Qed.

Lemma disciplined_request (endpoint : string) (params : list (string * json)) :
  disciplined (_request net endpoint params).
Proof.
  intros s. cbv zeta. rewrite _request_eq. cbv zeta.
  assert (Hown : own_request (obj s) (the_request s endpoint params)).
  { split; [reflexivity | now exists endpoint]. }
  assert (Hnew : exists new,
             the_request s endpoint params :: wire s = new ++ wire s /\
             Forall (own_request (obj s)) new).
  { exists [the_request s endpoint params].
    split; [reflexivity | constructor; [exact Hown | constructor]]. }
  destruct (net _) as [r|].
  - destruct (is_error_status (status_code r)); [|destruct (json_body r)];
      cbn; (split; [reflexivity|]); (split; [exact Hnew|split]);
      try (eexists; reflexivity);
      try (exists []; now rewrite app_nil_r).
  - cbn. split; [reflexivity|]. split; [exact Hnew|split].
    + exists []. now rewrite app_nil_r.
    + exists []. now rewrite app_nil_r.
Qed.

Lemma disciplined_try (A : Type) (caught : exn -> bool) (body : M A)
    (handler : exn -> M A) :
  disciplined body -> (forall e, disciplined (handler e)) ->
  disciplined (try_except caught body handler).
Proof.
  intros Hb Hh s. specialize (Hb s). cbv zeta in *. unfold try_except.
  destruct (body s) as [[a|e|] s1]; cbn [snd] in *; try exact Hb.
  destruct (caught e); cbn [snd]; [|exact Hb].
  eapply disciplined_step; [exact Hb | exact (Hh e s1)].
Qed.

Ltac discipline :=
  cbv zeta;
  repeat match goal with
         | |- disciplined (_request _ _ _) => apply disciplined_request
         | |- disciplined (print _) => apply disciplined_print
         | |- disciplined (draw _) => apply disciplined_draw
         | |- disciplined (lift _) => apply disciplined_lift
         | |- disciplined (ret _) => apply disciplined_ret
         | |- disciplined (raise _) => apply disciplined_raise
         | |- disciplined (try_except _ _ _) => apply disciplined_try
         | |- disciplined (bind _ _) => apply disciplined_bind
         | |- forall _, disciplined _ => intro
         end.

Lemma disciplined_pairs (upper : string -> string) (coin : string) :
  disciplined (get_available_pairs upper net coin).
Proof. unfold get_available_pairs. discipline. Qed.

Lemma disciplined_fetch (m : metric) (ex_ pair interval limit : json) :
  disciplined (fetch net lib m ex_ pair interval limit).
Proof.
  destruct m; unfold fetch, fetch_ohlc_oi_data, fetch_price_ohlc_data,
    fetch_top_long_short_ratio, fetch_top_long_short_position_ratio,
    fetch_top_long_short_loser; discipline.
Qed.

Lemma disciplined_fetch_data (plotly : Figure -> outcome Figure)
    (coin : string) (ex_ pair : json) :
  disciplined (fetch_data net lib plotly coin ex_ pair).
Proof.
  unfold fetch_data.
  repeat match goal with
         | |- disciplined (fetch_ohlc_oi_data _ _ _ _) =>
             apply (disciplined_fetch OpenInterest _ _ JNull JNull)
         | |- disciplined (fetch_price_ohlc_data _ _ _ _ _ _) =>
             apply (disciplined_fetch PriceOHLC)
         | |- disciplined (fetch_top_long_short_ratio _ _ _ _ _ _) =>
             apply (disciplined_fetch TopAccountRatio)
         | |- disciplined (fetch_top_long_short_position_ratio _ _ _ _ _ _) =>
             apply (disciplined_fetch TopPositionRatio)
         | |- disciplined (fetch_top_long_short_loser _ _ _ _ _ _) =>
             apply (disciplined_fetch AllAccounts)
         | _ => progress discipline
         end.
Qed.

End Discipline.

(** X18.  However a run of [main] ends, every request it has sent goes
    to an endpoint under [https://open-api.coinglass.com] and carries the
    secret read from [config.json] in its [coinglassSecret] header;
    no line printed and no metric or chart drawn before is removed, and the
    client is the one built from that secret. *)
Theorem main_requests_carry_the_secret (upper : string -> string)
    (net : list request -> reply) (lib : pd.library)
    (plotly : Figure -> outcome Figure) (text_input : string)
    (selectbox : string -> list json -> json) (button : bool) (config : json)
    (s : state) (key : string) :
  getitem config "coinglassSecret" = Return (JStr key) ->
  let s' :=
    snd (main upper net lib plotly text_input selectbox button config s) in
  obj s' = __init__ key /\
  (exists new,
     wire s' = new ++ wire s /\
     Forall (fun rq =>
               req_headers rq = [("accept", "application/json");
                                 ("coinglassSecret", key)] /\
               exists endpoint,
                 url rq = ("https://open-api.coinglass.com" ++ endpoint)%string)
            new) /\
  (exists out, stdout s' = stdout s ++ out) /\
  (exists ws, page s' = page s ++ ws).
Proof.
  intros Hk. cbv zeta. unfold main.
  unfold bind at 1. unfold lift at 1. rewrite Hk.
  unfold bind at 1. unfold construct at 1. fold (constructed s key).
  assert (D : disciplined
                (if String.eqb (upper text_input) "" then ret tt
                 else
                   available_pairs_df <-
                     get_available_pairs upper net (upper text_input) ;;
                   match available_pairs_df with
                   | [] => ret tt
                   | _ :: _ =>
                       if button then
                         fetch_data net lib plotly (upper text_input)
                           (selectbox "Select Exchange"
                              (map JStr (unique (map exchange available_pairs_df))))
                           (selectbox "Select Pair"
                              (pairs_on
                                 (selectbox "Select Exchange"
                                    (map JStr
                                       (unique (map exchange available_pairs_df))))
                                 available_pairs_df))
                       else ret tt
                   end)).
  { destruct (String.eqb (upper text_input) ""); [apply disciplined_ret|].
    apply disciplined_bind; [apply disciplined_pairs|].
    intros [|p pairs]; [apply disciplined_ret|].
    destruct button; [apply disciplined_fetch_data | apply disciplined_ret]. }
  specialize (D (constructed s key)). cbv zeta in D. exact D.
Qed.

Lemma main_requests_carry_the_secret_witness :
  obj (snd (main str_upper provider pd.reference (@Return Figure) "btc"
              (fun _ options => hd JNull options) true
              (JObj [("coinglassSecret", JStr "k")]) s0))
  = __init__ "k".
Proof.
  apply (@main_requests_carry_the_secret str_upper provider pd.reference
           (@Return Figure) "btc" (fun _ options => hd JNull options) true
           (JObj [("coinglassSecret", JStr "k")]) s0 "k" eq_refl).
Defined.

(** ** The plotter and the select boxes *)

Lemma price_columns (lib : pd.library) (body : json) (df : pd.DataFrame) :
  normalize lib PriceOHLC body = Return df -> pd.columns df = six.
Proof.
  unfold normalize. intros H.
  apply and_then_Return in H. destruct H as (data & _ & H).
  apply and_then_Return in H. destruct H as (df0 & Hdf & H).
  apply and_then_Return in H. destruct H as (t & _ & H).
  apply and_then_Return in H. destruct H as (stamps & _ & H).
  apply and_then_Return in H. destruct H as (times & _ & H).
  apply sort_values_desc in H. destruct H as (Hc & _). rewrite Hc.
  assert (H0 : pd.columns df0 = six).
  { cbn [selected_columns] in Hdf. unfold pd.DataFrame_of in Hdf.
    destruct (pd.records_of data); [|discriminate].
    now injection Hdf as <-. }
  unfold pd.set_column. cbn [time_field]. rewrite H0.
  change (pd.position "t" six) with (Some O). reflexivity.
Qed.

(** X19.  The candlestick chart can always read its columns on a frame
    of the price method: with the six columns fixed, none of the reads
    [df["t"]], [df["o"]], [df["h"]], [df["l"]], [df["c"]] raises
    [KeyError], and the chart is what plotly makes of the call. *)
Theorem candlestick_reads_never_fail (net : list request -> reply)
    (lib : pd.library) (plotly : Figure -> outcome Figure)
    (ex_ pair interval limit : json) (s s' : state) (df : pd.DataFrame)
    (title : string) :
  fetch_price_ohlc_data net lib ex_ pair interval limit s = (Return df, s') ->
  plot_candlestick_chart plotly df title
  = plotly {| fig_kind := "candlestick"; fig_data := df; fig_x := "t";
              fig_y := ["o"; "h"; "l"; "c"]; fig_title := title |}.
Proof.
  intros H.
  apply (@fetch_Return net lib PriceOHLC ex_ pair interval limit) in H.
  destruct H as (r & body & _ & _ & _ & Hn & _).
  pose proof (price_columns _ _ Hn) as Hc.
  unfold plot_candlestick_chart, pd.column. rewrite Hc. reflexivity.
Qed.

Lemma candlestick_reads_never_fail_witness :
  exists df,
    fst (fetch_price_ohlc_data (always (ok price_body)) pd.reference
           (JStr "Binance") (JStr "BTCUSDT") default_interval default_limit s0)
    = Return df /\
    plot_candlestick_chart (@Return Figure) df "Price"
    = Return {| fig_kind := "candlestick"; fig_data := df; fig_x := "t";
                fig_y := ["o"; "h"; "l"; "c"]; fig_title := "Price" |}.
Proof.
  eexists. split; [vm_compute; reflexivity|].
  apply (@candlestick_reads_never_fail (always (ok price_body)) pd.reference
           (@Return Figure) (JStr "Binance") (JStr "BTCUSDT") default_interval
           default_limit s0
           (snd (fetch_price_ohlc_data (always (ok price_body)) pd.reference
                   (JStr "Binance") (JStr "BTCUSDT") default_interval
                   default_limit s0))).
  vm_compute. reflexivity.
Defined.

Lemma unique_In (l : list string) (x : string) : In x (unique l) <-> In x l.
Proof.
  induction l as [|y l IH]; simpl; [tauto|].
  rewrite filter_In, IH. split.
  - intros [->|[H _]]; auto.
  - intros [->|H]; [now left|].
    destruct (String.eqb_spec y x) as [->|Hne]; [now left|].
    right. split; [exact H | reflexivity].
Qed.

Lemma unique_NoDup (l : list string) : NoDup (unique l).
Proof.
  induction l as [|y l IH]; simpl; constructor.
  - rewrite filter_In. intros [_ H]. now rewrite String.eqb_refl in H.
  - now apply NoDup_filter.
Qed.

Lemma in_pairs_on (e : string) (i : json) (pairs : list InstrumentRef) :
  In i (pairs_on (JStr e) pairs) <->
  In {| exchange := e; instrumentId := i |} pairs.
Proof.
  unfold pairs_on. rewrite in_map_iff. split.
  - intros ([e' i'] & Hi & Hin). simpl in Hi. subst i'.
    apply filter_In in Hin. destruct Hin as [Hin He]. simpl in He.
    apply String.eqb_eq in He. now subst.
  - intros Hin. exists {| exchange := e; instrumentId := i |}.
    split; [reflexivity|]. apply filter_In. split; [exact Hin|].
    apply String.eqb_refl.
Qed.

(** X20.  What the select boxes of [main] offer.  When the resolver has
    found pairs on a catalog delivered for the typed symbol, [main] offers
    in the box [Select Exchange] the exchanges on which an instrument
    trades the coin, each once; it offers in the box [Select Pair] the
    instruments the resolver paired with the exchange chosen in the first
    box, and no other; and with the button pressed it runs the summary for
    the two choices. *)
Theorem select_boxes_offer_the_pairs (upper : string -> string)
    (net : list request -> reply) (lib : pd.library)
    (plotly : Figure -> outcome Figure) (text_input : string)
    (selectbox : string -> list json -> json) (config : json) (s : state)
    (key : string) (body : json) (exchanges : list (string * json)) :
  let coin := upper text_input in
  let s1 := constructed s key in
  getitem config "coinglassSecret" = Return (JStr key) ->
  coin <> "" ->
  delivers net s1 (pairs_request s1 coin) body ->
  getitem body "data" = Return (JObj exchanges) ->
  usable_catalog upper coin exchanges ->
  select upper coin exchanges <> [] ->
  exists offered_exchanges offered_pairs,
    main upper net lib plotly text_input selectbox true config s
    = fetch_data net lib plotly coin
        (selectbox "Select Exchange" (map JStr offered_exchanges))
        (selectbox "Select Pair" offered_pairs)
        (after_send s1 (pairs_request s1 coin)) /\
    NoDup offered_exchanges /\
    (forall e, In e offered_exchanges <->
               exists i, In {| exchange := e; instrumentId := i |}
                            (select upper coin exchanges)) /\
    (forall e,
       selectbox "Select Exchange" (map JStr offered_exchanges) = JStr e ->
       forall i, In i offered_pairs <->
                 In {| exchange := e; instrumentId := i |}
                    (select upper coin exchanges)).
Proof.
  cbv zeta. intros Hk Hne Hdel Hd Hu Hsel.
  exists (unique (map exchange (select upper (upper text_input) exchanges))).
  exists (pairs_on
            (selectbox "Select Exchange"
               (map JStr
                  (unique (map exchange
                             (select upper (upper text_input) exchanges)))))
            (select upper (upper text_input) exchanges)).
  split; [|split; [|split]].
  - unfold main. unfold bind at 1. unfold lift at 1. rewrite Hk.
    unfold bind at 1. unfold construct at 1. fold (constructed s key).
    rewrite (proj2 (String.eqb_neq _ _) Hne).
    unfold bind at 1. rewrite (pairs_delivered upper Hdel).
    unfold resolve. rewrite Hd. cbn [and_then items].
    rewrite (scan_exchanges_usable Hu). cbn [app].
    destruct (select upper (upper text_input) exchanges) as [|p pairs];
      [contradiction | reflexivity].
  - apply unique_NoDup.
  - intros e. rewrite unique_In, in_map_iff. split.
    + intros ([e' i] & He & Hin). simpl in He. subst. now exists i.
    + intros (i & Hin). now exists {| exchange := e; instrumentId := i |}.
  - intros e -> i. apply in_pairs_on.
Qed.

Lemma select_boxes_offer_the_pairs_witness :
  exists offered_exchanges offered_pairs,
    main str_upper provider pd.reference (@Return Figure) "btc"
      (fun _ options => hd JNull options) true
      (JObj [("coinglassSecret", JStr "k")]) s0
    = fetch_data provider pd.reference (@Return Figure) "BTC"
        (hd JNull (map JStr offered_exchanges)) (hd JNull offered_pairs)
        (after_send (constructed s0 "k")
           (pairs_request (constructed s0 "k") "BTC")) /\
    NoDup offered_exchanges /\
    (forall e, In e offered_exchanges <->
               exists i, In {| exchange := e; instrumentId := i |}
                            (select str_upper "BTC" catalog_exchanges)) /\
    (forall e,
       hd JNull (map JStr offered_exchanges) = JStr e ->
       forall i, In i offered_pairs <->
                 In {| exchange := e; instrumentId := i |}
                    (select str_upper "BTC" catalog_exchanges)).
Proof.
  apply (@select_boxes_offer_the_pairs str_upper provider pd.reference
           (@Return Figure) "btc" (fun _ options => hd JNull options)
           (JObj [("coinglassSecret", JStr "k")]) s0 "k" catalog_body
           catalog_exchanges eq_refl).
  - vm_compute. discriminate.
  - exists (ok catalog_body). repeat split.
  - reflexivity.
  - repeat constructor; simpl; eexists; (split; [reflexivity|]);
      repeat constructor.
  - vm_compute. discriminate.
Defined.
